(** * Virtual instrumentation of the Mali hardware counters (mali_kbase_vinstr.c)

    A shallow embedding of drivers/gpu/arm/t8xx/r7p0/mali_kbase_vinstr.c and
    the properties of it that the design document states.

    Conventions of the embedding.
    - A [u32] is a [Z] in [0, 2^32); arithmetic that C performs on 32 bits
      is wrapped explicitly with [wrap32].
    - The hardware dump buffer and the per client accumulation buffers are
      only ever accessed through 4-byte aligned 32-bit loads and stores
      (the [u32 *] cursors of [accum_dump_buffer], the 16-byte [memcpy] of a
      header and the [u32 *mask] at header offset 8), so a buffer is a list
      of 32-bit words; the byte offset [off] of the source designates the
      word of index [off / 4].
    - Pointers are integers, [0] is [NULL].
    - Calls that leave the file (allocation, context creation, the
      hardware counter block, the copy to user space) take their answers
      from an explicit environment record and are logged in a trace of
      events, most recent first. *)

From Stdlib Require Import ZArith List Bool Lia ZifyNat.
From stdpp Require Import base option list.

Local Open Scope Z_scope.

(** ** Constants *)

Definition NR_CNT_BLOCKS_PER_GROUP : Z := 8.
Definition NR_CNT_PER_BLOCK : Z := 64.
Definition NR_BYTES_PER_CNT : Z := 4.
Definition NR_BYTES_PER_HDR : Z := 16.
Definition PRFCNT_EN_MASK_OFFSET : Z := 8.

Definition U32_MAX : Z := 4294967295.
Definition sizeof_u32 : Z := 4.

Definition ENOMEM : Z := 12.
Definition EFAULT : Z := 14.
Definition EINVAL : Z := 22.

(** Reduction of a C expression of type [u32]. *)
Definition wrap32 (z : Z) : Z := z mod 2 ^ 32.

Definition is_u32 (z : Z) : Prop := 0 <= z <= U32_MAX.

(** ** Buffers of 32-bit words *)

(** Word index of a byte offset. *)
Definition word_of (off : Z) : nat := Z.to_nat (off / sizeof_u32).

(** [dst[d] = src[s]] on words.  A word outside either buffer is left
    alone. *)
Definition copy_word (dst src : list Z) (d s : nat) : list Z :=
  match src !! s with
  | Some w => <[d := w]> dst
  | None => dst
  end.

(** [memcpy(&dst[doff], &src[soff], nbytes)], one word at a time.  (The
    loops of this file take their iteration count as last argument.) *)
Fixpoint memcpy_words (dst src : list Z) (d s : nat) (n : nat) : list Z :=
  match n with
  | O => dst
  | S n' => memcpy_words (copy_word dst src d s) src (S d) (S s) n'
  end.

Definition memcpy (dst : list Z) (doff : Z) (src : list Z) (soff : Z)
    (nbytes : Z) : list Z :=
  memcpy_words dst src (word_of doff) (word_of soff)
    (Z.to_nat (nbytes / sizeof_u32)).

(** [mask = (u32 * )&dst[off]; *mask &= m]. *)
Definition and_u32 (dst : list Z) (off : Z) (m : Z) : list Z :=
  match dst !! word_of off with
  | Some w => <[word_of off := Z.land w m]> dst
  | None => dst
  end.

(** [memset(buf, 0, nbytes)]. *)
Definition memset0 (buf : list Z) (nbytes : Z) : list Z :=
  let n := Z.to_nat (nbytes / sizeof_u32) in
  replicate (length (take n buf)) 0 ++ drop n buf.

(** The first [nbytes] bytes of a buffer, as a copy reads them. *)
Definition read_bytes (buf : list Z) (nbytes : Z) : list Z :=
  take (Z.to_nat (nbytes / sizeof_u32)) buf.

(** ** Counter bitmaps *)

Inductive hwcnt_bm : Type :=
  | JM_HWCNT_BM
  | TILER_HWCNT_BM
  | SHADER_HWCNT_BM
  | MMU_L2_HWCNT_BM.

(** [u32 bitmap[4]], indexed by [hwcnt_bm]. *)
Record bitmap4 : Type := Bitmap {
  bm_jm : Z;
  bm_tiler : Z;
  bm_shader : Z;
  bm_mmu_l2 : Z
}.

Definition bm_get (b : bitmap4) (i : hwcnt_bm) : Z :=
  match i with
  | JM_HWCNT_BM => bm_jm b
  | TILER_HWCNT_BM => bm_tiler b
  | SHADER_HWCNT_BM => bm_shader b
  | MMU_L2_HWCNT_BM => bm_mmu_l2 b
  end.

Definition zerobitmap : bitmap4 := Bitmap 0 0 0 0.

(** The functions return the new contents of [dst]. *)
Definition hwcnt_bitmap_set (dst src : bitmap4) : bitmap4 :=
  Bitmap (bm_get src JM_HWCNT_BM) (bm_get src TILER_HWCNT_BM)
         (bm_get src SHADER_HWCNT_BM) (bm_get src MMU_L2_HWCNT_BM).

Definition hwcnt_bitmap_union (dst src : bitmap4) : bitmap4 :=
  Bitmap (Z.lor (bm_get dst JM_HWCNT_BM) (bm_get src JM_HWCNT_BM))
         (Z.lor (bm_get dst TILER_HWCNT_BM) (bm_get src TILER_HWCNT_BM))
         (Z.lor (bm_get dst SHADER_HWCNT_BM) (bm_get src SHADER_HWCNT_BM))
         (Z.lor (bm_get dst MMU_L2_HWCNT_BM) (bm_get src MMU_L2_HWCNT_BM)).

(** ** The device *)

(** What the file reads of [struct kbase_device].  The three topology
    counts are loaded into [u32] locals by the source; the declarations of
    the fields themselves live in headers outside this file.
    [MALI_SEC_HWCNT] is the preprocessor symbol of the platform build. *)
Record kbase_device : Type := {
  hw_feature_v4 : bool;
  num_core_groups : Z;
  num_l2_slices : Z;
  num_cores : Z;
  MALI_SEC_HWCNT : bool
}.

(** ** Accumulation of one dump (accum_dump_buffer) *)

(** The body of the inner loop: saturate if the addition would wrap. *)
Definition accum_u32 (d s : Z) : Z :=
  if U32_MAX - d <? s then U32_MAX else wrap32 (d + s).

(** One iteration of the inner loop, the two cursors [d] and [s] at their
    common word position [p]. *)
Definition accum_word (dst src : list Z) (p : nat) : list Z :=
  match dst !! p, src !! p with
  | Some d, Some s => <[p := accum_u32 d s]> dst
  | _, _ => dst
  end.

(** The inner loop, [j] counters from position [p]. *)
Fixpoint accum_counters (dst src : list Z) (p : nat) (j : nat) : list Z :=
  match j with
  | O => dst
  | S j' => accum_counters (accum_word dst src p) src (S p) j'
  end.

(** The outer loop, [nblk] iterations from word position [p].  [hdr] is
    the number of words the cursors skip at the head of a block,
    [NR_BYTES_PER_HDR / sizeof(u32)], and [cnt] the bound of the inner
    loop, [(block_size - NR_BYTES_PER_HDR) / sizeof(u32)]. *)
Fixpoint accum_blocks (hdr cnt : nat) (dst src : list Z) (p : nat)
    (nblk : nat) : list Z :=
  match nblk with
  | O => dst
  | S k =>
      let p := (p + hdr)%nat in
      accum_blocks hdr cnt (accum_counters dst src p cnt) src (p + cnt)%nat k
  end.

(** [for (i = 0; i < dump_size; i += block_size)] runs
    [ceil (dump_size / block_size)] times. *)
Definition accum_dump_buffer (dst src : list Z) (dump_size : Z) : list Z :=
  let block_size := NR_CNT_PER_BLOCK * NR_BYTES_PER_CNT in
  accum_blocks (Z.to_nat (NR_BYTES_PER_HDR / sizeof_u32))
    (Z.to_nat ((block_size - NR_BYTES_PER_HDR) / sizeof_u32))
    dst src 0
    (Z.to_nat ((dump_size + block_size - 1) / block_size)).

(** ** Header patching *)

(** Byte offsets of the blocks of a core group (the [enum] of
    [patch_dump_buffer_hdr_v4]). *)
Definition SC0_BASE : Z := 0 * NR_CNT_PER_BLOCK * NR_BYTES_PER_CNT.
Definition SC1_BASE : Z := 1 * NR_CNT_PER_BLOCK * NR_BYTES_PER_CNT.
Definition SC2_BASE : Z := 2 * NR_CNT_PER_BLOCK * NR_BYTES_PER_CNT.
Definition SC3_BASE : Z := 3 * NR_CNT_PER_BLOCK * NR_BYTES_PER_CNT.
Definition TILER_BASE : Z := 4 * NR_CNT_PER_BLOCK * NR_BYTES_PER_CNT.
Definition MMU_L2_BASE : Z := 5 * NR_CNT_PER_BLOCK * NR_BYTES_PER_CNT.
Definition JM_BASE : Z := 7 * NR_CNT_PER_BLOCK * NR_BYTES_PER_CNT.

(** The body of the loop over the core groups. *)
Definition patch_group_v4 (bm : bitmap4) (src : list Z) (group : Z)
    (dst : list Z) : list Z :=
  (* copy shader core headers *)
  let dst := memcpy dst (group + SC0_BASE) src (group + SC0_BASE)
               NR_BYTES_PER_HDR in
  let dst := memcpy dst (group + SC1_BASE) src (group + SC1_BASE)
               NR_BYTES_PER_HDR in
  let dst := memcpy dst (group + SC2_BASE) src (group + SC2_BASE)
               NR_BYTES_PER_HDR in
  let dst := memcpy dst (group + SC3_BASE) src (group + SC3_BASE)
               NR_BYTES_PER_HDR in
  (* copy tiler header *)
  let dst := memcpy dst (group + TILER_BASE) src (group + TILER_BASE)
               NR_BYTES_PER_HDR in
  (* copy mmu header *)
  let dst := memcpy dst (group + MMU_L2_BASE) src (group + MMU_L2_BASE)
               NR_BYTES_PER_HDR in
  (* copy job manager header *)
  let dst := memcpy dst (group + JM_BASE) src (group + JM_BASE)
               NR_BYTES_PER_HDR in
  (* patch the shader core enable mask *)
  let dst := and_u32 dst (group + SC0_BASE + PRFCNT_EN_MASK_OFFSET)
               (bm_get bm SHADER_HWCNT_BM) in
  let dst := and_u32 dst (group + SC1_BASE + PRFCNT_EN_MASK_OFFSET)
               (bm_get bm SHADER_HWCNT_BM) in
  let dst := and_u32 dst (group + SC2_BASE + PRFCNT_EN_MASK_OFFSET)
               (bm_get bm SHADER_HWCNT_BM) in
  let dst := and_u32 dst (group + SC3_BASE + PRFCNT_EN_MASK_OFFSET)
               (bm_get bm SHADER_HWCNT_BM) in
  (* patch the tiler core enable mask *)
  let dst := and_u32 dst (group + TILER_BASE + PRFCNT_EN_MASK_OFFSET)
               (bm_get bm TILER_HWCNT_BM) in
  (* patch the mmu core enable mask *)
  let dst := and_u32 dst (group + MMU_L2_BASE + PRFCNT_EN_MASK_OFFSET)
               (bm_get bm MMU_L2_HWCNT_BM) in
  (* patch the job manager enable mask *)
  and_u32 dst (group + JM_BASE + PRFCNT_EN_MASK_OFFSET)
    (bm_get bm JM_HWCNT_BM).

(** [for (i = 0; i < nr_cg; i++)], written as [n] iterations from [i]. *)
Fixpoint patch_groups_v4 (bm : bitmap4) (src dst : list Z) (i : Z) (n : nat)
    : list Z :=
  match n with
  | O => dst
  | S n' =>
      let group_size := NR_CNT_BLOCKS_PER_GROUP * NR_CNT_PER_BLOCK *
                        NR_BYTES_PER_CNT in
      let group := i * group_size in
      patch_groups_v4 bm src (patch_group_v4 bm src group dst) (i + 1) n'
  end.

Definition patch_dump_buffer_hdr_v4 (kbdev : kbase_device) (bm : bitmap4)
    (src dst : list Z) : list Z :=
  let nr_cg := wrap32 (num_core_groups kbdev) in
  patch_groups_v4 bm src dst 0 (Z.to_nat nr_cg).

(** "copy and patch" one header at byte position [pos] of both buffers. *)
Definition copy_patch_hdr (src : list Z) (pos : Z) (m : Z) (dst : list Z)
    : list Z :=
  let dst := memcpy dst pos src pos NR_BYTES_PER_HDR in
  and_u32 dst (pos + PRFCNT_EN_MASK_OFFSET) m.

(** A loop of [patch_dump_buffer_hdr_v5]: [n] headers patched with the
    mask [m], the cursors advancing by one block each time.  Returns the
    buffer and the byte position reached. *)
Fixpoint copy_patch_hdrs (src : list Z) (m : Z) (dst : list Z) (pos : Z)
    (n : nat) : list Z * Z :=
  match n with
  | O => (dst, pos)
  | S n' =>
      let block_size := NR_CNT_PER_BLOCK * NR_BYTES_PER_CNT in
      copy_patch_hdrs src m (copy_patch_hdr src pos m dst) (pos + block_size) n'
  end.

Definition patch_dump_buffer_hdr_v5 (kbdev : kbase_device) (bm : bitmap4)
    (src dst : list Z) : list Z :=
  let block_size := NR_CNT_PER_BLOCK * NR_BYTES_PER_CNT in
  let pos := 0 in
  (* copy and patch job manager header *)
  let dst := copy_patch_hdr src pos (bm_get bm JM_HWCNT_BM) dst in
  let pos := pos + block_size in
  (* copy and patch tiler header *)
  let dst := copy_patch_hdr src pos (bm_get bm TILER_HWCNT_BM) dst in
  let pos := pos + block_size in
  (* copy and patch MMU/L2C headers *)
  let nr_l2 := wrap32 (num_l2_slices kbdev) in
  let '(dst, pos) := copy_patch_hdrs src (bm_get bm MMU_L2_HWCNT_BM) dst pos
                       (Z.to_nat nr_l2) in
  (* copy and patch shader core headers *)
  let nr_sc := wrap32 (num_cores kbdev) in
  fst (copy_patch_hdrs src (bm_get bm SHADER_HWCNT_BM) dst pos
         (Z.to_nat nr_sc)).

(** ** Clients and the context *)

(** [struct kbase_vinstr_client].  [cli_addr] is the address of the
    record, which is what a caller holds as handle and what [detach]
    compares; [accum_buffer] is the contents of the buffer the field of
    the source points to. *)
Record kbase_vinstr_client : Type := {
  cli_addr : Z;
  kernel : bool;
  pending : bool;
  dump_buffer : Z;
  cli_dump_size : Z;
  cli_bitmap : bitmap4;
  accum_buffer : list Z
}.

(** [struct kbase_vinstr_context].  [clients] is the list in iteration
    order ([list_add] inserts at the head). *)
Record kbase_vinstr_context : Type := {
  kbdev : kbase_device;
  kctx : Z;
  gpu_va : Z;
  cpu_va : Z;
  dump_size : Z;
  bitmap : bitmap4;
  reprogram : bool;
  nclients : Z;
  clients : list kbase_vinstr_client
}.

Definition set_pending (v : bool) (c : kbase_vinstr_client)
    : kbase_vinstr_client :=
  {| cli_addr := cli_addr c; kernel := kernel c; pending := v;
     dump_buffer := dump_buffer c; cli_dump_size := cli_dump_size c;
     cli_bitmap := cli_bitmap c; accum_buffer := accum_buffer c |}.

Definition set_dump_buffer (v : Z) (c : kbase_vinstr_client)
    : kbase_vinstr_client :=
  {| cli_addr := cli_addr c; kernel := kernel c; pending := pending c;
     dump_buffer := v; cli_dump_size := cli_dump_size c;
     cli_bitmap := cli_bitmap c; accum_buffer := accum_buffer c |}.

Definition set_cli_dump_size (v : Z) (c : kbase_vinstr_client)
    : kbase_vinstr_client :=
  {| cli_addr := cli_addr c; kernel := kernel c; pending := pending c;
     dump_buffer := dump_buffer c; cli_dump_size := v;
     cli_bitmap := cli_bitmap c; accum_buffer := accum_buffer c |}.

Definition set_accum_buffer (v : list Z) (c : kbase_vinstr_client)
    : kbase_vinstr_client :=
  {| cli_addr := cli_addr c; kernel := kernel c; pending := pending c;
     dump_buffer := dump_buffer c; cli_dump_size := cli_dump_size c;
     cli_bitmap := cli_bitmap c; accum_buffer := v |}.

Definition set_kctx (v : Z) (x : kbase_vinstr_context)
    : kbase_vinstr_context :=
  {| kbdev := kbdev x; kctx := v; gpu_va := gpu_va x; cpu_va := cpu_va x;
     dump_size := dump_size x; bitmap := bitmap x; reprogram := reprogram x;
     nclients := nclients x; clients := clients x |}.

Definition set_gpu_va (v : Z) (x : kbase_vinstr_context)
    : kbase_vinstr_context :=
  {| kbdev := kbdev x; kctx := kctx x; gpu_va := v; cpu_va := cpu_va x;
     dump_size := dump_size x; bitmap := bitmap x; reprogram := reprogram x;
     nclients := nclients x; clients := clients x |}.

Definition set_cpu_va (v : Z) (x : kbase_vinstr_context)
    : kbase_vinstr_context :=
  {| kbdev := kbdev x; kctx := kctx x; gpu_va := gpu_va x; cpu_va := v;
     dump_size := dump_size x; bitmap := bitmap x; reprogram := reprogram x;
     nclients := nclients x; clients := clients x |}.

Definition set_dump_size (v : Z) (x : kbase_vinstr_context)
    : kbase_vinstr_context :=
  {| kbdev := kbdev x; kctx := kctx x; gpu_va := gpu_va x; cpu_va := cpu_va x;
     dump_size := v; bitmap := bitmap x; reprogram := reprogram x;
     nclients := nclients x; clients := clients x |}.

Definition set_bitmap (v : bitmap4) (x : kbase_vinstr_context)
    : kbase_vinstr_context :=
  {| kbdev := kbdev x; kctx := kctx x; gpu_va := gpu_va x; cpu_va := cpu_va x;
     dump_size := dump_size x; bitmap := v; reprogram := reprogram x;
     nclients := nclients x; clients := clients x |}.

Definition set_reprogram (v : bool) (x : kbase_vinstr_context)
    : kbase_vinstr_context :=
  {| kbdev := kbdev x; kctx := kctx x; gpu_va := gpu_va x; cpu_va := cpu_va x;
     dump_size := dump_size x; bitmap := bitmap x; reprogram := v;
     nclients := nclients x; clients := clients x |}.

Definition set_nclients (v : Z) (x : kbase_vinstr_context)
    : kbase_vinstr_context :=
  {| kbdev := kbdev x; kctx := kctx x; gpu_va := gpu_va x; cpu_va := cpu_va x;
     dump_size := dump_size x; bitmap := bitmap x; reprogram := reprogram x;
     nclients := v; clients := clients x |}.

Definition set_clients (v : list kbase_vinstr_client)
    (x : kbase_vinstr_context) : kbase_vinstr_context :=
  {| kbdev := kbdev x; kctx := kctx x; gpu_va := gpu_va x; cpu_va := cpu_va x;
     dump_size := dump_size x; bitmap := bitmap x; reprogram := reprogram x;
     nclients := nclients x; clients := v |}.

(** ** Calls that leave the file *)

Inductive event : Type :=
  | EvCreateContext (k : Z)                (* kbase_create_context, non NULL *)
  | EvDestroyContext (k : Z)               (* kbase_destroy_context *)
  | EvMemAlloc (gpu : Z)                   (* kbase_mem_alloc, non NULL *)
  | EvMemFree (gpu : Z)                    (* kbase_mem_free *)
  | EvVmap (cpu : Z)                       (* kbase_vmap, non NULL *)
  | EvVunmap                               (* kbase_vunmap *)
  | EvHwcntEnable (buf : Z) (setup : bitmap4) (err : Z)
                                           (* kbase_instr_hwcnt_enable *)
  | EvHwcntDisable                         (* kbase_instr_hwcnt_disable *)
  | EvRequestDump (err : Z)                (* kbase_instr_hwcnt_request_dump *)
  | EvWaitForDump (err : Z)                (* kbase_instr_hwcnt_wait_for_dump *)
  | EvHwcntClear (err : Z)                 (* kbase_instr_hwcnt_clear *)
  | EvCopyToUser (dst : Z) (data : list Z) (not_copied : Z)
                                           (* copy_to_user *)
  | EvMemcpy (dst : Z) (data : list Z).    (* memcpy to a kernel client *)

(** The context together with the log of the calls made so far, most
    recent first. *)
Record machine : Type := {
  m_ctx : kbase_vinstr_context;
  m_trace : list event
}.

(** State passing over [machine]. *)
Definition M (A : Type) : Type := machine -> A * machine.

Definition ret {A : Type} (a : A) : M A := fun m => (a, m).

Definition bind {A B : Type} (c : M A) (k : A -> M B) : M B :=
  fun m => let '(a, m') := c m in k a m'.

Notation "x <-- c ; k" := (bind c (fun x => k))
  (at level 100, c at next level, k at level 200, right associativity).
Notation "c ;> k" := (bind c (fun _ => k))
  (at level 100, k at level 200, right associativity).

Definition get_ctx : M kbase_vinstr_context := fun m => (m_ctx m, m).

Definition update (f : kbase_vinstr_context -> kbase_vinstr_context)
    : M unit :=
  fun m => (tt, {| m_ctx := f (m_ctx m); m_trace := m_trace m |}).

Definition emit (e : event) : M unit :=
  fun m => (tt, {| m_ctx := m_ctx m; m_trace := e :: m_trace m |}).

(** Answers of the callees of [kbase_vinstr_attach_client]. *)
Record attach_env : Type := {
  kmalloc_cli : Z;          (* kmalloc(sizeof( *cli)) *)
  create_context_ret : Z;   (* kbase_create_context *)
  mem_alloc_reg : Z;        (* kbase_mem_alloc, the region *)
  mem_alloc_gpu_va : Z;     (* what kbase_mem_alloc stores in ctx->gpu_va *)
  vmap_ret : Z;             (* kbase_vmap *)
  hwcnt_enable_ret : Z;     (* kbase_instr_hwcnt_enable *)
  kzalloc_accum : Z         (* kzalloc(cli->dump_size) *)
}.

(** Answers of the callees of [kbase_vinstr_dump] and [kbase_vinstr_clear].
    [hw_dump] is what the shared buffer at [ctx->cpu_va] holds once the
    hardware has completed the dump; [hwcnt_is_attach] is the value of
    [kbdev->hwcnt.is_hwcnt_attach] at the time of the call. *)
Record dump_env : Type := {
  request_dump_ret : Z;
  wait_for_dump_ret : Z;
  hwcnt_clear_ret : Z;
  hw_dump : list Z;
  copy_to_user_ret : Z;
  reprogram_enable_ret : Z;
  hwcnt_is_attach : bool
}.

(** ** Hardware counter block *)

Definition enable_hwcnt (err : Z) : M Z :=
  ctx <-- get_ctx ;
  emit (EvHwcntEnable (gpu_va ctx) (hwcnt_bitmap_set zerobitmap (bitmap ctx))
          err) ;>
  ret err.

Definition disable_hwcnt : M unit := emit EvHwcntDisable.

Definition reprogram_hwcnt (err : Z) : M Z :=
  disable_hwcnt ;>
  enable_hwcnt err.

(** ** Size of a dump *)

Definition kbase_vinstr_dump_size (ctx : kbase_vinstr_context) : Z :=
  let kbdev := kbdev ctx in
  if hw_feature_v4 kbdev then
    let nr_cg := wrap32 (num_core_groups kbdev) in
    wrap32 (wrap32 (wrap32 (nr_cg * NR_CNT_BLOCKS_PER_GROUP) *
                    NR_CNT_PER_BLOCK) *
            NR_BYTES_PER_CNT)
  else
    let nr_l2 := wrap32 (num_l2_slices kbdev) in
    let nr_sc := wrap32 (num_cores kbdev) in
    wrap32 (wrap32 (wrap32 (wrap32 (2 + nr_l2) + nr_sc) *
                    NR_CNT_PER_BLOCK) *
            NR_BYTES_PER_CNT).

(** ** The kernel dump buffer and the hardware context *)

Definition map_kernel_dump_buffer (e : attach_env) : M Z :=
  update (fun ctx => set_dump_size (kbase_vinstr_dump_size ctx) ctx) ;>
  update (set_gpu_va (mem_alloc_gpu_va e)) ;>
  if mem_alloc_reg e =? 0 then ret (- ENOMEM)
  else
    ctx <-- get_ctx ;
    emit (EvMemAlloc (gpu_va ctx)) ;>
    update (set_cpu_va (vmap_ret e)) ;>
    if vmap_ret e =? 0 then
      emit (EvMemFree (gpu_va ctx)) ;>
      ret (- ENOMEM)
    else
      emit (EvVmap (vmap_ret e)) ;>
      ret 0.

Definition unmap_kernel_dump_buffer : M unit :=
  ctx <-- get_ctx ;
  emit EvVunmap ;>
  emit (EvMemFree (gpu_va ctx)).

Definition create_vinstr_kctx (e : attach_env) : M Z :=
  update (set_kctx (create_context_ret e)) ;>
  if create_context_ret e =? 0 then ret (- ENOMEM)
  else
    emit (EvCreateContext (create_context_ret e)) ;>
    err <-- map_kernel_dump_buffer e ;
    if negb (err =? 0) then
      (* err0 *)
      ctx <-- get_ctx ;
      emit (EvDestroyContext (kctx ctx)) ;>
      ret err
    else
      err <-- enable_hwcnt (hwcnt_enable_ret e) ;
      if negb (err =? 0) then
        (* err1 *)
        unmap_kernel_dump_buffer ;>
        ctx <-- get_ctx ;
        emit (EvDestroyContext (kctx ctx)) ;>
        ret err
      else ret 0.

Definition destroy_vinstr_kctx : M unit :=
  disable_hwcnt ;>
  unmap_kernel_dump_buffer ;>
  ctx <-- get_ctx ;
  emit (EvDestroyContext (kctx ctx)) ;>
  update (set_kctx 0).

(** [kbase_vinstr_init]: the context as [kzalloc] leaves it, the list of
    clients empty. *)
Definition kbase_vinstr_init (dev : kbase_device) : kbase_vinstr_context :=
  {| kbdev := dev; kctx := 0; gpu_va := 0; cpu_va := 0; dump_size := 0;
     bitmap := zerobitmap; reprogram := false; nclients := 0;
     clients := [] |}.

Definition boot (dev : kbase_device) : machine :=
  {| m_ctx := kbase_vinstr_init dev; m_trace := [] |}.

(** ** Attaching and detaching clients *)

(** Returns the error code and the client with its two fields set. *)
Definition map_client_accum_buffer (e : attach_env)
    (cli : kbase_vinstr_client) : M (Z * kbase_vinstr_client) :=
  ctx <-- get_ctx ;
  let cli := set_cli_dump_size (kbase_vinstr_dump_size ctx) cli in
  if kzalloc_accum e =? 0 then ret (- ENOMEM, cli)
  else
    let zeroed := replicate (Z.to_nat (cli_dump_size cli / sizeof_u32)) 0 in
    ret (0, set_accum_buffer zeroed cli).

(** Returns the address of the new client, [0] on failure. *)
Definition kbase_vinstr_attach_client (e : attach_env) (kernel_ : bool)
    (dump_buffer_ : Z) (bitmap_ : bitmap4) : M Z :=
  if kmalloc_cli e =? 0 then ret 0
  else
    let cli := {| cli_addr := kmalloc_cli e; kernel := kernel_;
                  pending := true; dump_buffer := dump_buffer_;
                  cli_dump_size := 0;
                  cli_bitmap := hwcnt_bitmap_set zerobitmap bitmap_;
                  accum_buffer := [] |} in
    update (fun ctx =>
      set_bitmap (hwcnt_bitmap_union (bitmap ctx) (cli_bitmap cli)) ctx) ;>
    update (set_reprogram true) ;>
    ctx <-- get_ctx ;
    first <-- (if nclients ctx =? 0 then
                 update (fun ctx =>
                   set_bitmap (hwcnt_bitmap_set (bitmap ctx) (cli_bitmap cli))
                     ctx) ;>
                 err <-- create_vinstr_kctx e ;
                 if err <? 0 then ret None
                 else
                   update (set_reprogram false) ;>
                   ret (Some (set_pending false cli))
               else ret (Some cli)) ;
    match first with
    | None => ret 0
    | Some cli =>
        ctx <-- get_ctx ;
        let cli := if MALI_SEC_HWCNT (kbdev ctx) && (dump_buffer cli =? 0)
                   then set_dump_buffer (cpu_va ctx) cli else cli in
        r <-- map_client_accum_buffer e cli ;
        let '(err, cli) := r in
        if err <? 0 then
          ctx <-- get_ctx ;
          (if nclients ctx =? 0 then destroy_vinstr_kctx else ret tt) ;>
          ret 0
        else
          update (fun ctx => set_nclients (wrap32 (nclients ctx + 1)) ctx) ;>
          update (fun ctx => set_clients (cli :: clients ctx) ctx) ;>
          ret (cli_addr cli)
    end.

(** The first loop of [kbase_vinstr_detach_client]: the list without the
    first entry whose address is [cli], if there is one. *)
Fixpoint list_del (cli : Z) (l : list kbase_vinstr_client)
    : option (list kbase_vinstr_client) :=
  match l with
  | [] => None
  | iter :: l' =>
      if cli_addr iter =? cli then Some l'
      else match list_del cli l' with
           | Some r => Some (iter :: r)
           | None => None
           end
  end.

(** The second loop: union of the bitmaps of the entries into [acc]. *)
Fixpoint bitmap_union_all (acc : bitmap4) (l : list kbase_vinstr_client)
    : bitmap4 :=
  match l with
  | [] => acc
  | iter :: l' => bitmap_union_all (hwcnt_bitmap_union acc (cli_bitmap iter)) l'
  end.

Definition kbase_vinstr_detach_client (cli : Z) : M unit :=
  ctx <-- get_ctx ;
  (match list_del cli (clients ctx) with
   | Some rest =>
       update (set_reprogram true) ;>
       update (set_clients rest) ;>
       update (fun ctx => set_nclients (wrap32 (nclients ctx - 1)) ctx) ;>
       ctx <-- get_ctx ;
       if nclients ctx =? 0 then destroy_vinstr_kctx else ret tt
   | None => ret tt
   end) ;>
  (* Rebuild context bitmap now that the client has detached *)
  update (fun ctx => set_bitmap (hwcnt_bitmap_set (bitmap ctx) zerobitmap) ctx) ;>
  update (fun ctx => set_bitmap (bitmap_union_all (bitmap ctx) (clients ctx)) ctx).

(** ** Dumping *)

(** The body of the loop of [accum_clients] for the entry [iter]; [src] is
    the contents of the shared buffer. *)
Definition accum_client (ctx : kbase_vinstr_context) (src : list Z)
    (iter : kbase_vinstr_client) : kbase_vinstr_client :=
  if pending iter then iter
  else
    let patched :=
      if hw_feature_v4 (kbdev ctx)
      then patch_dump_buffer_hdr_v4 (kbdev ctx) (cli_bitmap iter) src
             (accum_buffer iter)
      else patch_dump_buffer_hdr_v5 (kbdev ctx) (cli_bitmap iter) src
             (accum_buffer iter) in
    set_accum_buffer (accum_dump_buffer patched src (cli_dump_size iter)) iter.

Definition accum_clients (src : list Z) : M unit :=
  update (fun ctx =>
    set_clients (accum_client ctx src <$> clients ctx) ctx).

(** The client a handle designates. *)
Fixpoint find_client (cli : Z) (l : list kbase_vinstr_client)
    : option kbase_vinstr_client :=
  match l with
  | [] => None
  | c :: l' => if cli_addr c =? cli then Some c else find_client cli l'
  end.

(** A store through the handle [cli]. *)
Fixpoint update_client (cli : Z)
    (f : kbase_vinstr_client -> kbase_vinstr_client)
    (l : list kbase_vinstr_client) : list kbase_vinstr_client :=
  match l with
  | [] => []
  | c :: l' =>
      if cli_addr c =? cli then f c :: l' else c :: update_client cli f l'
  end.

Definition list_is_singular (l : list kbase_vinstr_client) : bool :=
  match l with
  | [_] => true
  | _ => false
  end.

(** [memset(cli->accum_buffer, 0, cli->dump_size)]. *)
Definition clear_accum (c : kbase_vinstr_client) : kbase_vinstr_client :=
  set_accum_buffer (memset0 (accum_buffer c) (cli_dump_size c)) c.

(** The [if (ctx->reprogram)] block that ends both [kbase_vinstr_dump] and
    [kbase_vinstr_clear]; returns [err]. *)
Definition reprogram_tail (e : dump_env) : M Z :=
  ctx <-- get_ctx ;
  if reprogram ctx then
    err <-- reprogram_hwcnt (reprogram_enable_ret e) ;
    if negb (err =? 0) then ret err
    else
      update (set_reprogram false) ;>
      update (fun ctx =>
        set_clients (set_pending false <$> clients ctx) ctx) ;>
      ret 0
  else ret 0.

(** The result is [None] when the handle is neither [NULL] nor the address
    of a client attached to the context: the source would then read memory
    that is not described here. *)
Definition kbase_vinstr_dump (e : dump_env) (cli : Z) : M (option Z) :=
  if cli =? 0 then ret (Some (- EINVAL))
  else
    ctx <-- get_ctx ;
    match find_client cli (clients ctx) with
    | None => ret None
    | Some _ =>
        emit (EvRequestDump (request_dump_ret e)) ;>
        if negb (request_dump_ret e =? 0) then ret (Some (request_dump_ret e))
        else
          emit (EvWaitForDump (wait_for_dump_ret e)) ;>
          if negb (wait_for_dump_ret e =? 0)
          then ret (Some (wait_for_dump_ret e))
          else if MALI_SEC_HWCNT (kbdev ctx) &&
                  list_is_singular (clients ctx) && hwcnt_is_attach e
          then ret (Some 0)
          else
            accum_clients (hw_dump e) ;>
            ctx <-- get_ctx ;
            match find_client cli (clients ctx) with
            | None => ret None
            | Some c =>
                let data := read_bytes (accum_buffer c) (cli_dump_size c) in
                err <-- (if negb (kernel c) then
                           emit (EvCopyToUser (dump_buffer c) data
                                   (copy_to_user_ret e)) ;>
                           if negb (copy_to_user_ret e =? 0)
                           then ret (- EFAULT) else ret 0
                         else
                           emit (EvMemcpy (dump_buffer c) data) ;>
                           ret 0) ;
                if negb (err =? 0) then ret (Some err)
                else
                  update (fun ctx =>
                    set_clients (update_client cli clear_accum (clients ctx))
                      ctx) ;>
                  err <-- reprogram_tail e ;
                  ret (Some err)
            end
    end.

Definition kbase_vinstr_clear (e : dump_env) (cli : Z) : M (option Z) :=
  if cli =? 0 then ret (Some (- EINVAL))
  else
    ctx <-- get_ctx ;
    match find_client cli (clients ctx) with
    | None => ret None
    | Some _ =>
        emit (EvRequestDump (request_dump_ret e)) ;>
        if negb (request_dump_ret e =? 0) then ret (Some (request_dump_ret e))
        else
          emit (EvWaitForDump (wait_for_dump_ret e)) ;>
          if negb (wait_for_dump_ret e =? 0)
          then ret (Some (wait_for_dump_ret e))
          else
            emit (EvHwcntClear (hwcnt_clear_ret e)) ;>
            if negb (hwcnt_clear_ret e =? 0)
            then ret (Some (hwcnt_clear_ret e))
            else
              accum_clients (hw_dump e) ;>
              update (fun ctx =>
                set_clients (update_client cli clear_accum (clients ctx))
                  ctx) ;>
              err <-- reprogram_tail e ;
              ret (Some err)
    end.

(** ** Sequences of operations *)

Inductive op : Type :=
  | OpAttach (e : attach_env) (kernel_ : bool) (dump_buffer_ : Z)
      (bitmap_ : bitmap4)
  | OpDetach (cli : Z)
  | OpDump (e : dump_env) (cli : Z)
  | OpClear (e : dump_env) (cli : Z).

(** What the callees of [attach] are relied on for: [kmalloc] does not
    return the address of a live client, the hardware layer reports an
    error as a negative number, and the memory cannot hold so many clients
    that the 32-bit count wraps. *)
Definition attach_env_ok (e : attach_env) (ctx : kbase_vinstr_context)
    : bool :=
  (hwcnt_enable_ret e <=? 0) &&
  (nclients ctx <? U32_MAX) &&
  match find_client (kmalloc_cli e) (clients ctx) with
  | Some _ => false
  | None => true
  end.

(** One operation; [None] when the environment or the handle is not
    admissible. *)
Definition exec_op (o : op) (m : machine) : option machine :=
  match o with
  | OpAttach e k d b =>
      if attach_env_ok e (m_ctx m)
      then Some (snd (kbase_vinstr_attach_client e k d b m))
      else None
  | OpDetach cli => Some (snd (kbase_vinstr_detach_client cli m))
  | OpDump e cli =>
      match kbase_vinstr_dump e cli m with
      | (Some _, m') => Some m'
      | (None, _) => None
      end
  | OpClear e cli =>
      match kbase_vinstr_clear e cli m with
      | (Some _, m') => Some m'
      | (None, _) => None
      end
  end.

Fixpoint exec (ops : list op) (m : machine) : option machine :=
  match ops with
  | [] => Some m
  | o :: ops' =>
      match exec_op o m with
      | Some m' => exec ops' m'
      | None => None
      end
  end.

(** ** Vocabulary of the statements *)

(** The word of index [h] of a patched header whose source word is [w]:
    word 2, at byte offset [PRFCNT_EN_MASK_OFFSET], is the enable mask and
    is and-ed with the mask [m] of the client; the other words are
    copied. *)
Definition hdr_word (m : Z) (h : nat) (w : Z) : Z :=
  if decide (h = 2%nat) then Z.land w m else w.

(** The counter category under which the walk of
    [patch_dump_buffer_hdr_v4] patches the block of index [j] of a core
    group, [None] for a block the walk never touches (see
    [patch_group_v4_lookup]). *)
Definition v4_group_category (j : nat) : option hwcnt_bm :=
  match j with
  | 0 | 1 | 2 | 3 => Some SHADER_HWCNT_BM
  | 4 => Some TILER_HWCNT_BM
  | 5 => Some MMU_L2_HWCNT_BM
  | 7 => Some JM_HWCNT_BM
  | _ => None
  end%nat.

(** The category under which the walk of the active layout patches the
    block of index [b] of the dump buffer (see
    [patch_dump_buffer_hdr_v4_lookup] and
    [patch_dump_buffer_hdr_v5_lookup]). *)
Definition block_category (kbdev : kbase_device) (b : nat)
    : option hwcnt_bm :=
  if hw_feature_v4 kbdev then
    if decide (b / 8 < Z.to_nat (wrap32 (num_core_groups kbdev)))%nat
    then v4_group_category (b mod 8) else None
  else
    let nr_l2 := Z.to_nat (wrap32 (num_l2_slices kbdev)) in
    let nr_sc := Z.to_nat (wrap32 (num_cores kbdev)) in
    if decide (b = 0)%nat then Some JM_HWCNT_BM
    else if decide (b = 1)%nat then Some TILER_HWCNT_BM
    else if decide (b < 2 + nr_l2)%nat then Some MMU_L2_HWCNT_BM
    else if decide (b < 2 + nr_l2 + nr_sc)%nat then Some SHADER_HWCNT_BM
    else None.

(** Word [k] of a buffer after a header walk: patched from [src] when the
    word belongs to a header the walk visits under category [c], the word
    of [dst] otherwise. *)
Definition hdr_view (src dst : list Z) (bm : bitmap4) (k : nat)
    (c : option hwcnt_bm) : option Z :=
  match c with
  | Some c => hdr_word (bm_get bm c) (k mod 64) <$> src !! k
  | None => dst !! k
  end.

(** Hardware contexts, buffer regions and CPU mappings alive after a
    trace: creations minus destructions. *)
Definition kctx_delta (e : event) : Z :=
  match e with
  | EvCreateContext _ => 1
  | EvDestroyContext _ => -1
  | _ => 0
  end.

Definition region_delta (e : event) : Z :=
  match e with
  | EvMemAlloc _ => 1
  | EvMemFree _ => -1
  | _ => 0
  end.

Definition vmap_delta (e : event) : Z :=
  match e with
  | EvVmap _ => 1
  | EvVunmap => -1
  | _ => 0
  end.

Fixpoint live (delta : event -> Z) (tr : list event) : Z :=
  match tr with
  | [] => 0
  | e :: tr' => delta e + live delta tr'
  end.

(** Number of events of a trace that [delta] counts with the sign [s]. *)
Fixpoint count_delta (delta : event -> Z) (s : Z) (tr : list event) : nat :=
  match tr with
  | [] => O
  | e :: tr' =>
      if delta e =? s then S (count_delta delta s tr')
      else count_delta delta s tr'
  end.

(** The count stays within [{0, 1}] at every point of the trace. *)
Fixpoint at_every_point (delta : event -> Z) (tr : list event) : Prop :=
  match tr with
  | [] => True
  | _ :: tr' => 0 <= live delta tr <= 1 /\ at_every_point delta tr'
  end.

(** A buffer that reads as zero everywhere. *)
Definition all_zero (buf : list Z) : Prop := Forall (fun w => w = 0) buf.

(** The data of the deliveries logged in a trace. *)
Fixpoint delivered (tr : list event) : list (list Z) :=
  match tr with
  | [] => []
  | EvCopyToUser _ data _ :: tr' => data :: delivered tr'
  | EvMemcpy _ data :: tr' => data :: delivered tr'
  | _ :: tr' => delivered tr'
  end.

(** The category-wise union of the masks of a list of clients. *)
Definition union_of_masks (l : list kbase_vinstr_client) : bitmap4 :=
  fold_right (fun c acc => hwcnt_bitmap_union acc (cli_bitmap c))
    zerobitmap l.

(** ** Invariant, relations between states and concrete configurations *)

Definition sat_dst : list Z := replicate 4 7 ++ [4294967290; 5; 4294967295] ++ replicate 57 0.
Definition sat_src : list Z := replicate 4 9 ++ [10; 6; 1] ++ replicate 57 1.

Definition dev_v5 : kbase_device :=
  {| hw_feature_v4 := false; num_core_groups := 1; num_l2_slices := 1;
     num_cores := 2; MALI_SEC_HWCNT := false |}.

Definition dev_v4 : kbase_device :=
  {| hw_feature_v4 := true; num_core_groups := 1; num_l2_slices := 1;
     num_cores := 4; MALI_SEC_HWCNT := false |}.

(** A client that is not pending, with an all-zero accumulation buffer of
    [nwords] words. *)
Definition ready_client (addr : Z) (bm : bitmap4) (nwords : nat)
    : kbase_vinstr_client :=
  {| cli_addr := addr; kernel := false; pending := false; dump_buffer := 4096;
     cli_dump_size := 4 * Z.of_nat nwords; cli_bitmap := bm;
     accum_buffer := replicate nwords 0 |}.

Definition ctx_with (dev : kbase_device) (l : list kbase_vinstr_client)
    : kbase_vinstr_context :=
  set_clients l (set_nclients (Z.of_nat (length l)) (kbase_vinstr_init dev)).

Definition all_ones : bitmap4 := Bitmap U32_MAX U32_MAX U32_MAX U32_MAX.

(** One mask bit per category, to tell the categories apart. *)
Definition probe_bitmap : bitmap4 := Bitmap 1 2 4 8.

Definition occupancy (l : list kbase_vinstr_client) : Z :=
  match l with
  | [] => 0
  | _ => 1
  end.

Record inv (m : machine) : Prop := {
  inv_count : nclients (m_ctx m) = Z.of_nat (length (clients (m_ctx m)));
  inv_bound : nclients (m_ctx m) <= U32_MAX;
  inv_nodup : NoDup (cli_addr <$> clients (m_ctx m));
  inv_zero : Forall (fun c => pending c = true -> all_zero (accum_buffer c))
               (clients (m_ctx m));
  inv_kctx_pts : at_every_point kctx_delta (m_trace m);
  inv_region_pts : at_every_point region_delta (m_trace m);
  inv_vmap_pts : at_every_point vmap_delta (m_trace m);
  inv_kctx : live kctx_delta (m_trace m) = occupancy (clients (m_ctx m));
  inv_region : live region_delta (m_trace m) = occupancy (clients (m_ctx m));
  inv_vmap : live vmap_delta (m_trace m) = occupancy (clients (m_ctx m))
}.

(** Functions on clients that keep the address and the "pending implies
    zero" property. *)
Definition keeps_addr (f : kbase_vinstr_client -> kbase_vinstr_client) : Prop :=
  forall c, cli_addr (f c) = cli_addr c.

Definition keeps_zero (f : kbase_vinstr_client -> kbase_vinstr_client) : Prop :=
  forall c, (pending c = true -> all_zero (accum_buffer c)) ->
            pending (f c) = true -> all_zero (accum_buffer (f c)).

Definition neutral (e : event) : Prop :=
  kctx_delta e = 0 /\ region_delta e = 0 /\ vmap_delta e = 0.

(** The conditions under which [kbase_vinstr_dump] reaches the copy to the
    destination of the client [c] that the handle [cli] designates. *)
Definition reaches_copy (e : dump_env) (cli : Z) (m : machine)
    (c : kbase_vinstr_client) : Prop :=
  cli <> 0 /\
  find_client cli (clients (m_ctx m)) = Some c /\
  request_dump_ret e = 0 /\
  wait_for_dump_ret e = 0 /\
  (MALI_SEC_HWCNT (kbdev (m_ctx m)) && list_is_singular (clients (m_ctx m)) &&
   hwcnt_is_attach e) = false.

(** Two client lists with the same addresses and the same pending flags,
    position by position. *)
Definition same_flags (l l' : list kbase_vinstr_client) : Prop :=
  cli_addr <$> l' = cli_addr <$> l /\ pending <$> l' = pending <$> l.

Definition keeps_pending (f : kbase_vinstr_client -> kbase_vinstr_client)
    : Prop :=
  forall c, pending (f c) = pending c.

(** What an operation does to the pending flags of the clients: they are
    left as they were, or a reprogram has succeeded. *)
Definition reprogrammed (o : op) (m m' : machine) : Prop :=
  (exists e cli, (o = OpDump e cli \/ o = OpClear e cli) /\
                 reprogram_enable_ret e = 0) /\
  reprogram (m_ctx m) = true /\
  reprogram (m_ctx m') = false /\
  Forall (fun c => pending c = false) (clients (m_ctx m')).

(** Answers of an environment in which every call succeeds; the client
    record is allocated at [p]. *)
Definition env_ok (p : Z) : attach_env :=
  {| kmalloc_cli := p; create_context_ret := 32768; mem_alloc_reg := 36864;
     mem_alloc_gpu_va := 40960; vmap_ret := 45056; hwcnt_enable_ret := 0;
     kzalloc_accum := 49152 |}.

(** [kbase_create_context] fails. *)
Definition env_no_context (p : Z) : attach_env :=
  {| kmalloc_cli := p; create_context_ret := 0; mem_alloc_reg := 36864;
     mem_alloc_gpu_va := 40960; vmap_ret := 45056; hwcnt_enable_ret := 0;
     kzalloc_accum := 49152 |}.

(** The [kzalloc] of the accumulation buffer fails. *)
Definition env_no_accum (p : Z) : attach_env :=
  {| kmalloc_cli := p; create_context_ret := 32768; mem_alloc_reg := 36864;
     mem_alloc_gpu_va := 40960; vmap_ret := 45056; hwcnt_enable_ret := 0;
     kzalloc_accum := 0 |}.

(** A dump that the hardware completes with [hw] in the shared buffer;
    [nc] is what [copy_to_user] returns, [en] what re-enabling the
    counters returns. *)
Definition env_dump (hw : list Z) (nc en : Z) : dump_env :=
  {| request_dump_ret := 0; wait_for_dump_ret := 0; hwcnt_clear_ret := 0;
     hw_dump := hw; copy_to_user_ret := nc; reprogram_enable_ret := en;
     hwcnt_is_attach := false |}.

(** The machine after a run that is known to be admissible. *)
Definition after (ops : list op) (dev : kbase_device) : machine :=
  match exec ops (boot dev) with
  | Some m => m
  | None => boot dev
  end.

(** Two clients attached in turn to a device of the current layout: the
    first defines the program of the hardware, the second waits for the
    next reprogram. *)
Definition two_clients : list op :=
  [OpAttach (env_ok 16) false 4096 (Bitmap 0 0 15 0);
   OpAttach (env_ok 32) false 8192 (Bitmap 0 1 0 0)].

Definition second_client : kbase_vinstr_client :=
  {| cli_addr := 32; kernel := false; pending := true; dump_buffer := 8192;
     cli_dump_size := 1280; cli_bitmap := Bitmap 0 1 0 0;
     accum_buffer := replicate 320 0 |}.

Definition first_client : kbase_vinstr_client :=
  {| cli_addr := 16; kernel := false; pending := false; dump_buffer := 4096;
     cli_dump_size := 1280; cli_bitmap := Bitmap 0 0 15 0;
     accum_buffer := replicate 320 0 |}.

(** ** Termination of the context *)

(** The loop of [kbase_vinstr_term] over the entries [l] of the list: the
    first entry is unlinked and freed with its accumulation buffer, and the
    count of clients is decremented, until the list is empty. *)
Fixpoint term_clients (l : list kbase_vinstr_client)
    (ctx : kbase_vinstr_context) : kbase_vinstr_context :=
  match l with
  | [] => ctx
  | _ :: l' =>
      term_clients l'
        (set_nclients (wrap32 (nclients ctx - 1)) (set_clients l' ctx))
  end.

(** [kbase_vinstr_term], up to the final [kfree(ctx)]: the machine returned
    holds the context as it is when it is freed. *)
Definition kbase_vinstr_term : M unit :=
  update (fun ctx => term_clients (clients ctx) ctx) ;>
  ctx <-- get_ctx ;
  if negb (kctx ctx =? 0) then destroy_vinstr_kctx else ret tt.

(** ** Vocabulary and configurations of the further properties *)

(** Every bit of [a] is a bit of [b], category by category. *)
Definition mask_subset (a b : bitmap4) : Prop :=
  forall i, Z.land (bm_get a i) (bm_get b i) = bm_get a i.

(** What holds of an attached client [c] of the context [ctx] after every
    admissible run: its handle is not [NULL], it is pending only while a
    reprogram is due, its buffer has the size of a dump of the device, and
    its mask is covered by the mask of the context. *)
Definition client_ok (ctx : kbase_vinstr_context) (c : kbase_vinstr_client)
    : Prop :=
  cli_addr c <> 0 /\
  (pending c = true -> reprogram ctx = true) /\
  cli_dump_size c = kbase_vinstr_dump_size ctx /\
  length (accum_buffer c) = Z.to_nat (cli_dump_size c / sizeof_u32) /\
  mask_subset (cli_bitmap c) (bitmap ctx).

(** What holds of the context after every admissible run, besides [inv]. *)
Record inv_ctx (dev : kbase_device) (m : machine) : Prop := {
  ictx_kbdev : kbdev (m_ctx m) = dev;
  ictx_kctx_live : clients (m_ctx m) <> [] -> kctx (m_ctx m) <> 0;
  ictx_clients : Forall (client_ok (m_ctx m)) (clients (m_ctx m))
}.

(** The setup of the hardware context succeeds: [kbase_create_context],
    [kbase_mem_alloc] and [kbase_vmap] return something and
    [kbase_instr_hwcnt_enable] returns 0. *)
Definition create_ok (e : attach_env) : bool :=
  negb (create_context_ret e =? 0) && negb (mem_alloc_reg e =? 0) &&
  negb (vmap_ret e =? 0) && (hwcnt_enable_ret e =? 0).

(** [kbase_vmap] fails: the hardware context is created and destroyed
    again. *)
Definition env_no_map (p : Z) : attach_env :=
  {| kmalloc_cli := p; create_context_ret := 32768; mem_alloc_reg := 36864;
     mem_alloc_gpu_va := 40960; vmap_ret := 0; hwcnt_enable_ret := 0;
     kzalloc_accum := 49152 |}.

(** No attach of the run [ops] from the state [m] returns [NULL]. *)
Fixpoint attaches_succeed (ops : list op) (m : machine) : Prop :=
  match ops with
  | [] => True
  | o :: ops' =>
      match o with
      | OpAttach e k d b => fst (kbase_vinstr_attach_client e k d b m) <> 0
      | _ => True
      end /\
      match exec_op o m with
      | Some m' => attaches_succeed ops' m'
      | None => True
      end
  end.

(** The events of a completed hardware dump, most recent first. *)
Definition dumped (e : dump_env) (tr : list event) : list event :=
  EvWaitForDump (wait_for_dump_ret e) :: EvRequestDump (request_dump_ret e)
  :: tr.

(** The event of the delivery to the client [c]. *)
Definition delivery (e : dump_env) (c : kbase_vinstr_client) : event :=
  let data := read_bytes (accum_buffer c) (cli_dump_size c) in
  if kernel c then EvMemcpy (dump_buffer c) data
  else EvCopyToUser (dump_buffer c) data (copy_to_user_ret e).

Definition two_ready (dev : kbase_device) : machine :=
  {| m_ctx := ctx_with dev [ready_client 16 (Bitmap 0 0 15 0) 320;
                            ready_client 32 (Bitmap 0 1 0 0) 320];
     m_trace := [] |}.

Definition one_ready (dev : kbase_device) : machine :=
  {| m_ctx := ctx_with dev [ready_client 16 (Bitmap 0 0 15 0) 320];
     m_trace := [] |}.

Definition env_wait_fails : dump_env :=
  {| request_dump_ret := 0; wait_for_dump_ret := -5; hwcnt_clear_ret := 0;
     hw_dump := replicate 320 1; copy_to_user_ret := 0;
     reprogram_enable_ret := 0; hwcnt_is_attach := false |}.

Definition env_clear_fails : dump_env :=
  {| request_dump_ret := 0; wait_for_dump_ret := 0; hwcnt_clear_ret := -16;
     hw_dump := replicate 320 1; copy_to_user_ret := 0;
     reprogram_enable_ret := 0; hwcnt_is_attach := false |}.

Definition one_ready_due (dev : kbase_device) : machine :=
  {| m_ctx := set_reprogram true
                (ctx_with dev [ready_client 16 (Bitmap 0 0 15 0) 320]);
     m_trace := [] |}.

Definition dump_then_attach : list op :=
  two_clients ++
  [OpDump (env_dump (replicate 320 7) 0 0) 16;
   OpAttach (env_no_accum 48) false 0 (Bitmap 1 0 0 0);
   OpDetach 16].

Definition dev_sec : kbase_device :=
  {| hw_feature_v4 := false; num_core_groups := 1; num_l2_slices := 1;
     num_cores := 2; MALI_SEC_HWCNT := true |}.

Definition env_sec_attached : dump_env :=
  {| request_dump_ret := 0; wait_for_dump_ret := 0; hwcnt_clear_ret := 0;
     hw_dump := replicate 320 1; copy_to_user_ret := 0;
     reprogram_enable_ret := 0; hwcnt_is_attach := true |}.

(** * Properties *)

(** ** Tactics *)

Ltac dlia := zify; Z.to_euclidean_division_equations; lia.

Ltac unfold_consts :=
  unfold SC0_BASE, SC1_BASE, SC2_BASE, SC3_BASE, TILER_BASE, MMU_L2_BASE,
    JM_BASE, PRFCNT_EN_MASK_OFFSET, NR_BYTES_PER_HDR, NR_CNT_BLOCKS_PER_GROUP,
    NR_CNT_PER_BLOCK, NR_BYTES_PER_CNT, sizeof_u32 in *.

(** Settle every [decide] of the goal with the arithmetic tactic [tac]. *)
Ltac decide_by tac :=
  repeat match goal with
         | |- context [decide ?P] =>
             first [ rewrite (decide_False (P := P)) by tac
                   | rewrite (decide_True (P := P)) by tac ]
         end.

(** ** Buffers *)

Lemma accum_u32_min (a b : Z) :
  is_u32 a -> is_u32 b -> accum_u32 a b = Z.min (a + b) U32_MAX.
Proof.
  unfold is_u32, accum_u32, wrap32, U32_MAX. intros Ha Hb.
  destruct (Z.ltb_spec (4294967295 - a) b).
  - lia.
  - rewrite Z.mod_small by lia. lia.
Qed.

Lemma accum_word_length dst src p :
  length (accum_word dst src p) = length dst.
Proof.
  unfold accum_word. destruct (dst !! p), (src !! p); try done.
  apply length_insert.
Qed.

Lemma accum_word_lookup (dst src : list Z) (p k : nat) :
  accum_word dst src p !! k =
  if decide (k = p) then
    match dst !! k, src !! k with
    | Some d, Some s => Some (accum_u32 d s)
    | _, _ => dst !! k
    end
  else dst !! k.
Proof.
  unfold accum_word. destruct (decide (k = p)) as [->|Hne].
  - destruct (dst !! p) as [d|] eqn:Hd; [|by rewrite Hd].
    destruct (src !! p) as [s|] eqn:Hs; [|by rewrite Hd].
    apply list_lookup_insert_eq. by eapply lookup_lt_Some.
  - destruct (dst !! p), (src !! p); try done.
    by apply list_lookup_insert_ne.
Qed.

Lemma accum_counters_lookup (n p : nat) (dst src : list Z) (k : nat) :
  accum_counters dst src p n !! k =
  if decide (p <= k < p + n)%nat then
    match dst !! k, src !! k with
    | Some d, Some s => Some (accum_u32 d s)
    | _, _ => dst !! k
    end
  else dst !! k.
Proof.
  revert p dst. induction n as [|n IH]; intros p dst; simpl.
  - case_decide; [lia | done].
  - rewrite IH, !accum_word_lookup.
    destruct (decide (k = p)) as [->|Hne].
    + rewrite decide_False by lia. rewrite decide_True by lia. done.
    + destruct (decide (S p <= k < S p + n)%nat).
      * rewrite decide_True by lia. done.
      * rewrite decide_False by lia. done.
Qed.

Lemma accum_counters_length n p dst src :
  length (accum_counters dst src p n) = length dst.
Proof.
  revert p dst. induction n as [|n IH]; intros p dst; simpl; [done|].
  by rewrite IH, accum_word_length.
Qed.

Lemma accum_blocks_length hdr cnt nblk p dst src :
  length (accum_blocks hdr cnt dst src p nblk) = length dst.
Proof.
  revert p dst. induction nblk as [|n IH]; intros p dst; [done|].
  cbn [accum_blocks]. by rewrite IH, accum_counters_length.
Qed.

Lemma accum_dump_buffer_length dst src dump_size :
  length (accum_dump_buffer dst src dump_size) = length dst.
Proof. apply accum_blocks_length. Qed.

Lemma accum_blocks_lookup (hdr cnt nblk p : nat) (dst src : list Z)
    (k : nat) :
  hdr = 4%nat -> cnt = 60%nat ->
  accum_blocks hdr cnt dst src p nblk !! k =
  if decide (p <= k < p + nblk * 64 /\ 4 <= (k - p) mod 64)%nat then
    match dst !! k, src !! k with
    | Some d, Some s => Some (accum_u32 d s)
    | _, _ => dst !! k
    end
  else dst !! k.
Proof.
  intros Hh Hc. revert p dst. induction nblk as [|n IH]; intros p dst.
  - simpl. case_decide; [lia | done].
  - cbn [accum_blocks].
    rewrite IH, accum_counters_lookup.
    destruct (decide (p + 4 <= k < p + 4 + 60)%nat) as [Hin|Hout].
    + rewrite (decide_False (P := (p + hdr + cnt <= k < _ /\ _)%nat)) by lia.
      rewrite (decide_True (P := (p + hdr <= k < _)%nat)) by lia.
      rewrite decide_True by dlia. done.
    + rewrite (decide_False (P := (p + hdr <= k < p + hdr + cnt)%nat)) by lia.
      destruct (decide (p + hdr + cnt <= k < p + hdr + cnt + n * 64 /\
                        4 <= (k - (p + hdr + cnt)) mod 64)%nat).
      * rewrite decide_True by dlia. done.
      * rewrite decide_False by dlia. done.
Qed.

(** The accumulation never writes a header word. *)
Lemma accum_dump_buffer_header dst src dump_size k :
  (k mod 64 < 4)%nat ->
  accum_dump_buffer dst src dump_size !! k = dst !! k.
Proof.
  intros Hk. unfold accum_dump_buffer.
  rewrite accum_blocks_lookup by reflexivity.
  rewrite decide_False by dlia. done.
Qed.

Lemma word_of_4 (p : nat) : word_of (4 * Z.of_nat p) = p.
Proof.
  unfold word_of, sizeof_u32.
  rewrite Z.mul_comm, Z.div_mul by lia. lia.
Qed.

Lemma copy_word_length dst src d s :
  length (copy_word dst src d s) = length dst.
Proof. unfold copy_word. destruct (src !! s); [apply length_insert | done]. Qed.

Lemma copy_word_lookup (dst src : list Z) (d k : nat) :
  length dst = length src ->
  copy_word dst src d d !! k = if decide (k = d) then src !! k else dst !! k.
Proof.
  intros Hlen. unfold copy_word. destruct (decide (k = d)) as [->|Hne].
  - destruct (src !! d) as [w|] eqn:Hs.
    + apply list_lookup_insert_eq. apply lookup_lt_Some in Hs. lia.
    + apply lookup_ge_None in Hs. apply lookup_ge_None. lia.
  - destruct (src !! d); [by apply list_lookup_insert_ne | done].
Qed.

Lemma memcpy_words_length n d s dst src :
  length (memcpy_words dst src d s n) = length dst.
Proof.
  revert d s dst. induction n as [|n IH]; intros d s dst; simpl; [done|].
  by rewrite IH, copy_word_length.
Qed.

Lemma memcpy_words_lookup n d dst src k :
  length dst = length src ->
  memcpy_words dst src d d n !! k =
  if decide (d <= k < d + n)%nat then src !! k else dst !! k.
Proof.
  revert d dst. induction n as [|n IH]; intros d dst Hlen; simpl.
  - case_decide; [lia | done].
  - rewrite IH by (by rewrite copy_word_length).
    rewrite copy_word_lookup by done.
    destruct (decide (k = d)) as [->|Hne].
    + rewrite decide_False by lia. rewrite decide_True by lia. done.
    + destruct (decide (S d <= k < S d + n)%nat).
      * rewrite decide_True by lia. done.
      * rewrite decide_False by lia. done.
Qed.

Lemma and_u32_length dst off m : length (and_u32 dst off m) = length dst.
Proof. unfold and_u32. destruct (dst !! _); [apply length_insert | done]. Qed.

Lemma and_u32_lookup dst p m k :
  and_u32 dst (4 * Z.of_nat p) m !! k =
  if decide (k = p) then (fun w => Z.land w m) <$> dst !! k else dst !! k.
Proof.
  unfold and_u32. rewrite word_of_4.
  destruct (decide (k = p)) as [->|Hne].
  - destruct (dst !! p) as [w|] eqn:Hd; [|by rewrite Hd].
    simpl. apply list_lookup_insert_eq. by eapply lookup_lt_Some.
  - destruct (dst !! p); [by apply list_lookup_insert_ne | done].
Qed.

Lemma memcpy_hdr_length dst doff src soff n :
  length (memcpy dst doff src soff n) = length dst.
Proof. apply memcpy_words_length. Qed.

Lemma memcpy_hdr_lookup dst src p k :
  length dst = length src ->
  memcpy dst (4 * Z.of_nat p) src (4 * Z.of_nat p) NR_BYTES_PER_HDR !! k =
  if decide (p <= k < p + 4)%nat then src !! k else dst !! k.
Proof.
  intros Hlen. unfold memcpy. rewrite word_of_4.
  change (Z.to_nat (NR_BYTES_PER_HDR / sizeof_u32)) with 4%nat.
  by apply memcpy_words_lookup.
Qed.

Lemma copy_patch_hdr_length src pos m dst :
  length (copy_patch_hdr src pos m dst) = length dst.
Proof. unfold copy_patch_hdr. by rewrite and_u32_length, memcpy_hdr_length. Qed.

Lemma copy_patch_hdr_lookup src p m dst k :
  length dst = length src ->
  copy_patch_hdr src (4 * Z.of_nat p) m dst !! k =
  if decide (p <= k < p + 4)%nat
  then hdr_word m (k - p) <$> src !! k else dst !! k.
Proof.
  intros Hlen. unfold copy_patch_hdr.
  replace (4 * Z.of_nat p + PRFCNT_EN_MASK_OFFSET) with (4 * Z.of_nat (p + 2))
    by (unfold PRFCNT_EN_MASK_OFFSET; lia).
  rewrite and_u32_lookup, memcpy_hdr_lookup by done.
  unfold hdr_word.
  destruct (decide (k = p + 2)%nat) as [->|Hne].
  - rewrite !decide_True by lia.
    replace (p + 2 - p)%nat with 2%nat by lia. done.
  - destruct (decide (p <= k < p + 4)%nat); [|done].
    destruct (src !! k) as [w|]; [|done]. simpl.
    by rewrite decide_False by lia.
Qed.

Lemma copy_patch_hdrs_snd n src pos m dst :
  snd (copy_patch_hdrs src m dst pos n) = pos + 256 * Z.of_nat n.
Proof.
  revert pos dst. induction n as [|n IH]; intros pos dst.
  - simpl. lia.
  - cbn [copy_patch_hdrs]. rewrite IH.
    change (NR_CNT_PER_BLOCK * NR_BYTES_PER_CNT) with 256. lia.
Qed.

Lemma copy_patch_hdrs_length n src pos m dst :
  length (fst (copy_patch_hdrs src m dst pos n)) = length dst.
Proof.
  revert pos dst. induction n as [|n IH]; intros pos dst; [done|].
  cbn [copy_patch_hdrs]. by rewrite IH, copy_patch_hdr_length.
Qed.

Lemma copy_patch_hdrs_lookup n src j m dst k :
  length dst = length src ->
  fst (copy_patch_hdrs src m dst (256 * Z.of_nat j) n) !! k =
  if decide (j * 64 <= k < (j + n) * 64 /\ k mod 64 < 4)%nat
  then hdr_word m (k mod 64) <$> src !! k else dst !! k.
Proof.
  revert j dst. induction n as [|n IH]; intros j dst Hlen.
  - simpl. case_decide; [lia | done].
  - cbn [copy_patch_hdrs].
    change (NR_CNT_PER_BLOCK * NR_BYTES_PER_CNT) with 256.
    replace (256 * Z.of_nat j + 256) with (256 * Z.of_nat (S j)) by dlia.
    rewrite IH by (by rewrite copy_patch_hdr_length).
    replace (256 * Z.of_nat j) with (4 * Z.of_nat (j * 64)) by dlia.
    rewrite copy_patch_hdr_lookup by done.
    destruct (decide (j * 64 <= k < j * 64 + 4)%nat) as [Hin|Hout].
    + decide_by dlia.
      replace (k mod 64)%nat with (k - j * 64)%nat by dlia. done.
    + destruct (decide (S j * 64 ≤ k < (S j + n) * 64 ∧ k `mod` 64 < 4)%nat);
        decide_by dlia; done.
Qed.

Lemma patch_dump_buffer_hdr_v5_length dev bm src dst :
  length (patch_dump_buffer_hdr_v5 dev bm src dst) = length dst.
Proof.
  unfold patch_dump_buffer_hdr_v5.
  destruct (copy_patch_hdrs _ _ _ _ _) as [d1 p1] eqn:E1.
  rewrite copy_patch_hdrs_length.
  change d1 with (fst (d1, p1)). rewrite <- E1.
  by rewrite copy_patch_hdrs_length, !copy_patch_hdr_length.
Qed.

Lemma patch_dump_buffer_hdr_v5_lookup dev bm src dst k :
  hw_feature_v4 dev = false ->
  length dst = length src ->
  patch_dump_buffer_hdr_v5 dev bm src dst !! k =
  match (if decide (k mod 64 < 4)%nat then block_category dev (k / 64)
         else None) with
  | Some c => hdr_word (bm_get bm c) (k mod 64) <$> src !! k
  | None => dst !! k
  end.
Proof.
  intros Hv Hlen. unfold patch_dump_buffer_hdr_v5, block_category.
  rewrite Hv.
  set (nl := Z.to_nat (wrap32 (num_l2_slices dev))).
  set (ns := Z.to_nat (wrap32 (num_cores dev))).
  change (NR_CNT_PER_BLOCK * NR_BYTES_PER_CNT) with 256.
  destruct (copy_patch_hdrs _ _ _ _ nl) as [d1 p1] eqn:E1.
  assert (Hp1 : p1 = 256 * Z.of_nat (2 + nl)).
  { change p1 with (snd (d1, p1)). rewrite <- E1, copy_patch_hdrs_snd. lia. }
  assert (Hd1 : d1 = fst (copy_patch_hdrs src (bm_get bm MMU_L2_HWCNT_BM)
     (copy_patch_hdr src (4 * Z.of_nat 64) (bm_get bm TILER_HWCNT_BM)
       (copy_patch_hdr src (4 * Z.of_nat 0) (bm_get bm JM_HWCNT_BM) dst))
     (256 * Z.of_nat 2) nl)).
  { change d1 with (fst (d1, p1)). rewrite <- E1. done. }
  rewrite Hp1, copy_patch_hdrs_lookup
    by (by rewrite Hd1, copy_patch_hdrs_length, !copy_patch_hdr_length).
  rewrite Hd1, copy_patch_hdrs_lookup by (by rewrite !copy_patch_hdr_length).
  rewrite !copy_patch_hdr_lookup by (by rewrite ?copy_patch_hdr_length).
  destruct (decide (k mod 64 < 4)%nat) as [Hh|Hh].
  - destruct (decide (k / 64 = 0)%nat).
    { decide_by dlia.
      replace (k - 0)%nat with (k mod 64)%nat by dlia. done. }
    destruct (decide (k / 64 = 1)%nat).
    { decide_by dlia.
      replace (k - 64)%nat with (k mod 64)%nat by dlia. done. }
    destruct (decide (k / 64 < 2 + nl)%nat).
    { decide_by dlia. done. }
    destruct (decide (k / 64 < 2 + nl + ns)%nat).
    { decide_by dlia. done. }
    decide_by dlia. done.
  - decide_by dlia. done.
Qed.

Lemma patch_group_v4_length bm src group dst :
  length (patch_group_v4 bm src group dst) = length dst.
Proof.
  unfold patch_group_v4.
  by rewrite !and_u32_length, !memcpy_hdr_length.
Qed.

(** One lookup through the outermost store of a header walk. *)
Ltac hdr_step Hlen tac :=
  first [ rewrite and_u32_lookup
        | rewrite memcpy_hdr_lookup
            by (rewrite ?and_u32_length, ?memcpy_hdr_length; exact Hlen) ];
  match goal with
  | |- context [decide ?P] =>
      first [ rewrite (decide_False (P := P)) by tac
            | rewrite (decide_True (P := P)) by tac ]
  end.

Lemma patch_group_v4_lookup bm src dst g k :
  length dst = length src ->
  patch_group_v4 bm src (Z.of_nat g * 2048) dst !! k =
  hdr_view src dst bm k
    (if decide (g * 512 <= k < (g + 1) * 512 /\ k mod 64 < 4)%nat
     then v4_group_category ((k / 64) mod 8) else None).
Proof.
  intros Hlen. unfold patch_group_v4.
  replace (Z.of_nat g * 2048 + SC0_BASE + PRFCNT_EN_MASK_OFFSET)
    with (4 * Z.of_nat (g * 512 + 0 + 2)) by (unfold_consts; lia).
  replace (Z.of_nat g * 2048 + SC1_BASE + PRFCNT_EN_MASK_OFFSET)
    with (4 * Z.of_nat (g * 512 + 64 + 2)) by (unfold_consts; lia).
  replace (Z.of_nat g * 2048 + SC2_BASE + PRFCNT_EN_MASK_OFFSET)
    with (4 * Z.of_nat (g * 512 + 128 + 2)) by (unfold_consts; lia).
  replace (Z.of_nat g * 2048 + SC3_BASE + PRFCNT_EN_MASK_OFFSET)
    with (4 * Z.of_nat (g * 512 + 192 + 2)) by (unfold_consts; lia).
  replace (Z.of_nat g * 2048 + TILER_BASE + PRFCNT_EN_MASK_OFFSET)
    with (4 * Z.of_nat (g * 512 + 256 + 2)) by (unfold_consts; lia).
  replace (Z.of_nat g * 2048 + MMU_L2_BASE + PRFCNT_EN_MASK_OFFSET)
    with (4 * Z.of_nat (g * 512 + 320 + 2)) by (unfold_consts; lia).
  replace (Z.of_nat g * 2048 + JM_BASE + PRFCNT_EN_MASK_OFFSET)
    with (4 * Z.of_nat (g * 512 + 448 + 2)) by (unfold_consts; lia).
  replace (Z.of_nat g * 2048 + SC0_BASE)
    with (4 * Z.of_nat (g * 512 + 0)) by (unfold_consts; lia).
  replace (Z.of_nat g * 2048 + SC1_BASE)
    with (4 * Z.of_nat (g * 512 + 64)) by (unfold_consts; lia).
  replace (Z.of_nat g * 2048 + SC2_BASE)
    with (4 * Z.of_nat (g * 512 + 128)) by (unfold_consts; lia).
  replace (Z.of_nat g * 2048 + SC3_BASE)
    with (4 * Z.of_nat (g * 512 + 192)) by (unfold_consts; lia).
  replace (Z.of_nat g * 2048 + TILER_BASE)
    with (4 * Z.of_nat (g * 512 + 256)) by (unfold_consts; lia).
  replace (Z.of_nat g * 2048 + MMU_L2_BASE)
    with (4 * Z.of_nat (g * 512 + 320)) by (unfold_consts; lia).
  replace (Z.of_nat g * 2048 + JM_BASE)
    with (4 * Z.of_nat (g * 512 + 448)) by (unfold_consts; lia).
  unfold hdr_view.
  destruct (decide (g * 512 <= k < (g + 1) * 512 /\ k mod 64 < 4)%nat)
    as [[Hg Hh]|Hout].
  - assert (Hk : exists j h, (j < 8 /\ h < 4 /\ k = g * 512 + j * 64 + h)%nat).
    { exists ((k / 64) mod 8)%nat, (k mod 64)%nat. dlia. }
    destruct Hk as (j & h & Hj & Hh' & ->).
    replace ((g * 512 + j * 64 + h) / 64 mod 8)%nat with j by dlia.
    replace ((g * 512 + j * 64 + h) mod 64)%nat with h by dlia.
    unfold hdr_word.
    destruct (decide (h = 2)%nat) as [Hh2|Hh2];
      (do 8 (destruct j as [|j];
             [ cbn [v4_group_category]; repeat hdr_step Hlen lia;
               try done; by destruct (src !! _) | ]));
      lia.
  - assert (Hk : (k < g * 512 \/ (g + 1) * 512 <= k \/ 4 <= k mod 64)%nat) by lia.
    clear Hout. repeat hdr_step Hlen dlia. done.
Qed.

Lemma patch_groups_v4_length n i bm src dst :
  length (patch_groups_v4 bm src dst i n) = length dst.
Proof.
  revert i dst. induction n as [|n IH]; intros i dst; [done|].
  cbn [patch_groups_v4]. by rewrite IH, patch_group_v4_length.
Qed.

Lemma patch_groups_v4_lookup n g bm src dst k :
  length dst = length src ->
  patch_groups_v4 bm src dst (Z.of_nat g) n !! k =
  hdr_view src dst bm k
    (if decide (g * 512 <= k < (g + n) * 512 /\ k mod 64 < 4)%nat
     then v4_group_category ((k / 64) mod 8) else None).
Proof.
  revert g dst. induction n as [|n IH]; intros g dst Hlen.
  - simpl. rewrite decide_False by lia. done.
  - cbn [patch_groups_v4].
    change (NR_CNT_BLOCKS_PER_GROUP * NR_CNT_PER_BLOCK * NR_BYTES_PER_CNT)
      with 2048.
    replace (Z.of_nat g + 1) with (Z.of_nat (S g)) by lia.
    rewrite IH by (by rewrite patch_group_v4_length).
    unfold hdr_view at 1.
    rewrite patch_group_v4_lookup by done.
    destruct (decide (S g * 512 <= k < (S g + n) * 512 /\ k mod 64 < 4)%nat)
      as [Hin|Hout].
    + rewrite (decide_True (P := (g * 512 <= k < (g + S n) * 512 /\ _)%nat))
        by lia.
      destruct (v4_group_category _) eqn:Ec; [done|].
      rewrite decide_False by lia. done.
    + destruct (decide (g * 512 <= k < (g + 1) * 512 /\ k mod 64 < 4)%nat).
      * rewrite decide_True by lia. done.
      * rewrite decide_False by lia. done.
Qed.

Lemma patch_dump_buffer_hdr_v4_length dev bm src dst :
  length (patch_dump_buffer_hdr_v4 dev bm src dst) = length dst.
Proof. apply patch_groups_v4_length. Qed.

Lemma patch_dump_buffer_hdr_v4_lookup dev bm src dst k :
  hw_feature_v4 dev = true ->
  length dst = length src ->
  patch_dump_buffer_hdr_v4 dev bm src dst !! k =
  hdr_view src dst bm k
    (if decide (k mod 64 < 4)%nat then block_category dev (k / 64) else None).
Proof.
  intros Hv Hlen. unfold patch_dump_buffer_hdr_v4, block_category.
  rewrite Hv. change 0 with (Z.of_nat 0).
  rewrite patch_groups_v4_lookup by done.
  set (n := Z.to_nat (wrap32 (num_core_groups dev))).
  destruct (decide (k mod 64 < 4)%nat) as [Hh|Hh].
  - destruct (decide (k / 64 / 8 < n)%nat).
    + rewrite decide_True by dlia. done.
    + rewrite decide_False by dlia. done.
  - rewrite decide_False by lia. done.
Qed.

(** ** Accumulation saturates (claim C3) *)

(** Claim C3.  [accum_dump_buffer] adds, word by word, the 32-bit counters
    of the shared dump buffer [src] into the accumulation buffer [dst]:
    the word of index [k] within the [dump_size] bytes is left as it was
    when it is one of the 4 header words (16 bytes) that start each block
    of 64 words (256 bytes), and otherwise becomes [min (a + b) U32_MAX],
    in exact arithmetic, for the accumulated value [a] and the dumped
    value [b]: the sum is clamped at the largest 32-bit value and never
    wraps. *)
Theorem accum_dump_buffer_saturates (dst src : list Z) (dump_size : Z)
    (k : nat) (a b : Z) :
  is_u32 a -> is_u32 b ->
  dst !! k = Some a -> src !! k = Some b ->
  4 * Z.of_nat k < dump_size ->
  accum_dump_buffer dst src dump_size !! k =
    Some (if decide (k mod 64 < 4)%nat then a
          else Z.min (a + b) U32_MAX).
Proof.
  intros Ha Hb Hd Hs Hk. unfold accum_dump_buffer.
  rewrite accum_blocks_lookup by reflexivity. rewrite Hd, Hs.
  change (NR_CNT_PER_BLOCK * NR_BYTES_PER_CNT) with 256.
  destruct (decide (k mod 64 < 4)%nat) as [Hh|Hc].
  - rewrite decide_False by dlia. done.
  - rewrite decide_True by dlia.
    by rewrite accum_u32_min.
Qed.

Lemma accum_dump_buffer_saturates_witness :
  accum_dump_buffer sat_dst sat_src 256 !! 4%nat = Some U32_MAX.
Proof.
  apply (accum_dump_buffer_saturates sat_dst sat_src 256 4 4294967290 10);
    try reflexivity; unfold is_u32, U32_MAX; lia.
Defined.

(** ** Size of the dump buffer (claim C8) *)

(** Claim C8.  [kbase_vinstr_dump_size] returns
    [core_groups * 8 * 64 * 4] bytes for the legacy (V4) layout and
    [(2 + l2_slices + shader_cores) * 256] bytes for the current one (one
    job-manager block, one tiler block, one block per memory-unit slice,
    one block per shader core, of 64 counters of 4 bytes each).  It is a
    function of the topology counts of the device alone, read at each
    call: the size cached in the context plays no part.  The source
    computes the product in 32-bit arithmetic, so the equality is stated
    for a topology whose dump fits 32 bits. *)
Theorem kbase_vinstr_dump_size_formula (ctx : kbase_vinstr_context) :
  let dev := kbdev ctx in
  0 <= num_core_groups dev -> 0 <= num_l2_slices dev -> 0 <= num_cores dev ->
  (if hw_feature_v4 dev
   then num_core_groups dev * 8 * 64 * 4
   else (2 + num_l2_slices dev + num_cores dev) * 64 * 4) <= U32_MAX ->
  kbase_vinstr_dump_size ctx =
    (if hw_feature_v4 dev
     then num_core_groups dev * 8 * 64 * 4
     else (2 + num_l2_slices dev + num_cores dev) * 256) /\
  (forall ctx', kbdev ctx' = dev ->
     kbase_vinstr_dump_size ctx' = kbase_vinstr_dump_size ctx).
Proof.
  intros dev Hcg Hl2 Hsc Hfit. split.
  - unfold kbase_vinstr_dump_size. fold dev. unfold wrap32, U32_MAX in *.
    unfold_consts.
    destruct (hw_feature_v4 dev).
    + rewrite !Z.mod_small by lia. lia.
    + rewrite !Z.mod_small by lia. lia.
  - intros ctx' Hdev. unfold kbase_vinstr_dump_size. by rewrite Hdev.
Qed.

(** ** Headers delivered to a client (claim C4) *)

Lemma accum_client_header (ctx : kbase_vinstr_context) (src : list Z)
    (c : kbase_vinstr_client) (k : nat) :
  pending c = false ->
  length (accum_buffer c) = length src ->
  (k mod 64 < 4)%nat ->
  accum_buffer (accum_client ctx src c) !! k =
  hdr_view src (accum_buffer c) (cli_bitmap c) k
    (block_category (kbdev ctx) (k / 64)).
Proof.
  intros Hp Hlen Hk. unfold accum_client. rewrite Hp. cbn [accum_buffer set_accum_buffer].
  rewrite accum_dump_buffer_header by done.
  destruct (hw_feature_v4 (kbdev ctx)) eqn:Hv.
  - rewrite patch_dump_buffer_hdr_v4_lookup by done.
    by rewrite decide_True by done.
  - rewrite patch_dump_buffer_hdr_v5_lookup by done.
    by rewrite decide_True by done.
Qed.

(** Claim C4, as amended.  For every client that is not pending and every
    block [b] of the active layout that the walk patches under a category
    [cat] (every block of the current layout; every block of a core group
    of the legacy layout but the reserved one, of index 6), the
    accumulation pass leaves in the accumulation buffer of the client, at
    the offset of the block, the 16-byte header of the shared dump buffer,
    its word 2 (the enable mask, at byte offset 8) replaced by the bitwise
    AND of the mask the hardware wrote and the mask the client requested
    for [cat].  So a client whose mask for [cat] is zero reads a zero
    enable mask in every block of that category, whatever the other
    clients requested. *)
Theorem accum_clients_patches_headers (m : machine) (src : list Z) (i : nat)
    (c : kbase_vinstr_client) (b h : nat) (cat : hwcnt_bm) :
  clients (m_ctx m) !! i = Some c ->
  pending c = false ->
  length (accum_buffer c) = length src ->
  block_category (kbdev (m_ctx m)) b = Some cat ->
  (h < 4)%nat ->
  exists c',
    clients (m_ctx (snd (accum_clients src m))) !! i = Some c' /\
    cli_addr c' = cli_addr c /\
    accum_buffer c' !! (b * 64 + h)%nat =
      hdr_word (bm_get (cli_bitmap c) cat) h <$> src !! (b * 64 + h)%nat /\
    (bm_get (cli_bitmap c) cat = 0 ->
     accum_buffer c' !! (b * 64 + 2)%nat =
       (fun _ => 0) <$> src !! (b * 64 + 2)%nat).
Proof.
  intros Hi Hp Hlen Hcat Hh.
  exists (accum_client (m_ctx m) src c). split; [|split; [|split]].
  - cbn. rewrite list_lookup_fmap, Hi. done.
  - unfold accum_client. rewrite Hp. done.
  - rewrite accum_client_header by (done || dlia).
    replace ((b * 64 + h) / 64)%nat with b by dlia.
    rewrite Hcat. cbn [hdr_view].
    by replace ((b * 64 + h) mod 64)%nat with h by dlia.
  - intros Hz. rewrite accum_client_header by (done || dlia).
    replace ((b * 64 + 2) / 64)%nat with b by dlia.
    rewrite Hcat. cbn [hdr_view]. rewrite Hz.
    replace ((b * 64 + 2) mod 64)%nat with 2%nat by dlia.
    destruct (src !! _) as [w|]; [|done]. cbn.
    unfold hdr_word. rewrite decide_True by done.
    by rewrite Z.land_0_r.
Qed.

Lemma accum_clients_patches_headers_witness :
  exists c',
    clients (m_ctx (snd (accum_clients (replicate 320 255)
      {| m_ctx := ctx_with dev_v5 [ready_client 16 (Bitmap 0 0 15 0) 320];
         m_trace := [] |}))) !! 0%nat = Some c' /\
    accum_buffer c' !! 66%nat = Some 0 /\
    accum_buffer c' !! 64%nat = Some 255.
Proof.
  pose proof (accum_clients_patches_headers
    {| m_ctx := ctx_with dev_v5 [ready_client 16 (Bitmap 0 0 15 0) 320];
       m_trace := [] |}
    (replicate 320 255) 0 (ready_client 16 (Bitmap 0 0 15 0) 320)
    1 0 TILER_HWCNT_BM eq_refl eq_refl eq_refl eq_refl ltac:(lia))
    as (c' & H1 & _ & H2 & H3).
  exists c'. split; [exact H1|]. split.
  - exact (H3 eq_refl).
  - exact H2.
Defined.

(** Claim C4 as stated fails on the reserved block of the legacy layout:
    after the pass on a one-group buffer whose words are all 1, the first
    header word of block 6 (word 384) of a ready client still reads 0. *)
Lemma legacy_reserved_header_not_copied :
  let src := replicate 512 1 in
  let c := ready_client 16 all_ones 512 in
  let c' := accum_client (ctx_with dev_v4 [c]) src c in
  src !! 384%nat = Some 1 /\ accum_buffer c' !! 384%nat = Some 0 /\
  accum_buffer c' !! 384%nat <> src !! 384%nat.
Proof. vm_compute. split; [done|]. split; [done|]. discriminate. Qed.

(** ** Layout of a legacy core group (claim C9) *)

(** Claim C9, as amended.  In the legacy (V4) layout a core group is 8
    blocks of 256 bytes at the constant offsets [j * 256]: the header walk
    patches blocks 0 to 3 with the shader-core mask, block 4 with the
    tiler mask, block 5 with the memory-unit mask and block 7 with the
    job-manager mask; block 6 is the one reserved block, which the walk
    leaves as it is in the accumulation buffer.  [k] is the word of index
    [h] of the header of block [j] of group [g]. *)
Theorem legacy_group_layout (dev : kbase_device) (bm : bitmap4)
    (src dst : list Z) (g j h : nat) :
  hw_feature_v4 dev = true ->
  length dst = length src ->
  (g < Z.to_nat (wrap32 (num_core_groups dev)))%nat ->
  (j < 8)%nat -> (h < 4)%nat ->
  let k := (g * 512 + j * 64 + h)%nat in
  NR_CNT_BLOCKS_PER_GROUP * (NR_CNT_PER_BLOCK * NR_BYTES_PER_CNT) = 8 * 256 /\
  [SC0_BASE; SC1_BASE; SC2_BASE; SC3_BASE; TILER_BASE; MMU_L2_BASE; JM_BASE] =
    [0 * 256; 1 * 256; 2 * 256; 3 * 256; 4 * 256; 5 * 256; 7 * 256] /\
  patch_dump_buffer_hdr_v4 dev bm src dst !! k =
    match j with
    | 0 | 1 | 2 | 3 => hdr_word (bm_get bm SHADER_HWCNT_BM) h <$> src !! k
    | 4 => hdr_word (bm_get bm TILER_HWCNT_BM) h <$> src !! k
    | 5 => hdr_word (bm_get bm MMU_L2_HWCNT_BM) h <$> src !! k
    | 6 => dst !! k
    | _ => hdr_word (bm_get bm JM_HWCNT_BM) h <$> src !! k
    end%nat.
Proof.
  intros Hv Hlen Hg Hj Hh k. split; [reflexivity|]. split; [reflexivity|].
  rewrite patch_dump_buffer_hdr_v4_lookup by done.
  assert (Hm : (k mod 64 = h)%nat) by (subst k; dlia).
  assert (Hd : (k / 64 = g * 8 + j)%nat) by (subst k; dlia).
  rewrite decide_True by lia. unfold block_category. rewrite Hv, Hd.
  rewrite decide_True by dlia.
  replace ((g * 8 + j) mod 8)%nat with j by dlia.
  unfold hdr_view. rewrite Hm.
  do 8 (destruct j as [|j]; [reflexivity|]). lia.
Qed.

Lemma legacy_group_layout_witness :
  patch_dump_buffer_hdr_v4 dev_v4 probe_bitmap (replicate 512 255)
    (replicate 512 0) !! 450%nat = Some 1.
Proof.
  exact (proj2 (proj2 (legacy_group_layout dev_v4 probe_bitmap
    (replicate 512 255) (replicate 512 0) 0 7 2 eq_refl eq_refl
    ltac:(vm_compute; lia) ltac:(lia) ltac:(lia)))).
Defined.

(** Claim C9 as stated (two reserved blocks, job manager after them) fails:
    on a probe whose categories carry distinct mask bits, the enable masks
    of the 8 blocks of a group after the walk show 4 shader-core blocks, a
    tiler block, a memory-unit block, one untouched block and the
    job-manager block at index 7, not at [(4 + 1 + 1 + 2) * 256] bytes. *)
Lemma legacy_group_has_one_reserved_block :
  let walked := patch_dump_buffer_hdr_v4 dev_v4 probe_bitmap
                  (replicate 512 255) (replicate 512 0) in
  let masks := (fun j => walked !! (j * 64 + 2)%nat) <$> seq 0 8 in
  masks = [Some 4; Some 4; Some 4; Some 4; Some 2; Some 8; Some 0; Some 1] /\
  length (filter (fun w => w = Some 0) masks) = 1%nat /\
  length (filter (fun w => w = Some 0) masks) <> 2%nat /\
  JM_BASE <> (4 + 1 + 1 + 2) * (NR_CNT_PER_BLOCK * NR_BYTES_PER_CNT).
Proof. vm_compute. repeat split; try done. Qed.

Lemma kbase_vinstr_dump_size_formula_witness :
  kbase_vinstr_dump_size (kbase_vinstr_init dev_v5) = 1280 /\
  kbase_vinstr_dump_size (kbase_vinstr_init dev_v4) = 2048.
Proof.
  split.
  - apply (kbase_vinstr_dump_size_formula (kbase_vinstr_init dev_v5));
      vm_compute; congruence.
  - apply (kbase_vinstr_dump_size_formula (kbase_vinstr_init dev_v4));
      vm_compute; congruence.
Defined.

Ltac munfold :=
  cbv [kbase_vinstr_attach_client kbase_vinstr_detach_client
       create_vinstr_kctx destroy_vinstr_kctx map_kernel_dump_buffer
       unmap_kernel_dump_buffer map_client_accum_buffer enable_hwcnt
       disable_hwcnt reprogram_hwcnt reprogram_tail accum_clients
       kbase_vinstr_dump kbase_vinstr_clear
       bind ret update emit get_ctx].

Ltac fields :=
  cbn [m_ctx m_trace kbdev kctx gpu_va cpu_va dump_size bitmap reprogram
       nclients clients set_kctx set_gpu_va set_cpu_va set_dump_size
       set_bitmap set_reprogram set_nclients set_clients
       cli_addr kernel pending dump_buffer cli_dump_size cli_bitmap
       accum_buffer set_pending set_dump_buffer set_cli_dump_size
       set_accum_buffer fst snd] in *.

Lemma find_client_None cli l :
  find_client cli l = None <-> cli ∉ cli_addr <$> l.
Proof.
  induction l as [|c l IH]; simpl.
  - split; [intros _ H; inversion H | done].
  - destruct (Z.eqb_spec (cli_addr c) cli) as [->|Hne].
    + split; [done|]. intros H. exfalso. apply H. left.
    + rewrite IH, not_elem_of_cons. naive_solver.
Qed.

Lemma all_zero_replicate n : all_zero (replicate n 0).
Proof. unfold all_zero. apply Forall_replicate. done. Qed.

Ltac inv_close :=
  constructor; fields; simpl; repeat split; try done; try lia.

Ltac inv_nil H :=
  rewrite ?H; simpl; first [done | lia | by constructor].

Lemma occupancy_cons_live (x : Z) (l : list kbase_vinstr_client) :
  l <> [] -> x = occupancy l -> x = 1.
Proof. by destruct l. Qed.

Lemma attach_inv e k d b m :
  inv m -> attach_env_ok e (m_ctx m) = true ->
  inv (snd (kbase_vinstr_attach_client e k d b m)).
Proof.
  intros [Hc Hb Hn Hz K1 K2 K3 L1 L2 L3] Hok.
  unfold attach_env_ok in Hok.
  apply andb_prop in Hok as [Hok Hfresh]. apply andb_prop in Hok as [Hen Hlt].
  apply Z.leb_le in Hen. apply Z.ltb_lt in Hlt.
  destruct (find_client _ _) eqn:Hf in Hfresh; [done|].
  apply find_client_None in Hf.
  destruct m as [ctx tr]. fields.
  munfold. fields.
  destruct (kmalloc_cli e =? 0) eqn:E0; fields; [by constructor|].
  destruct (nclients ctx =? 0) eqn:E1; fields.
  - apply Z.eqb_eq in E1.
    assert (Hnil : clients ctx = [])
      by (destruct (clients ctx); [done|simpl in *; lia]).
    rewrite Hnil in *. simpl in L1, L2, L3.
    destruct (create_context_ret e =? 0) eqn:E2; fields;
      [simpl; inv_close; inv_nil Hnil|].
    destruct (mem_alloc_reg e =? 0) eqn:E3; fields;
      [simpl; inv_close; inv_nil Hnil|].
    destruct (vmap_ret e =? 0) eqn:E4; fields;
      [simpl; inv_close; inv_nil Hnil|].
    destruct (hwcnt_enable_ret e =? 0) eqn:E5; fields.
    + simpl. destruct (MALI_SEC_HWCNT (kbdev ctx) && (d =? 0));
        (destruct (kzalloc_accum e =? 0) eqn:E6; fields; simpl;
         [ rewrite E1; fields; inv_close; inv_nil Hnil
         | rewrite E1, Hnil; inv_close;
           [ apply NoDup_singleton | constructor; [done|constructor] ] ]).
    + apply Z.eqb_neq in E5. simpl.
      destruct (hwcnt_enable_ret e <? 0) eqn:E7; [|lia]. fields.
      inv_close; inv_nil Hnil.
  - apply Z.eqb_neq in E1.
    destruct (MALI_SEC_HWCNT (kbdev ctx) && (d =? 0));
    destruct (kzalloc_accum e =? 0) eqn:E6; fields; simpl.
    all: try (rewrite (proj2 (Z.eqb_neq _ _) E1); fields; by constructor).
    all: assert (Hne : clients ctx <> [])
        by (intros H0; rewrite H0 in Hc; simpl in Hc; lia).
    all: apply (occupancy_cons_live _ _ Hne) in L1, L2, L3.
    all: inv_close; unfold wrap32, U32_MAX in *.
    all: try (rewrite Z.mod_small by lia; lia).
    all: try (apply NoDup_cons; split; [exact Hf | exact Hn]).
    all: constructor; [|done]; fields; intros _; apply all_zero_replicate.
Qed.

Lemma update_client_length cli f l :
  length (update_client cli f l) = length l.
Proof.
  induction l as [|c l IH]; simpl; [done|].
  destruct (cli_addr c =? cli); simpl; by rewrite ?IH.
Qed.

Lemma update_client_addrs cli f l :
  keeps_addr f -> cli_addr <$> update_client cli f l = cli_addr <$> l.
Proof.
  intros Hf. induction l as [|c l IH]; [done|]. cbn [update_client].
  destruct (cli_addr c =? cli); rewrite !fmap_cons; by rewrite ?Hf, ?IH.
Qed.

Lemma update_client_zero cli f l :
  keeps_zero f ->
  Forall (fun c => pending c = true -> all_zero (accum_buffer c)) l ->
  Forall (fun c => pending c = true -> all_zero (accum_buffer c))
    (update_client cli f l).
Proof.
  intros Hf. induction 1 as [|c l Hc Hl IH]; simpl; [constructor|].
  destruct (cli_addr c =? cli); constructor; auto.
Qed.

Lemma fmap_addrs (f : kbase_vinstr_client -> kbase_vinstr_client)
    (l : list kbase_vinstr_client) :
  keeps_addr f -> cli_addr <$> (f <$> l) = cli_addr <$> l.
Proof.
  intros Hf. induction l as [|c l IH]; [done|].
  rewrite !fmap_cons. by rewrite Hf, IH.
Qed.

Lemma fmap_zero (f : kbase_vinstr_client -> kbase_vinstr_client)
    (l : list kbase_vinstr_client) :
  keeps_zero f ->
  Forall (fun c => pending c = true -> all_zero (accum_buffer c)) l ->
  Forall (fun c => pending c = true -> all_zero (accum_buffer c)) (f <$> l).
Proof.
  intros Hf. induction 1 as [|c l Hc Hl IH]; [constructor|].
  rewrite fmap_cons. constructor; auto.
Qed.

Lemma accum_client_pending ctx src c :
  pending c = true -> accum_client ctx src c = c.
Proof. intros Hp. unfold accum_client. by rewrite Hp. Qed.

Lemma accum_client_keeps_pending ctx src c :
  pending (accum_client ctx src c) = pending c.
Proof. unfold accum_client. by destruct (pending c) eqn:Hp. Qed.

Lemma accum_client_keeps_addr ctx src : keeps_addr (accum_client ctx src).
Proof. intros c. unfold accum_client. by destruct (pending c). Qed.

Lemma accum_client_keeps_zero ctx src : keeps_zero (accum_client ctx src).
Proof.
  intros c Hc Hp. rewrite accum_client_keeps_pending in Hp.
  rewrite accum_client_pending by done. auto.
Qed.

Lemma memset0_all_zero buf n : all_zero buf -> all_zero (memset0 buf n).
Proof.
  intros Hz. unfold memset0, all_zero. apply Forall_app. split.
  - by apply Forall_replicate.
  - by apply Forall_drop.
Qed.

Lemma clear_accum_keeps_addr : keeps_addr clear_accum.
Proof. done. Qed.

Lemma clear_accum_keeps_zero : keeps_zero clear_accum.
Proof. intros c Hc Hp. apply memset0_all_zero. auto. Qed.

Lemma set_pending_keeps_addr v : keeps_addr (set_pending v).
Proof. done. Qed.

Lemma set_pending_false_keeps_zero : keeps_zero (set_pending false).
Proof. intros c _ Hp. done. Qed.

Lemma occupancy_same_length (l l' : list kbase_vinstr_client) :
  length l' = length l -> occupancy l' = occupancy l.
Proof. by destruct l, l'. Qed.

Lemma occupancy_range l : 0 <= occupancy l <= 1.
Proof. destruct l; simpl; lia. Qed.

Lemma live_app_neutral (d : event -> Z) (evs tr : list event) :
  Forall (fun e => d e = 0) evs -> live d (evs ++ tr) = live d tr.
Proof.
  induction 1 as [|e evs He _ IH]; simpl; [done|]. rewrite He, IH. lia.
Qed.

Lemma at_every_point_app_neutral (d : event -> Z) (evs tr : list event) :
  Forall (fun e => d e = 0) evs ->
  0 <= live d tr <= 1 ->
  at_every_point d tr -> at_every_point d (evs ++ tr).
Proof.
  intros Hevs Hr Hpt. induction Hevs as [|e evs He Hevs IH]; simpl; [done|].
  split; [|done]. rewrite He, live_app_neutral by done. lia.
Qed.

(** The client list of a machine is replaced by one of the same shape and
    events that create or destroy nothing are logged. *)
Lemma inv_reshape m (ctx' : kbase_vinstr_context) (evs : list event) :
  inv m ->
  nclients ctx' = nclients (m_ctx m) ->
  length (clients ctx') = length (clients (m_ctx m)) ->
  cli_addr <$> clients ctx' = cli_addr <$> clients (m_ctx m) ->
  Forall (fun c => pending c = true -> all_zero (accum_buffer c))
    (clients ctx') ->
  Forall (fun e => kctx_delta e = 0 /\ region_delta e = 0 /\ vmap_delta e = 0)
    evs ->
  inv {| m_ctx := ctx'; m_trace := evs ++ m_trace m |}.
Proof.
  intros [Hc Hb Hn Hz K1 K2 K3 L1 L2 L3] Hn' Hlen Haddr Hz' Hevs.
  pose proof (occupancy_range (clients (m_ctx m))) as Hr.
  assert (H1 : Forall (fun e => kctx_delta e = 0) evs)
    by (eapply Forall_impl; [exact Hevs | naive_solver]).
  assert (H2 : Forall (fun e => region_delta e = 0) evs)
    by (eapply Forall_impl; [exact Hevs | naive_solver]).
  assert (H3 : Forall (fun e => vmap_delta e = 0) evs)
    by (eapply Forall_impl; [exact Hevs | naive_solver]).
  constructor; cbn [m_ctx m_trace];
    rewrite ?live_app_neutral, ?(occupancy_same_length _ _ Hlen) by done;
    try done.
  - by rewrite Hn', Hlen.
  - by rewrite Hn'.
  - by rewrite Haddr.
  - apply at_every_point_app_neutral; [done | lia | done].
  - apply at_every_point_app_neutral; [done | lia | done].
  - apply at_every_point_app_neutral; [done | lia | done].
Qed.

Lemma inv_emit ctx tr e :
  neutral e ->
  inv {| m_ctx := ctx; m_trace := tr |} ->
  inv {| m_ctx := ctx; m_trace := e :: tr |}.
Proof.
  intros He Hi.
  apply (inv_reshape {| m_ctx := ctx; m_trace := tr |} ctx [e]);
    try done.
  - apply Hi.
  - by constructor.
Qed.

Lemma inv_clients ctx ctx' tr :
  inv {| m_ctx := ctx; m_trace := tr |} ->
  nclients ctx' = nclients ctx ->
  length (clients ctx') = length (clients ctx) ->
  cli_addr <$> clients ctx' = cli_addr <$> clients ctx ->
  Forall (fun c => pending c = true -> all_zero (accum_buffer c))
    (clients ctx') ->
  inv {| m_ctx := ctx'; m_trace := tr |}.
Proof.
  intros Hi H1 H2 H3 H4.
  by apply (inv_reshape {| m_ctx := ctx; m_trace := tr |} ctx' []).
Qed.

Ltac inv_events :=
  repeat (apply inv_emit; [by repeat split|]).

Ltac inv_lists Hi :=
  eapply inv_clients; [exact Hi | done | ..]; fields;
  [ rewrite ?length_fmap, ?update_client_length, ?length_fmap; done
  | rewrite ?fmap_addrs, ?update_client_addrs, ?fmap_addrs;
      auto using accum_client_keeps_addr, clear_accum_keeps_addr,
                 set_pending_keeps_addr
  | repeat first
      [ apply fmap_zero; [auto using accum_client_keeps_zero,
                            set_pending_false_keeps_zero|]
      | apply update_client_zero; [apply clear_accum_keeps_zero|] ];
    apply Hi ].

Ltac msimp := cbv beta iota zeta; fields.

Lemma dump_inv e cli m : inv m -> inv (snd (kbase_vinstr_dump e cli m)).
Proof.
  intros Hi. destruct m as [ctx tr]. munfold.
  destruct (cli =? 0); msimp; [exact Hi|].
  destruct (find_client cli (clients ctx)) as [c0|]; msimp; [|exact Hi].
  destruct (request_dump_ret e =? 0); msimp; simpl; [|by inv_events].
  destruct (wait_for_dump_ret e =? 0); msimp; simpl; [|by inv_events].
  destruct (MALI_SEC_HWCNT (kbdev ctx) && list_is_singular (clients ctx) &&
            hwcnt_is_attach e); msimp; [by inv_events|].
  destruct (find_client cli (accum_client ctx (hw_dump e) <$> clients ctx))
    as [c|]; msimp.
  2: { inv_events. inv_lists Hi. }
  destruct (kernel c); msimp; simpl.
  - destruct (reprogram ctx); msimp.
    + destruct (reprogram_enable_ret e =? 0); msimp; simpl;
        inv_events; inv_lists Hi.
    + inv_events. inv_lists Hi.
  - destruct (copy_to_user_ret e =? 0); msimp; simpl.
    + destruct (reprogram ctx); msimp.
      * destruct (reprogram_enable_ret e =? 0); msimp; simpl;
          inv_events; inv_lists Hi.
      * inv_events. inv_lists Hi.
    + inv_events. inv_lists Hi.
Qed.

Lemma clear_inv e cli m : inv m -> inv (snd (kbase_vinstr_clear e cli m)).
Proof.
  intros Hi. destruct m as [ctx tr]. munfold.
  destruct (cli =? 0); msimp; [exact Hi|].
  destruct (find_client cli (clients ctx)) as [c0|]; msimp; [|exact Hi].
  destruct (request_dump_ret e =? 0); msimp; simpl; [|by inv_events].
  destruct (wait_for_dump_ret e =? 0); msimp; simpl; [|by inv_events].
  destruct (hwcnt_clear_ret e =? 0); msimp; simpl; [|by inv_events].
  destruct (reprogram ctx); msimp.
  - destruct (reprogram_enable_ret e =? 0); msimp; simpl;
      inv_events; inv_lists Hi.
  - inv_events. inv_lists Hi.
Qed.

Lemma list_del_Some cli l rest :
  list_del cli l = Some rest ->
  length l = S (length rest) /\
  (NoDup (cli_addr <$> l) -> NoDup (cli_addr <$> rest)) /\
  (forall c, c ∈ rest -> c ∈ l) /\
  (forall P : kbase_vinstr_client -> Prop, Forall P l -> Forall P rest).
Proof.
  revert rest. induction l as [|c l IH]; intros rest; [done|].
  cbn [list_del]. destruct (cli_addr c =? cli).
  - intros [= <-]. split; [done|]. split; [|split].
    + rewrite fmap_cons. by intros [_ ?]%NoDup_cons.
    + intros c' Hc'. by right.
    + intros P HP. by inversion HP.
  - destruct (list_del cli l) as [r|]; [|done]. intros [= <-].
    destruct (IH r eq_refl) as (Hlen & Hnd & Hin & Hall).
    split; [cbn [length]; lia|]. split; [|split].
    + rewrite !fmap_cons. intros [Hnotin Hnd']%NoDup_cons.
      apply NoDup_cons. split; [|auto].
      intros Hin'. apply Hnotin.
      apply list_elem_of_fmap in Hin' as (c' & -> & Hc').
      apply list_elem_of_fmap. eauto.
    + intros c' [->|Hc']%elem_of_cons; [left | right; auto].
    + intros P HP. inversion HP; subst. constructor; auto.
Qed.

Lemma detach_inv cli m : inv m -> inv (snd (kbase_vinstr_detach_client cli m)).
Proof.
  intros [Hc Hb Hn Hz K1 K2 K3 L1 L2 L3]. destruct m as [ctx tr]. fields.
  munfold. msimp.
  destruct (list_del cli (clients ctx)) as [rest|] eqn:Hdel; msimp.
  - destruct (list_del_Some _ _ _ Hdel) as (Hlen & Hnd & _ & Hall).
    assert (Hne : clients ctx <> [])
      by (intros H0; rewrite H0 in Hlen; simpl in Hlen; lia).
    apply (occupancy_cons_live _ _ Hne) in L1, L2, L3.
    assert (Hw : wrap32 (nclients ctx - 1) = Z.of_nat (length rest)).
    { unfold wrap32, U32_MAX in *. rewrite Z.mod_small by lia. lia. }
    rewrite Hw.
    destruct (Z.of_nat (length rest) =? 0) eqn:E; msimp.
    + apply Z.eqb_eq in E.
      assert (rest = []) as -> by (destruct rest; [done|simpl in E; lia]).
      inv_close; apply NoDup_nil_2.
    + apply Z.eqb_neq in E.
      assert (Hr : occupancy rest = 1) by (destruct rest; [done|done]).
      inv_close; unfold U32_MAX in *; rewrite ?Hr; try lia; auto.
  - by constructor.
Qed.

Lemma boot_inv dev : inv (boot dev).
Proof. constructor; simpl; try done; try constructor. Qed.

Lemma exec_op_inv o m m' : inv m -> exec_op o m = Some m' -> inv m'.
Proof.
  intros Hi. destruct o as [e k d b|cli|e cli|e cli]; simpl.
  - destruct (attach_env_ok e (m_ctx m)) eqn:Hok; [|done].
    intros [= <-]. by apply attach_inv.
  - intros [= <-]. by apply detach_inv.
  - pose proof (dump_inv e cli m Hi) as H.
    destruct (kbase_vinstr_dump e cli m) as [[r|] m1]; [|done].
    by intros [= <-].
  - pose proof (clear_inv e cli m Hi) as H.
    destruct (kbase_vinstr_clear e cli m) as [[r|] m1]; [|done].
    by intros [= <-].
Qed.

Lemma exec_inv ops m m' : inv m -> exec ops m = Some m' -> inv m'.
Proof.
  revert m. induction ops as [|o ops IH]; intros m Hi; simpl.
  - by intros [= <-].
  - destruct (exec_op o m) as [m1|] eqn:Ho; [|done].
    apply IH. by eapply exec_op_inv.
Qed.

Lemma find_client_fmap cli (f : kbase_vinstr_client -> kbase_vinstr_client)
    (l : list kbase_vinstr_client) :
  keeps_addr f -> find_client cli (f <$> l) = f <$> find_client cli l.
Proof.
  intros Hf. induction l as [|c l IH]; [done|].
  rewrite fmap_cons. cbn [find_client]. rewrite Hf.
  by destruct (cli_addr c =? cli).
Qed.

Lemma find_client_update cli f l :
  keeps_addr f ->
  find_client cli (update_client cli f l) = f <$> find_client cli l.
Proof.
  intros Hf. induction l as [|c l IH]; [done|]. cbn [update_client find_client].
  destruct (cli_addr c =? cli) eqn:E; cbn [find_client].
  - by rewrite Hf, E.
  - by rewrite E.
Qed.

Lemma memset0_whole buf n :
  length buf = Z.to_nat (n / sizeof_u32) ->
  memset0 buf n = replicate (length buf) 0.
Proof.
  intros Hlen. unfold memset0. rewrite <- Hlen.
  rewrite firstn_all, drop_all. by rewrite app_nil_r.
Qed.

Lemma accum_client_length ctx src c :
  length (accum_buffer (accum_client ctx src c)) = length (accum_buffer c).
Proof.
  unfold accum_client. destruct (pending c); [done|].
  cbn [accum_buffer set_accum_buffer]. rewrite accum_dump_buffer_length.
  destruct (hw_feature_v4 (kbdev ctx)).
  - apply patch_dump_buffer_hdr_v4_length.
  - apply patch_dump_buffer_hdr_v5_length.
Qed.

Lemma accum_client_dump_size ctx src c :
  cli_dump_size (accum_client ctx src c) = cli_dump_size c.
Proof. unfold accum_client. by destruct (pending c). Qed.

Ltac reach H :=
  destruct H as (Hcli & Hfind & Hreq & Hwait & Hsec);
  match goal with
  | m : machine |- _ => destruct m as [ctx tr]
  end;
  fields; munfold; msimp;
  rewrite (proj2 (Z.eqb_neq _ _) Hcli); msimp;
  rewrite Hfind; msimp;
  rewrite (proj2 (Z.eqb_eq _ _) Hreq); cbn [negb]; msimp;
  rewrite (proj2 (Z.eqb_eq _ _) Hwait); cbn [negb]; msimp;
  rewrite Hsec; msimp;
  rewrite find_client_fmap, Hfind by apply accum_client_keeps_addr;
  cbn [fmap option_fmap option_map]; msimp.

(** ** A failed copy loses no data (claim C6) *)

(** Claim C6.  When [kbase_vinstr_dump] reaches the copy of the
    accumulation buffer of the target client to its destination: if the
    client is a user client and [copy_to_user] fails, the call returns
    [-EFAULT] and the client is left exactly as the accumulation pass
    left it, its accumulated counters intact; the buffer is zeroed only
    on the other path, where the copy has succeeded (a kernel client, or
    [copy_to_user] returning 0). *)
Theorem dump_copy_fault_keeps_accum (e : dump_env) (cli : Z) (m : machine)
    (c : kbase_vinstr_client) :
  reaches_copy e cli m c ->
  length (accum_buffer c) = Z.to_nat (cli_dump_size c / sizeof_u32) ->
  let c1 := accum_client (m_ctx m) (hw_dump e) c in
  let r := fst (kbase_vinstr_dump e cli m) in
  let m' := snd (kbase_vinstr_dump e cli m) in
  (kernel c = false -> copy_to_user_ret e <> 0 ->
     r = Some (- EFAULT) /\
     find_client cli (clients (m_ctx m')) = Some c1) /\
  (kernel c = true \/ copy_to_user_ret e = 0 ->
     exists c', find_client cli (clients (m_ctx m')) = Some c' /\
                accum_buffer c' = replicate (length (accum_buffer c)) 0).
Proof.
  intros Hr Hlen c1 r m'. subst c1 r m'. reach Hr.
  split.
  - intros Hk Hcopy.
    replace (kernel (accum_client ctx (hw_dump e) c)) with false
      by (unfold accum_client; by destruct (pending c)).
    cbn [negb]. msimp. rewrite (proj2 (Z.eqb_neq _ _) Hcopy).
    cbn [negb]. msimp. simpl.
    split; [done|].
    by rewrite find_client_fmap, Hfind by apply accum_client_keeps_addr.
  - intros Hok.
    assert (Hz : accum_buffer (clear_accum (accum_client ctx (hw_dump e) c)) =
                 replicate (length (accum_buffer c)) 0).
    { unfold clear_accum. cbn [accum_buffer set_accum_buffer].
      rewrite memset0_whole
        by (by rewrite accum_client_length, accum_client_dump_size).
      by rewrite accum_client_length. }
    assert (Hf : find_client cli
              (update_client cli clear_accum
                 (accum_client ctx (hw_dump e) <$> clients ctx)) =
            Some (clear_accum (accum_client ctx (hw_dump e) c))).
    { by rewrite find_client_update, find_client_fmap, Hfind
        by (apply accum_client_keeps_addr || apply clear_accum_keeps_addr). }
    replace (kernel (accum_client ctx (hw_dump e) c)) with (kernel c)
      by (unfold accum_client; by destruct (pending c)).
    destruct (kernel c); msimp; simpl.
    + destruct (reprogram ctx); msimp.
      * destruct (reprogram_enable_ret e =? 0); msimp; simpl.
        -- exists (set_pending false (clear_accum (accum_client ctx (hw_dump e) c))).
           split; [|done].
           by rewrite find_client_fmap, Hf by apply set_pending_keeps_addr.
        -- eauto.
      * eauto.
    + destruct Hok as [?|Hok]; [done|]. rewrite Hok. msimp. simpl.
      destruct (reprogram ctx); msimp.
      * destruct (reprogram_enable_ret e =? 0); msimp; simpl.
        -- exists (set_pending false (clear_accum (accum_client ctx (hw_dump e) c))).
           split; [|done].
           by rewrite find_client_fmap, Hf by apply set_pending_keeps_addr.
        -- eauto.
      * eauto.
Qed.

Lemma dump_copy_fault_keeps_accum_witness :
  let e := env_dump (replicate 320 7) 5 0 in
  let m := after two_clients dev_v5 in
  fst (kbase_vinstr_dump e 16 m) = Some (- EFAULT) /\
  find_client 16 (clients (m_ctx (snd (kbase_vinstr_dump e 16 m)))) =
    Some (accum_client (m_ctx m) (hw_dump e) first_client).
Proof.
  intros e m.
  assert (Hr : reaches_copy e 16 m first_client)
    by (repeat split; vm_compute; congruence).
  assert (Hlen : length (accum_buffer first_client) =
                 Z.to_nat (cli_dump_size first_client / sizeof_u32))
    by reflexivity.
  apply (proj1 (dump_copy_fault_keeps_accum e 16 m first_client Hr Hlen));
    [reflexivity | vm_compute; congruence].
Defined.

Lemma accum_client_keeps_kernel ctx src c :
  kernel (accum_client ctx src c) = kernel c.
Proof. unfold accum_client. by destruct (pending c). Qed.

(** ** A failed copy skips the reprogram (claim C10) *)

(** Claim C10.  When [kbase_vinstr_dump] fails with [-EFAULT] at the copy
    to user space, the hardware is neither disabled nor re-enabled (the
    only calls logged are the dump request, the wait and the copy), the
    reprogram flag, the mask and the pending flag of every client are
    what they were, and yet every client of the context has been through
    the accumulation pass: each client that is not pending, the caller or
    another, has the dump patched and accumulated into its buffer. *)
Theorem dump_copy_fault_skips_reprogram (e : dump_env) (cli : Z) (m : machine)
    (c : kbase_vinstr_client) :
  reaches_copy e cli m c ->
  kernel c = false ->
  copy_to_user_ret e <> 0 ->
  let c1 := accum_client (m_ctx m) (hw_dump e) c in
  let r := fst (kbase_vinstr_dump e cli m) in
  let m' := snd (kbase_vinstr_dump e cli m) in
  r = Some (- EFAULT) /\
  m_trace m' =
    EvCopyToUser (dump_buffer c1) (read_bytes (accum_buffer c1) (cli_dump_size c1))
      (copy_to_user_ret e)
    :: EvWaitForDump 0 :: EvRequestDump 0 :: m_trace m /\
  reprogram (m_ctx m') = reprogram (m_ctx m) /\
  bitmap (m_ctx m') = bitmap (m_ctx m) /\
  pending <$> clients (m_ctx m') = pending <$> clients (m_ctx m) /\
  clients (m_ctx m') = accum_client (m_ctx m) (hw_dump e) <$> clients (m_ctx m) /\
  (forall i c2, clients (m_ctx m) !! i = Some c2 -> pending c2 = false ->
     exists c2', clients (m_ctx m') !! i = Some c2' /\
       accum_buffer c2' =
         accum_dump_buffer
           (if hw_feature_v4 (kbdev (m_ctx m))
            then patch_dump_buffer_hdr_v4 (kbdev (m_ctx m)) (cli_bitmap c2)
                   (hw_dump e) (accum_buffer c2)
            else patch_dump_buffer_hdr_v5 (kbdev (m_ctx m)) (cli_bitmap c2)
                   (hw_dump e) (accum_buffer c2))
           (hw_dump e) (cli_dump_size c2)).
Proof.
  intros Hr Hk Hcopy c1 r m'. subst c1 r m'.
  reach Hr.
  rewrite accum_client_keeps_kernel, Hk. cbn [negb]. msimp.
  rewrite (proj2 (Z.eqb_neq _ _) Hcopy). cbn [negb]. msimp. simpl.
  rewrite Hreq, Hwait.
  repeat split; try done.
  - rewrite <- list_fmap_compose. apply list_fmap_ext.
    intros i c2 _. apply accum_client_keeps_pending.
  - intros i c2 Hi Hp. exists (accum_client ctx (hw_dump e) c2). split.
    + by rewrite list_lookup_fmap, Hi.
    + unfold accum_client. rewrite Hp. cbn [accum_buffer set_accum_buffer].
      by destruct (hw_feature_v4 (kbdev ctx)).
Qed.

Lemma dump_copy_fault_skips_reprogram_witness :
  let e := env_dump (replicate 320 7) 5 0 in
  let m := after two_clients dev_v5 in
  fst (kbase_vinstr_dump e 16 m) = Some (- EFAULT) /\
  reprogram (m_ctx (snd (kbase_vinstr_dump e 16 m))) = true /\
  pending <$> clients (m_ctx (snd (kbase_vinstr_dump e 16 m))) = [true; false].
Proof.
  intros e m.
  assert (Hr : reaches_copy e 16 m first_client)
    by (repeat split; vm_compute; congruence).
  destruct (dump_copy_fault_skips_reprogram e 16 m first_client Hr eq_refl
              ltac:(vm_compute; congruence))
    as (H1 & _ & H2 & _ & H3 & _).
  split; [exact H1|]. split.
  - rewrite H2. reflexivity.
  - rewrite H3. reflexivity.
Defined.

Lemma occupancy_1 (l : list kbase_vinstr_client) : occupancy l = 1 <-> l <> [].
Proof. by destruct l. Qed.

Lemma attach_first_creates_one e k d b m :
  inv m -> attach_env_ok e (m_ctx m) = true ->
  clients (m_ctx m) = [] ->
  fst (kbase_vinstr_attach_client e k d b m) <> 0 ->
  exists evs,
    m_trace (snd (kbase_vinstr_attach_client e k d b m)) = evs ++ m_trace m /\
    count_delta kctx_delta 1 evs = 1%nat /\
    count_delta kctx_delta (-1) evs = 0%nat.
Proof.
  intros [Hc _ _ _ _ _ _ _ _ _] Hok Hnil.
  unfold attach_env_ok in Hok.
  apply andb_prop in Hok as [Hok _]. apply andb_prop in Hok as [Hen _].
  apply Z.leb_le in Hen.
  rewrite Hnil in Hc. destruct m as [ctx tr]. fields. simpl in Hc.
  munfold. msimp.
  destruct (kmalloc_cli e =? 0); msimp; [done|].
  rewrite Hc. change (0 =? 0) with true. msimp.
  destruct (create_context_ret e =? 0); msimp; simpl; [done|].
  destruct (mem_alloc_reg e =? 0); msimp; simpl; [done|].
  destruct (vmap_ret e =? 0); msimp; simpl; [done|].
  destruct (hwcnt_enable_ret e =? 0) eqn:E5; msimp; simpl.
  - destruct (MALI_SEC_HWCNT (kbdev ctx) && (d =? 0));
      (destruct (kzalloc_accum e =? 0); msimp; simpl;
       [ rewrite Hc; by msimp |]);
      intros _;
      (eexists [_; _; _; _]; split; [reflexivity|]; by simpl).
  - apply Z.eqb_neq in E5.
    destruct (hwcnt_enable_ret e <? 0) eqn:E7; [|lia]. by msimp.
Qed.

Lemma detach_last_destroys_one cli m :
  inv m ->
  clients (m_ctx m) <> [] ->
  clients (m_ctx (snd (kbase_vinstr_detach_client cli m))) = [] ->
  exists evs,
    m_trace (snd (kbase_vinstr_detach_client cli m)) = evs ++ m_trace m /\
    count_delta kctx_delta 1 evs = 0%nat /\
    count_delta kctx_delta (-1) evs = 1%nat.
Proof.
  intros [Hc Hb _ _ _ _ _ _ _ _] Hne. destruct m as [ctx tr]. fields.
  munfold. msimp.
  destruct (list_del cli (clients ctx)) as [rest|] eqn:Hdel; msimp; [|done].
  destruct (list_del_Some _ _ _ Hdel) as (Hlen & _).
  assert (Hw : wrap32 (nclients ctx - 1) = Z.of_nat (length rest)).
  { unfold wrap32, U32_MAX in *. rewrite Z.mod_small by lia. lia. }
  rewrite Hw.
  destruct (Z.of_nat (length rest) =? 0) eqn:E; msimp.
  - intros _. eexists [_; _; _; _]. split; [reflexivity|]. by simpl.
  - intros ->. simpl in E. done.
Qed.

(** ** The hardware context and the attached clients (claim C7) *)

(** Property X25.  After any sequence of attaches, detaches, dumps and
    clears from [kbase_vinstr_init] whose environments are admissible: at
    every point of the trace the number of hardware contexts created minus
    the number destroyed is 0 or 1 (and so for the CPU mapping and the
    region of the dump buffer); at the end of an operation it is 1 exactly
    when a client is attached; a successful attach into an empty context
    creates exactly one hardware context and destroys none; a detach that
    empties the context destroys exactly one and creates none. *)
Theorem hw_context_iff_clients (ops : list op) (dev : kbase_device)
    (m : machine) :
  exec ops (boot dev) = Some m ->
  at_every_point kctx_delta (m_trace m) /\
  at_every_point vmap_delta (m_trace m) /\
  at_every_point region_delta (m_trace m) /\
  (live kctx_delta (m_trace m) = 1 <-> clients (m_ctx m) <> []) /\
  (live vmap_delta (m_trace m) = 1 <-> clients (m_ctx m) <> []) /\
  (live region_delta (m_trace m) = 1 <-> clients (m_ctx m) <> []) /\
  (forall e k d b,
     attach_env_ok e (m_ctx m) = true ->
     clients (m_ctx m) = [] ->
     fst (kbase_vinstr_attach_client e k d b m) <> 0 ->
     exists evs,
       m_trace (snd (kbase_vinstr_attach_client e k d b m)) =
         evs ++ m_trace m /\
       count_delta kctx_delta 1 evs = 1%nat /\
       count_delta kctx_delta (-1) evs = 0%nat) /\
  (forall cli,
     clients (m_ctx m) <> [] ->
     clients (m_ctx (snd (kbase_vinstr_detach_client cli m))) = [] ->
     exists evs,
       m_trace (snd (kbase_vinstr_detach_client cli m)) = evs ++ m_trace m /\
       count_delta kctx_delta 1 evs = 0%nat /\
       count_delta kctx_delta (-1) evs = 1%nat).
Proof.
  intros Hex. pose proof (exec_inv _ _ _ (boot_inv dev) Hex) as Hi.
  destruct Hi as [Hc Hb Hn Hz K1 K2 K3 L1 L2 L3] eqn:E. clear E.
  rewrite L1, L2, L3, occupancy_1.
  repeat split; try done.
  - intros e k d b. by apply attach_first_creates_one.
  - intros cli. by apply detach_last_destroys_one.
Qed.

Lemma hw_context_iff_clients_witness :
  let ops := two_clients ++ [OpDetach 16; OpDetach 32] in
  let m := after ops dev_v5 in
  at_every_point kctx_delta (m_trace m) /\
  (live kctx_delta (m_trace m) = 1 <-> clients (m_ctx m) <> []).
Proof.
  intros ops m.
  assert (Hex : exec ops (boot dev_v5) = Some m) by (vm_compute; reflexivity).
  destruct (hw_context_iff_clients ops dev_v5 m Hex)
    as (H1 & _ & _ & H2 & _).
  exact (conj H1 H2).
Defined.

(** Claim C7, at an input where the code departs from it.  On a fresh
    context, a first attach during which [kbase_vmap] fails returns [NULL]
    and leaves no client attached; [create_vinstr_kctx] has destroyed the
    hardware context it created but has left its address in [ctx->kctx].
    [kbase_vinstr_term] then finds the pointer set and tears the context
    down again: one hardware context has been created and two destroyed,
    so the number of creations minus destructions is -1, and so it is for
    the mapping and the region of the dump buffer, and it is not 0 or 1 at
    every point. *)
Theorem term_destroys_hw_context_twice :
  let m0 := boot dev_v5 in
  let e := env_no_map 16 in
  let r := fst (kbase_vinstr_attach_client e false 4096 (Bitmap 0 0 15 0) m0) in
  let m := snd (kbase_vinstr_attach_client e false 4096 (Bitmap 0 0 15 0) m0) in
  let m' := snd (kbase_vinstr_term m) in
  attach_env_ok e (m_ctx m0) = true /\
  r = 0 /\
  clients (m_ctx m) = [] /\
  m_trace m = [EvDestroyContext 32768; EvMemFree 40960; EvMemAlloc 40960;
               EvCreateContext 32768] /\
  live kctx_delta (m_trace m) = 0 /\
  kctx (m_ctx m) = 32768 /\
  m_trace m' = [EvDestroyContext 32768; EvMemFree 40960; EvVunmap;
                EvHwcntDisable] ++ m_trace m /\
  count_delta kctx_delta 1 (m_trace m') = 1%nat /\
  count_delta kctx_delta (-1) (m_trace m') = 2%nat /\
  live kctx_delta (m_trace m') = -1 /\
  live vmap_delta (m_trace m') = -1 /\
  live region_delta (m_trace m') = -1 /\
  ~ at_every_point kctx_delta (m_trace m').
Proof.
  vm_compute. repeat split; try done. intros [[H _] _]. by apply H.
Qed.

Lemma same_flags_refl l : same_flags l l.
Proof. done. Qed.

Lemma same_flags_trans l1 l2 l3 :
  same_flags l1 l2 -> same_flags l2 l3 -> same_flags l1 l3.
Proof. intros [H1 H2] [H3 H4]. split; congruence. Qed.

Lemma same_flags_fmap (f : kbase_vinstr_client -> kbase_vinstr_client)
    (l : list kbase_vinstr_client) :
  keeps_addr f -> keeps_pending f -> same_flags l (f <$> l).
Proof.
  intros Ha Hp. split.
  - by apply fmap_addrs.
  - rewrite <- list_fmap_compose. apply list_fmap_ext. intros i c _. apply Hp.
Qed.

Lemma same_flags_update cli f l :
  keeps_addr f -> keeps_pending f -> same_flags l (update_client cli f l).
Proof.
  intros Ha Hp. split; [by apply update_client_addrs|].
  induction l as [|c l IH]; [done|]. cbn [update_client].
  destruct (cli_addr c =? cli); rewrite !fmap_cons; by rewrite ?Hp, ?IH.
Qed.

Lemma same_flags_elem l l' c c' :
  NoDup (cli_addr <$> l) -> same_flags l l' ->
  c ∈ l -> c' ∈ l' -> cli_addr c' = cli_addr c -> pending c' = pending c.
Proof.
  intros Hnd [Ha Hp] Hc Hc' Heq.
  apply list_elem_of_lookup in Hc as [i Hi].
  apply list_elem_of_lookup in Hc' as [j Hj].
  assert (H1 : (cli_addr <$> l) !! i = Some (cli_addr c))
    by (by rewrite list_lookup_fmap, Hi).
  assert (H2 : (cli_addr <$> l) !! j = Some (cli_addr c)).
  { rewrite <- Ha, list_lookup_fmap, Hj. simpl. by rewrite Heq. }
  assert (i = j) as <- by (eapply NoDup_lookup; eauto).
  assert (H3 : (pending <$> l') !! i = Some (pending c'))
    by (by rewrite list_lookup_fmap, Hj).
  rewrite Hp, list_lookup_fmap, Hi in H3. simpl in H3. congruence.
Qed.

Lemma clear_accum_keeps_pending : keeps_pending clear_accum.
Proof. done. Qed.

Lemma all_not_pending (l : list kbase_vinstr_client) :
  Forall (fun c => pending c = false) (set_pending false <$> l).
Proof. induction l; [constructor|]. rewrite fmap_cons. by constructor. Qed.

Ltac flags :=
  repeat first
    [ apply same_flags_refl
    | eapply same_flags_trans;
        [| apply same_flags_update;
             [apply clear_accum_keeps_addr | apply clear_accum_keeps_pending] ]
    | apply same_flags_fmap;
        [apply accum_client_keeps_addr | intros ?; apply accum_client_keeps_pending] ].

Ltac munfold_dump :=
  cbv [kbase_vinstr_dump kbase_vinstr_clear accum_clients
       bind ret update emit get_ctx].

Lemma reprogram_tail_cases e m :
  (reprogram (m_ctx m) = true /\ reprogram_enable_ret e = 0 /\
   reprogram_tail e m =
     (0, {| m_ctx := set_clients (set_pending false <$> clients (m_ctx m))
                       (set_reprogram false (m_ctx m));
            m_trace := EvHwcntEnable (gpu_va (m_ctx m))
                         (hwcnt_bitmap_set zerobitmap (bitmap (m_ctx m))) 0
                       :: EvHwcntDisable :: m_trace m |})) \/
  (reprogram (m_ctx m) = true /\ reprogram_enable_ret e <> 0 /\
   reprogram_tail e m =
     (reprogram_enable_ret e,
      {| m_ctx := m_ctx m;
         m_trace := EvHwcntEnable (gpu_va (m_ctx m))
                      (hwcnt_bitmap_set zerobitmap (bitmap (m_ctx m)))
                      (reprogram_enable_ret e)
                    :: EvHwcntDisable :: m_trace m |})) \/
  (reprogram (m_ctx m) = false /\ reprogram_tail e m = (0, m)).
Proof.
  destruct m as [ctx tr]. munfold. msimp.
  destruct (reprogram ctx); msimp; [|by right; right].
  destruct (Z.eqb_spec (reprogram_enable_ret e) 0) as [He|He]; msimp; simpl.
  - left. by rewrite He.
  - right. left. done.
Qed.

Lemma reprogram_tail_flags o e cli m err m' :
  (o = OpDump e cli \/ o = OpClear e cli) ->
  reprogram_tail e m = (err, m') ->
  forall m0, same_flags (clients (m_ctx m0)) (clients (m_ctx m)) ->
             reprogram (m_ctx m0) = reprogram (m_ctx m) ->
  same_flags (clients (m_ctx m0)) (clients (m_ctx m')) \/
  reprogrammed o m0 m'.
Proof.
  intros Ho Ht m0 Hs Hr.
  destruct (reprogram_tail_cases e m) as
    [(H1 & H2 & H3)|[(H1 & H2 & H3)|(H1 & H3)]];
    rewrite H3 in Ht; injection Ht as <- <-; fields.
  - right. split; [eauto|]. split; [congruence|]. split; [done|].
    apply all_not_pending.
  - by left.
  - by left.
Qed.

Lemma dump_flags e cli m r m' :
  kbase_vinstr_dump e cli m = (r, m') ->
  same_flags (clients (m_ctx m)) (clients (m_ctx m')) \/
  reprogrammed (OpDump e cli) m m'.
Proof.
  destruct m as [ctx tr]. munfold_dump.
  destruct (cli =? 0); msimp; [intros [= <- <-]; by left|].
  destruct (find_client cli (clients ctx)) as [c0|]; msimp;
    [|intros [= <- <-]; by left].
  destruct (request_dump_ret e =? 0); msimp; simpl;
    [|intros [= <- <-]; by left].
  destruct (wait_for_dump_ret e =? 0); msimp; simpl;
    [|intros [= <- <-]; by left].
  destruct (MALI_SEC_HWCNT (kbdev ctx) && list_is_singular (clients ctx) &&
            hwcnt_is_attach e); msimp; [intros [= <- <-]; by left|].
  destruct (find_client cli (accum_client ctx (hw_dump e) <$> clients ctx))
    as [c|]; msimp.
  2: { intros [= <- <-]. left. fields. flags. }
  assert (Hrep : forall tr0,
    (let '(a0, m'0) := reprogram_tail e
         {| m_ctx := set_clients
                       (update_client cli clear_accum
                          (accum_client ctx (hw_dump e) <$> clients ctx)) ctx;
            m_trace := tr0 |} in
     (Some a0, m'0)) = (r, m') ->
    same_flags (clients ctx) (clients (m_ctx m')) \/
    reprogrammed (OpDump e cli) {| m_ctx := ctx; m_trace := tr |} m').
  { intros tr0. destruct (reprogram_tail e _) as [a0 m0] eqn:Et.
    intros [= <- <-].
    eapply (reprogram_tail_flags _ e cli _ _ _ (or_introl eq_refl) Et
              {| m_ctx := ctx; m_trace := tr |}); fields; [flags | done]. }
  destruct (kernel c); msimp; simpl.
  - apply Hrep.
  - destruct (copy_to_user_ret e =? 0); msimp; simpl.
    + apply Hrep.
    + intros [= <- <-]. left. fields. flags.
Qed.

Lemma clear_flags e cli m r m' :
  kbase_vinstr_clear e cli m = (r, m') ->
  same_flags (clients (m_ctx m)) (clients (m_ctx m')) \/
  reprogrammed (OpClear e cli) m m'.
Proof.
  destruct m as [ctx tr]. munfold_dump.
  destruct (cli =? 0); msimp; [intros [= <- <-]; by left|].
  destruct (find_client cli (clients ctx)) as [c0|]; msimp;
    [|intros [= <- <-]; by left].
  destruct (request_dump_ret e =? 0); msimp; simpl;
    [|intros [= <- <-]; by left].
  destruct (wait_for_dump_ret e =? 0); msimp; simpl;
    [|intros [= <- <-]; by left].
  destruct (hwcnt_clear_ret e =? 0); msimp; simpl;
    [|intros [= <- <-]; by left].
  destruct (reprogram_tail e _) as [a0 m0] eqn:Et.
  intros [= <- <-].
  eapply (reprogram_tail_flags _ e cli _ _ _ (or_intror eq_refl) Et
            {| m_ctx := ctx; m_trace := tr |}); fields; [flags | done].
Qed.

Lemma find_client_Some cli l c :
  find_client cli l = Some c -> c ∈ l /\ cli_addr c = cli.
Proof.
  induction l as [|c0 l IH]; [done|]. cbn [find_client].
  destruct (Z.eqb_spec (cli_addr c0) cli) as [Heq|Hne].
  - intros [= <-]. split; [left | done].
  - intros H. destruct (IH H). split; [by right | done].
Qed.

Lemma read_bytes_all_zero buf n : all_zero buf -> all_zero (read_bytes buf n).
Proof. intros Hz. unfold read_bytes, all_zero. by apply Forall_take. Qed.

Lemma reprogram_tail_trace e m :
  exists evs, m_trace (snd (reprogram_tail e m)) = evs ++ m_trace m /\
              delivered evs = [].
Proof.
  destruct (reprogram_tail_cases e m) as
    [(_ & _ & H3)|[(_ & _ & H3)|(_ & H3)]]; rewrite H3; cbn [snd m_trace].
  - by eexists [_; _].
  - by eexists [_; _].
  - by exists [].
Qed.

Lemma dump_pending_delivers_zero e cli m c :
  find_client cli (clients (m_ctx m)) = Some c ->
  pending c = true ->
  all_zero (accum_buffer c) ->
  exists evs,
    m_trace (snd (kbase_vinstr_dump e cli m)) = evs ++ m_trace m /\
    Forall all_zero (delivered evs) /\
    (reaches_copy e cli m c ->
     delivered evs = [read_bytes (accum_buffer c) (cli_dump_size c)]).
Proof.
  intros Hfind Hp Hz. destruct m as [ctx tr]. fields. munfold_dump.
  unfold reaches_copy. fields.
  destruct (Z.eqb_spec cli 0) as [?|Hcli]; msimp.
  { exists []. split; [done|]. split; [constructor|]. by intros [? _]. }
  rewrite Hfind. msimp.
  destruct (Z.eqb_spec (request_dump_ret e) 0) as [Hreq|Hreq]; msimp; simpl.
  2: { eexists [_]. split; [done|]. split; [constructor|]. by intros (_&_&?&_). }
  destruct (Z.eqb_spec (wait_for_dump_ret e) 0) as [Hw|Hw]; msimp; simpl.
  2: { eexists [_; _]. split; [done|]. split; [constructor|].
       by intros (_&_&_&?&_). }
  destruct (MALI_SEC_HWCNT (kbdev ctx) && list_is_singular (clients ctx) &&
            hwcnt_is_attach e); msimp.
  { eexists [_; _]. split; [done|]. split; [constructor|].
    by intros (_&_&_&_&?). }
  rewrite find_client_fmap, Hfind by apply accum_client_keeps_addr.
  cbn [fmap option_fmap option_map]. msimp.
  rewrite (accum_client_pending _ _ _ Hp).
  pose proof (read_bytes_all_zero _ (cli_dump_size c) Hz) as Hz'.
  destruct (kernel c); msimp; simpl.
  - destruct (reprogram_tail_trace e
      {| m_ctx := set_clients (update_client cli clear_accum
                    (accum_client ctx (hw_dump e) <$> clients ctx)) ctx;
         m_trace := EvMemcpy (dump_buffer c)
                      (read_bytes (accum_buffer c) (cli_dump_size c))
                    :: EvWaitForDump (wait_for_dump_ret e)
                    :: EvRequestDump (request_dump_ret e) :: tr |})
      as (evs & Ht & Hd).
    destruct (reprogram_tail e _) as [a0 m0]. fields. cbn [snd] in Ht.
    rewrite Ht. cbn [m_trace].
    exists (evs ++ [EvMemcpy (dump_buffer c)
                      (read_bytes (accum_buffer c) (cli_dump_size c));
                    EvWaitForDump (wait_for_dump_ret e);
                    EvRequestDump (request_dump_ret e)]).
    split; [by rewrite <- app_assoc|].
    assert (Hdel : delivered (evs ++ [EvMemcpy (dump_buffer c)
                      (read_bytes (accum_buffer c) (cli_dump_size c));
                    EvWaitForDump (wait_for_dump_ret e);
                    EvRequestDump (request_dump_ret e)]) =
                   [read_bytes (accum_buffer c) (cli_dump_size c)]).
    { clear Ht. induction evs as [|ev evs IH]; [done|].
      destruct ev; simpl in *; try done; by apply IH. }
    rewrite Hdel. split; [by constructor | done].
  - destruct (copy_to_user_ret e =? 0); msimp; simpl.
    + destruct (reprogram_tail_trace e
        {| m_ctx := set_clients (update_client cli clear_accum
                      (accum_client ctx (hw_dump e) <$> clients ctx)) ctx;
           m_trace := EvCopyToUser (dump_buffer c)
                        (read_bytes (accum_buffer c) (cli_dump_size c))
                        (copy_to_user_ret e)
                      :: EvWaitForDump (wait_for_dump_ret e)
                      :: EvRequestDump (request_dump_ret e) :: tr |})
        as (evs & Ht & Hd).
      destruct (reprogram_tail e _) as [a0 m0]. fields. cbn [snd] in Ht.
      rewrite Ht. cbn [m_trace].
      exists (evs ++ [EvCopyToUser (dump_buffer c)
                        (read_bytes (accum_buffer c) (cli_dump_size c))
                        (copy_to_user_ret e);
                      EvWaitForDump (wait_for_dump_ret e);
                      EvRequestDump (request_dump_ret e)]).
      split; [by rewrite <- app_assoc|].
      assert (Hdel : delivered (evs ++ [EvCopyToUser (dump_buffer c)
                        (read_bytes (accum_buffer c) (cli_dump_size c))
                        (copy_to_user_ret e);
                      EvWaitForDump (wait_for_dump_ret e);
                      EvRequestDump (request_dump_ret e)]) =
                     [read_bytes (accum_buffer c) (cli_dump_size c)]).
      { clear Ht. induction evs as [|ev evs IH]; [done|].
        destruct ev; simpl in *; try done; by apply IH. }
      rewrite Hdel. split; [by constructor | done].
    + eexists [_; _; _]. split; [done|]. simpl.
      split; [by constructor | done].
Qed.

Lemma attach_clients e k d b m :
  clients (m_ctx (snd (kbase_vinstr_attach_client e k d b m))) =
    clients (m_ctx m) \/
  exists c, cli_addr c = kmalloc_cli e /\
    clients (m_ctx (snd (kbase_vinstr_attach_client e k d b m))) =
      c :: clients (m_ctx m).
Proof.
  destruct m as [ctx tr]. munfold. msimp.
  destruct (kmalloc_cli e =? 0); msimp; [by left|].
  destruct (nclients ctx =? 0) eqn:E1; msimp.
  - destruct (create_context_ret e =? 0); msimp; simpl; [by left|].
    destruct (mem_alloc_reg e =? 0); msimp; simpl; [by left|].
    destruct (vmap_ret e =? 0); msimp; simpl; [by left|].
    destruct (hwcnt_enable_ret e =? 0); msimp; simpl.
    + destruct (MALI_SEC_HWCNT (kbdev ctx) && (d =? 0));
        (destruct (kzalloc_accum e =? 0); msimp; simpl;
         [ rewrite E1; msimp; by left | right; eexists; split; [|reflexivity]; reflexivity ]).
    + destruct (hwcnt_enable_ret e <? 0); msimp; [by left|].
      destruct (MALI_SEC_HWCNT (kbdev ctx) && (d =? 0));
        (destruct (kzalloc_accum e =? 0); msimp; simpl;
         [ rewrite E1; msimp; by left | right; eexists; split; [|reflexivity]; reflexivity ]).
  - destruct (MALI_SEC_HWCNT (kbdev ctx) && (d =? 0));
      (destruct (kzalloc_accum e =? 0); msimp; simpl;
       [ rewrite E1; msimp; by left | right; eexists; split; [|reflexivity]; reflexivity ]).
Qed.

Lemma detach_clients cli m c :
  c ∈ clients (m_ctx (snd (kbase_vinstr_detach_client cli m))) ->
  c ∈ clients (m_ctx m).
Proof.
  destruct m as [ctx tr]. munfold. msimp.
  destruct (list_del cli (clients ctx)) as [rest|] eqn:Hdel; msimp; [|done].
  destruct (list_del_Some _ _ _ Hdel) as (_ & _ & Hin & _).
  destruct (wrap32 (nclients ctx - 1) =? 0); msimp; apply Hin.
Qed.

(** ** The paths of a dump and of a clear *)

(** [kbase_vinstr_dump] path by path. *)
Lemma kbase_vinstr_dump_paths e cli m :
  let ctx := m_ctx m in
  let tr := m_trace m in
  kbase_vinstr_dump e cli m =
  if cli =? 0 then (Some (- EINVAL), m)
  else match find_client cli (clients ctx) with
  | None => (None, m)
  | Some c =>
    if negb (request_dump_ret e =? 0)
    then (Some (request_dump_ret e),
          {| m_ctx := ctx;
             m_trace := EvRequestDump (request_dump_ret e) :: tr |})
    else if negb (wait_for_dump_ret e =? 0)
    then (Some (wait_for_dump_ret e),
          {| m_ctx := ctx; m_trace := dumped e tr |})
    else if MALI_SEC_HWCNT (kbdev ctx) && list_is_singular (clients ctx) &&
            hwcnt_is_attach e
    then (Some 0, {| m_ctx := ctx; m_trace := dumped e tr |})
    else
      let c1 := accum_client ctx (hw_dump e) c in
      let l1 := accum_client ctx (hw_dump e) <$> clients ctx in
      if negb (kernel c) && negb (copy_to_user_ret e =? 0)
      then (Some (- EFAULT),
            {| m_ctx := set_clients l1 ctx;
               m_trace := delivery e c1 :: dumped e tr |})
      else
        let m2 := {| m_ctx := set_clients (update_client cli clear_accum l1) ctx;
                     m_trace := delivery e c1 :: dumped e tr |} in
        (Some (fst (reprogram_tail e m2)), snd (reprogram_tail e m2))
  end.
Proof.
  destruct m as [ctx tr]. intros ctx0 tr0. subst ctx0 tr0. fields.
  munfold_dump. unfold dumped, delivery.
  destruct (cli =? 0); msimp; [done|].
  destruct (find_client cli (clients ctx)) as [c|] eqn:Hfind; msimp; [|done].
  destruct (request_dump_ret e =? 0); msimp; cbn [negb]; msimp; [|done].
  destruct (wait_for_dump_ret e =? 0); msimp; cbn [negb]; msimp; [|done].
  destruct (MALI_SEC_HWCNT (kbdev ctx) && list_is_singular (clients ctx) &&
            hwcnt_is_attach e); msimp; [done|].
  rewrite find_client_fmap, Hfind by apply accum_client_keeps_addr.
  cbn [fmap option_fmap option_map]. msimp.
  rewrite accum_client_keeps_kernel.
  destruct (kernel c); cbn [negb andb]; msimp.
  - change (0 =? 0) with true. cbn [negb]. msimp.
    by destruct (reprogram_tail e _).
  - destruct (copy_to_user_ret e =? 0); cbn [negb]; msimp.
    + change (0 =? 0) with true. cbn [negb]. msimp.
      by destruct (reprogram_tail e _).
    + change (- EFAULT =? 0) with false. cbn [negb]. by msimp.
Qed.

(** [kbase_vinstr_clear] path by path. *)
Lemma kbase_vinstr_clear_paths e cli m :
  let ctx := m_ctx m in
  let tr := m_trace m in
  kbase_vinstr_clear e cli m =
  if cli =? 0 then (Some (- EINVAL), m)
  else match find_client cli (clients ctx) with
  | None => (None, m)
  | Some c =>
    if negb (request_dump_ret e =? 0)
    then (Some (request_dump_ret e),
          {| m_ctx := ctx;
             m_trace := EvRequestDump (request_dump_ret e) :: tr |})
    else if negb (wait_for_dump_ret e =? 0)
    then (Some (wait_for_dump_ret e),
          {| m_ctx := ctx; m_trace := dumped e tr |})
    else if negb (hwcnt_clear_ret e =? 0)
    then (Some (hwcnt_clear_ret e),
          {| m_ctx := ctx;
             m_trace := EvHwcntClear (hwcnt_clear_ret e) :: dumped e tr |})
    else
      let l1 := accum_client ctx (hw_dump e) <$> clients ctx in
      let m2 := {| m_ctx := set_clients (update_client cli clear_accum l1) ctx;
                   m_trace := EvHwcntClear (hwcnt_clear_ret e) :: dumped e tr |} in
      (Some (fst (reprogram_tail e m2)), snd (reprogram_tail e m2))
  end.
Proof.
  destruct m as [ctx tr]. intros ctx0 tr0. subst ctx0 tr0. fields.
  munfold_dump. unfold dumped.
  destruct (cli =? 0); msimp; [done|].
  destruct (find_client cli (clients ctx)) as [c|] eqn:Hfind; msimp; [|done].
  destruct (request_dump_ret e =? 0); msimp; cbn [negb]; msimp; [|done].
  destruct (wait_for_dump_ret e =? 0); msimp; cbn [negb]; msimp; [|done].
  destruct (hwcnt_clear_ret e =? 0); msimp; cbn [negb]; msimp; [|done].
  by destruct (reprogram_tail e _).
Qed.

(** A reprogram that is due and succeeds: the block at the end of
    [kbase_vinstr_dump] and [kbase_vinstr_clear] disables the counters,
    enables them again with the mask of the context, clears the reprogram
    flag and clears the pending flag of every client. *)
Lemma reprogram_tail_success e m :
  reprogram (m_ctx m) = true -> reprogram_enable_ret e = 0 ->
  reprogram_tail e m =
  (0, {| m_ctx := set_clients (set_pending false <$> clients (m_ctx m))
                    (set_reprogram false (m_ctx m));
         m_trace := EvHwcntEnable (gpu_va (m_ctx m)) (bitmap (m_ctx m)) 0
                    :: EvHwcntDisable :: m_trace m |}).
Proof.
  intros Hr He.
  destruct (reprogram_tail_cases e m) as
    [(_ & _ & H3)|[(_ & Hne & _)|(Hf & _)]]; [|done|congruence].
  rewrite H3. by destruct (bitmap (m_ctx m)).
Qed.

Lemma fmap_set_pending_addrs (f : kbase_vinstr_client -> kbase_vinstr_client)
    cli l :
  keeps_addr f ->
  cli_addr <$> (set_pending false <$> update_client cli clear_accum (f <$> l))
  = cli_addr <$> l.
Proof.
  intros Hf.
  rewrite (fmap_addrs (set_pending false)) by apply set_pending_keeps_addr.
  rewrite update_client_addrs by apply clear_accum_keeps_addr.
  by apply fmap_addrs.
Qed.

(** ** Pending clients (claim C5) *)

(** Claim C5.  After any admissible sequence of operations from
    [kbase_vinstr_init]: the accumulation pass skips a pending client,
    whose accumulation buffer is all zero; a dump that a pending client
    requests delivers all-zero data; the pending flag of an attached
    client is cleared by one operation only when that operation is a dump
    or a clear that found the reprogram flag set and whose reprogram
    succeeded; and a dump whose copy succeeds, or a clear that the
    hardware completes, that finds the reprogram flag set and whose
    reprogram succeeds returns 0, disables and re-enables the counters
    with the mask of the context, clears the reprogram flag and clears the
    pending flag of every attached client, the clients staying the
    same. *)
Theorem pending_client_sees_zero (ops : list op) (dev : kbase_device)
    (m : machine) :
  exec ops (boot dev) = Some m ->
  (forall c, c ∈ clients (m_ctx m) -> pending c = true ->
     (forall src, accum_client (m_ctx m) src c = c) /\
     all_zero (accum_buffer c)) /\
  (forall e cli c,
     find_client cli (clients (m_ctx m)) = Some c -> pending c = true ->
     exists evs,
       m_trace (snd (kbase_vinstr_dump e cli m)) = evs ++ m_trace m /\
       Forall all_zero (delivered evs) /\
       (reaches_copy e cli m c ->
        delivered evs = [read_bytes (accum_buffer c) (cli_dump_size c)])) /\
  (forall o m' c c',
     exec_op o m = Some m' ->
     c ∈ clients (m_ctx m) -> c' ∈ clients (m_ctx m') ->
     cli_addr c' = cli_addr c ->
     pending c = true -> pending c' = false ->
     (exists e cli, (o = OpDump e cli \/ o = OpClear e cli) /\
                    reprogram_enable_ret e = 0) /\
     reprogram (m_ctx m) = true /\
     reprogram (m_ctx m') = false /\
     Forall (fun c2 => pending c2 = false) (clients (m_ctx m'))) /\
  (forall e cli c,
     reaches_copy e cli m c ->
     kernel c = true \/ copy_to_user_ret e = 0 ->
     reprogram (m_ctx m) = true ->
     reprogram_enable_ret e = 0 ->
     let m' := snd (kbase_vinstr_dump e cli m) in
     fst (kbase_vinstr_dump e cli m) = Some 0 /\
     reprogram (m_ctx m') = false /\
     Forall (fun c2 => pending c2 = false) (clients (m_ctx m')) /\
     cli_addr <$> clients (m_ctx m') = cli_addr <$> clients (m_ctx m) /\
     exists evs,
       m_trace m' =
       EvHwcntEnable (gpu_va (m_ctx m)) (bitmap (m_ctx m)) 0
       :: EvHwcntDisable :: evs ++ m_trace m) /\
  (forall e cli c,
     cli <> 0 ->
     find_client cli (clients (m_ctx m)) = Some c ->
     request_dump_ret e = 0 -> wait_for_dump_ret e = 0 ->
     hwcnt_clear_ret e = 0 ->
     reprogram (m_ctx m) = true ->
     reprogram_enable_ret e = 0 ->
     let m' := snd (kbase_vinstr_clear e cli m) in
     fst (kbase_vinstr_clear e cli m) = Some 0 /\
     reprogram (m_ctx m') = false /\
     Forall (fun c2 => pending c2 = false) (clients (m_ctx m')) /\
     cli_addr <$> clients (m_ctx m') = cli_addr <$> clients (m_ctx m) /\
     exists evs,
       m_trace m' =
       EvHwcntEnable (gpu_va (m_ctx m)) (bitmap (m_ctx m)) 0
       :: EvHwcntDisable :: evs ++ m_trace m).
Proof.
  intros Hex. pose proof (exec_inv _ _ _ (boot_inv dev) Hex) as Hi.
  pose proof (inv_zero _ Hi) as Hz. rewrite Forall_forall in Hz.
  pose proof (inv_nodup _ Hi) as Hnd.
  split; [|split; [|split; [|split]]].
  - intros c Hc Hp. split; [|by apply Hz].
    intros src. by apply accum_client_pending.
  - intros e cli c Hfind Hp. apply dump_pending_delivers_zero; [done..|].
    apply Hz; [|done]. by apply find_client_Some in Hfind as [? _].
  - intros o m' c c' Ho Hc Hc' Haddr Hp Hp'.
    assert (Hsame : same_flags (clients (m_ctx m)) (clients (m_ctx m')) ->
                    False).
    { intros Hs.
      pose proof (same_flags_elem _ _ _ _ Hnd Hs Hc Hc' Haddr). congruence. }
    destruct o as [e k d b|cli|e cli|e cli]; cbn [exec_op] in Ho.
    + exfalso. destruct (attach_env_ok e (m_ctx m)) eqn:Hok; [|done].
      injection Ho as <-.
      destruct (attach_clients e k d b m) as [Heq|(c0 & Hc0 & Heq)];
        rewrite Heq in Hc'.
      * pose proof (same_flags_elem _ _ _ _ Hnd (same_flags_refl _)
                      Hc Hc' Haddr). congruence.
      * apply elem_of_cons in Hc' as [->|Hc'].
        -- unfold attach_env_ok in Hok. apply andb_prop in Hok as [_ Hfr].
           destruct (find_client _ _) eqn:Hf in Hfr; [done|].
           apply find_client_None in Hf. apply Hf.
           rewrite <- Hc0, Haddr. apply list_elem_of_fmap. eauto.
        -- pose proof (same_flags_elem _ _ _ _ Hnd (same_flags_refl _)
                         Hc Hc' Haddr). congruence.
    + exfalso. injection Ho as <-. apply detach_clients in Hc'.
      pose proof (same_flags_elem _ _ _ _ Hnd (same_flags_refl _)
                    Hc Hc' Haddr). congruence.
    + destruct (kbase_vinstr_dump e cli m) as [[r|] m1] eqn:Hd; [|done].
      injection Ho as <-.
      destruct (dump_flags _ _ _ _ _ Hd) as [Hs|Hr]; [by destruct Hsame|].
      exact Hr.
    + destruct (kbase_vinstr_clear e cli m) as [[r|] m1] eqn:Hd; [|done].
      injection Ho as <-.
      destruct (clear_flags _ _ _ _ _ Hd) as [Hs|Hr]; [by destruct Hsame|].
      exact Hr.
  - intros e cli c (Hcli & Hfind & Hreq & Hwait & Hsec) Hcopy Hrp Hen.
    cbv zeta. rewrite kbase_vinstr_dump_paths. cbv zeta.
    rewrite (proj2 (Z.eqb_neq _ _) Hcli), Hfind, Hreq, Hwait, Hsec.
    change (0 =? 0) with true. cbn [negb].
    assert (Hc : negb (kernel c) && negb (copy_to_user_ret e =? 0) = false).
    { destruct Hcopy as [->| ->]; [done|]. by rewrite andb_false_r. }
    rewrite Hc, reprogram_tail_success by done. fields.
    split; [done|]. split; [done|]. split; [apply all_not_pending|].
    split; [apply fmap_set_pending_addrs, accum_client_keeps_addr|].
    by eexists [_; _; _].
  - intros e cli c Hcli Hfind Hreq Hwait Hclr Hrp Hen.
    cbv zeta. rewrite kbase_vinstr_clear_paths. cbv zeta.
    rewrite (proj2 (Z.eqb_neq _ _) Hcli), Hfind, Hreq, Hwait, Hclr.
    change (0 =? 0) with true. cbn [negb].
    rewrite reprogram_tail_success by done. fields.
    split; [done|]. split; [done|]. split; [apply all_not_pending|].
    split; [apply fmap_set_pending_addrs, accum_client_keeps_addr|].
    by eexists [_; _; _].
Qed.

Lemma pending_client_sees_zero_witness :
  let e := env_dump (replicate 320 7) 0 0 in
  let m := after two_clients dev_v5 in
  let m' := snd (kbase_vinstr_dump e 32 m) in
  (exists evs,
     m_trace m' = evs ++ m_trace m /\
     Forall all_zero (delivered evs) /\
     (reaches_copy e 32 m second_client ->
      delivered evs = [replicate 320 0])) /\
  reprogram (m_ctx m') = false /\
  Forall (fun c2 => pending c2 = false) (clients (m_ctx m')).
Proof.
  intros e m m'.
  assert (Hex : exec two_clients (boot dev_v5) = Some m)
    by (vm_compute; reflexivity).
  assert (Hfind : find_client 32 (clients (m_ctx m)) = Some second_client)
    by (vm_compute; reflexivity).
  assert (Hsec : MALI_SEC_HWCNT (kbdev (m_ctx m)) &&
                 list_is_singular (clients (m_ctx m)) &&
                 hwcnt_is_attach e = false) by (vm_compute; reflexivity).
  assert (Hrp : reprogram (m_ctx m) = true) by (vm_compute; reflexivity).
  destruct (pending_client_sees_zero two_clients dev_v5 m Hex)
    as (_ & H2 & _ & H4 & _).
  split; [exact (H2 e 32 second_client Hfind eq_refl)|].
  destruct (H4 e 32 second_client) as (_ & Hr & Hp & _).
  - unfold reaches_copy. split; [lia|]. split; [exact Hfind|].
    split; [reflexivity|]. split; [reflexivity | exact Hsec].
  - right. reflexivity.
  - exact Hrp.
  - reflexivity.
  - exact (conj Hr Hp).
Defined.

Lemma hwcnt_bitmap_union_zero_r b : hwcnt_bitmap_union b zerobitmap = b.
Proof. destruct b. unfold hwcnt_bitmap_union. simpl. by rewrite !Z.lor_0_r. Qed.

Lemma hwcnt_bitmap_union_zero_l b : hwcnt_bitmap_union zerobitmap b = b.
Proof. destruct b. unfold hwcnt_bitmap_union. simpl. by rewrite !Z.lor_0_l. Qed.

Lemma hwcnt_bitmap_union_assoc a b c :
  hwcnt_bitmap_union (hwcnt_bitmap_union a b) c =
  hwcnt_bitmap_union a (hwcnt_bitmap_union b c).
Proof. unfold hwcnt_bitmap_union. simpl. by rewrite !Z.lor_assoc. Qed.

Lemma hwcnt_bitmap_union_comm a b :
  hwcnt_bitmap_union a b = hwcnt_bitmap_union b a.
Proof.
  unfold hwcnt_bitmap_union. f_equal; apply Z.lor_comm.
Qed.

Lemma hwcnt_bitmap_set_src dst src : hwcnt_bitmap_set dst src = src.
Proof. by destruct src. Qed.

Lemma bitmap_union_all_spec acc l :
  bitmap_union_all acc l = hwcnt_bitmap_union acc (union_of_masks l).
Proof.
  revert acc. induction l as [|c l IH]; intros acc; simpl.
  - by rewrite hwcnt_bitmap_union_zero_r.
  - rewrite IH, hwcnt_bitmap_union_assoc. f_equal.
    apply hwcnt_bitmap_union_comm.
Qed.

(** After a detach the mask is the union of the masks of the clients that
    remain, whatever it was before. *)
Lemma detach_rebuilds_mask cli m :
  let m' := snd (kbase_vinstr_detach_client cli m) in
  bitmap (m_ctx m') = union_of_masks (clients (m_ctx m')).
Proof.
  destruct m as [ctx tr]. munfold. msimp.
  destruct (list_del cli (clients ctx)) as [rest|]; msimp.
  - destruct (wrap32 (nclients ctx - 1) =? 0); msimp;
      by rewrite bitmap_union_all_spec, hwcnt_bitmap_set_src,
           hwcnt_bitmap_union_zero_l.
  - by rewrite bitmap_union_all_spec, hwcnt_bitmap_set_src,
         hwcnt_bitmap_union_zero_l.
Qed.

(** A successful attach keeps the mask equal to the union of the masks of
    the attached clients. *)
Lemma attach_success_extends_mask e k d b m :
  inv m ->
  bitmap (m_ctx m) = union_of_masks (clients (m_ctx m)) ->
  let m' := snd (kbase_vinstr_attach_client e k d b m) in
  fst (kbase_vinstr_attach_client e k d b m) <> 0 ->
  bitmap (m_ctx m') = union_of_masks (clients (m_ctx m')).
Proof.
  intros [Hc _ _ _ _ _ _ _ _ _] Hu. destruct m as [ctx tr]. fields.
  munfold. msimp.
  destruct (kmalloc_cli e =? 0); msimp; [done|].
  destruct (nclients ctx =? 0) eqn:E1; msimp.
  - apply Z.eqb_eq in E1.
    assert (Hnil : clients ctx = [])
      by (destruct (clients ctx); [done|simpl in *; lia]).
    destruct (create_context_ret e =? 0); msimp; simpl; [done|].
    destruct (mem_alloc_reg e =? 0); msimp; simpl; [done|].
    destruct (vmap_ret e =? 0); msimp; simpl; [done|].
    destruct (hwcnt_enable_ret e =? 0); msimp; simpl.
    + destruct (MALI_SEC_HWCNT (kbdev ctx) && (d =? 0));
        (destruct (kzalloc_accum e =? 0); msimp; simpl;
         [ rewrite E1; by msimp
         | intros _; rewrite Hnil; simpl;
           by rewrite !hwcnt_bitmap_set_src, hwcnt_bitmap_union_zero_l ]).
    + destruct (hwcnt_enable_ret e <? 0); msimp; [done|].
      destruct (MALI_SEC_HWCNT (kbdev ctx) && (d =? 0));
        (destruct (kzalloc_accum e =? 0); msimp; simpl;
         [ rewrite E1; by msimp
         | intros _; rewrite Hnil; simpl;
           by rewrite !hwcnt_bitmap_set_src, hwcnt_bitmap_union_zero_l ]).
  - destruct (MALI_SEC_HWCNT (kbdev ctx) && (d =? 0));
      (destruct (kzalloc_accum e =? 0); msimp; simpl;
       [ rewrite E1; by msimp
       | intros _; by rewrite Hu ]).
Qed.

(** ** Failed attaches (claims C1 and C2) *)

(** Claim C1, at an input where the code departs from it.  On a fresh
    context, an attach with the mask [{jm = 1}] during which
    [kbase_create_context] fails returns [NULL] and leaves no client
    attached, yet the mask of the context holds the bit of the client
    that failed to attach: it is not the union of the masks of the
    attached clients. *)
Theorem failed_attach_leaves_stale_mask :
  let m := boot dev_v5 in
  let e := env_no_context 16 in
  let r := fst (kbase_vinstr_attach_client e false 4096 (Bitmap 1 0 0 0) m) in
  let m' := snd (kbase_vinstr_attach_client e false 4096 (Bitmap 1 0 0 0) m) in
  attach_env_ok e (m_ctx m) = true /\
  bitmap (m_ctx m) = union_of_masks (clients (m_ctx m)) /\
  r = 0 /\
  clients (m_ctx m') = [] /\
  union_of_masks (clients (m_ctx m')) = zerobitmap /\
  bitmap (m_ctx m') = Bitmap 1 0 0 0 /\
  bitmap (m_ctx m') <> union_of_masks (clients (m_ctx m')).
Proof. vm_compute. repeat split; try done. Qed.

(** Claim C2, at an input where the code departs from it.  With one client
    attached (mask [{shader = 0xF}], reprogram flag clear), an attach with
    the mask [{tiler = 1}] whose accumulation buffer cannot be allocated
    returns [NULL]; the client list, the count and the hardware context
    are as before, but the mask of the context has gained the tiler bit
    and the reprogram flag is set: the context is not what it was before
    the call. *)
Theorem failed_attach_is_not_rolled_back :
  let m := after [OpAttach (env_ok 16) false 4096 (Bitmap 0 0 15 0)] dev_v5 in
  let e := env_no_accum 32 in
  let r := fst (kbase_vinstr_attach_client e false 8192 (Bitmap 0 1 0 0) m) in
  let m' := snd (kbase_vinstr_attach_client e false 8192 (Bitmap 0 1 0 0) m) in
  attach_env_ok e (m_ctx m) = true /\
  r = 0 /\
  clients (m_ctx m') = clients (m_ctx m) /\
  nclients (m_ctx m') = nclients (m_ctx m) /\
  live kctx_delta (m_trace m') = live kctx_delta (m_trace m) /\
  bitmap (m_ctx m) = Bitmap 0 0 15 0 /\
  bitmap (m_ctx m') = Bitmap 0 1 15 0 /\
  reprogram (m_ctx m) = false /\
  reprogram (m_ctx m') = true /\
  m_ctx m' <> m_ctx m.
Proof. vm_compute. repeat split; try done. Qed.

(** * Further properties *)

Lemma dump_size_kbdev ctx ctx' :
  kbdev ctx' = kbdev ctx ->
  kbase_vinstr_dump_size ctx' = kbase_vinstr_dump_size ctx.
Proof. intros H. unfold kbase_vinstr_dump_size. by rewrite H. Qed.

(** What [create_vinstr_kctx] leaves alone, and what it returns. *)
Lemma create_vinstr_kctx_frame e m :
  let err := fst (create_vinstr_kctx e m) in
  let m1 := snd (create_vinstr_kctx e m) in
  clients (m_ctx m1) = clients (m_ctx m) /\
  nclients (m_ctx m1) = nclients (m_ctx m) /\
  bitmap (m_ctx m1) = bitmap (m_ctx m) /\
  reprogram (m_ctx m1) = reprogram (m_ctx m) /\
  kbdev (m_ctx m1) = kbdev (m_ctx m) /\
  kctx (m_ctx m1) = create_context_ret e /\
  (err = 0 -> create_context_ret e <> 0 /\ cpu_va (m_ctx m1) = vmap_ret e) /\
  (0 < err -> err = hwcnt_enable_ret e).
Proof.
  destruct m as [ctx tr]. munfold. msimp.
  destruct (Z.eqb_spec (create_context_ret e) 0); msimp; simpl;
    [unfold ENOMEM; repeat split; try done; lia|].
  destruct (mem_alloc_reg e =? 0); msimp; simpl;
    [unfold ENOMEM; repeat split; try done; lia|].
  destruct (vmap_ret e =? 0); msimp; simpl;
    [unfold ENOMEM; repeat split; try done; lia|].
  destruct (Z.eqb_spec (hwcnt_enable_ret e) 0); msimp; simpl;
    repeat split; try done; lia.
Qed.

Lemma destroy_vinstr_kctx_frame m :
  let m1 := snd (destroy_vinstr_kctx m) in
  m_ctx m1 = set_kctx 0 (m_ctx m).
Proof. destruct m as [ctx tr]. by munfold. Qed.

Ltac munfold_attach :=
  cbv [kbase_vinstr_attach_client map_client_accum_buffer
       bind ret update get_ctx].

(** The two outcomes of [kbase_vinstr_attach_client]: [NULL] with the list
    of clients as it was, or the address of a new client at the head of
    the list. *)
Lemma attach_outcome e k d b m :
  hwcnt_enable_ret e <= 0 ->
  let r := fst (kbase_vinstr_attach_client e k d b m) in
  let m' := snd (kbase_vinstr_attach_client e k d b m) in
  kbdev (m_ctx m') = kbdev (m_ctx m) /\
  ((r = 0 /\
    clients (m_ctx m') = clients (m_ctx m) /\
    nclients (m_ctx m') = nclients (m_ctx m) /\
    (kmalloc_cli e = 0 -> m' = m) /\
    (nclients (m_ctx m) <> 0 ->
       kctx (m_ctx m') = kctx (m_ctx m) /\
       (kmalloc_cli e <> 0 ->
          reprogram (m_ctx m') = true /\
          bitmap (m_ctx m') = hwcnt_bitmap_union (bitmap (m_ctx m)) b))) \/
   (r <> 0 /\ r = kmalloc_cli e /\
    nclients (m_ctx m') = wrap32 (nclients (m_ctx m) + 1) /\
    exists c,
      clients (m_ctx m') = c :: clients (m_ctx m) /\
      cli_addr c = r /\ kernel c = k /\ cli_bitmap c = b /\
      cli_dump_size c = kbase_vinstr_dump_size (m_ctx m) /\
      accum_buffer c = replicate (Z.to_nat (cli_dump_size c / sizeof_u32)) 0 /\
      dump_buffer c = (if MALI_SEC_HWCNT (kbdev (m_ctx m)) && (d =? 0)
                       then cpu_va (m_ctx m') else d) /\
      if nclients (m_ctx m) =? 0
      then pending c = false /\ reprogram (m_ctx m') = false /\
           bitmap (m_ctx m') = b /\
           kctx (m_ctx m') = create_context_ret e /\
           create_context_ret e <> 0 /\ cpu_va (m_ctx m') = vmap_ret e
      else pending c = true /\ reprogram (m_ctx m') = true /\
           bitmap (m_ctx m') = hwcnt_bitmap_union (bitmap (m_ctx m)) b /\
           kctx (m_ctx m') = kctx (m_ctx m) /\
           cpu_va (m_ctx m') = cpu_va (m_ctx m))).
Proof.
  intros Hen. destruct m as [ctx tr]. munfold_attach. msimp.
  destruct (Z.eqb_spec (kmalloc_cli e) 0) as [Hk|Hk]; msimp.
  { split; [done|]. left. repeat split; try done. }
  destruct (Z.eqb_spec (nclients ctx) 0) as [Hn|Hn]; msimp.
  - match goal with
    | |- context [create_vinstr_kctx e ?M] =>
        pose proof (create_vinstr_kctx_frame e M) as Hc;
        destruct (create_vinstr_kctx e M) as [err m1]
    end.
    msimp. cbn [fst snd] in Hc. fields.
    destruct Hc as (H1 & H2 & H3 & H4 & H5 & H6 & H7 & H8).
    destruct (Z.ltb_spec err 0) as [Herr|Herr]; msimp.
    { split; [done|]. left. repeat split; try done. }
    assert (Herr0 : err = 0) by (destruct (Z.eq_dec err 0); [done|]; lia).
    destruct (H7 Herr0) as [Hcc Hva].
    rewrite H5.
    destruct (MALI_SEC_HWCNT (kbdev ctx) && (d =? 0)) eqn:Es;
      (destruct (kzalloc_accum e =? 0); msimp; simpl;
       [ rewrite H2, Hn; change (0 =? 0) with true; msimp;
         match goal with
         | |- context [destroy_vinstr_kctx ?M] =>
             pose proof (destroy_vinstr_kctx_frame M) as Hd;
             destruct (destroy_vinstr_kctx M) as [u m2]
         end;
         cbn [snd] in Hd; msimp; rewrite Hd; fields;
         split; [done|]; left; repeat split; try done; congruence
       | split; [done|]; right; rewrite H2, H1, Hn;
         repeat split; try done;
         eexists; split; [reflexivity|]; fields;
         rewrite ?hwcnt_bitmap_set_src in *;
         repeat split; try done; by apply dump_size_kbdev ]).
  - destruct (MALI_SEC_HWCNT (kbdev ctx) && (d =? 0)) eqn:Es;
      (destruct (kzalloc_accum e =? 0); msimp; simpl;
       [ rewrite (proj2 (Z.eqb_neq _ _) Hn); msimp;
         split; [done|]; left; rewrite ?hwcnt_bitmap_set_src;
         repeat split; try done
       | split; [done|]; right; repeat split; try done;
         eexists; split; [reflexivity|]; fields;
         rewrite ?hwcnt_bitmap_set_src;
         repeat split; try done ]).
Qed.

(** ** The list of clients *)

Lemma list_del_None cli l :
  list_del cli l = None <-> find_client cli l = None.
Proof.
  induction l as [|c l IH]; [done|]. cbn [list_del find_client].
  destruct (cli_addr c =? cli); [done|].
  destruct (list_del cli l); split; try done; intros H.
  - by apply IH in H.
  - by apply IH.
Qed.

Lemma list_del_find cli l rest :
  list_del cli l = Some rest ->
  (forall a, a <> cli -> find_client a rest = find_client a l) /\
  (NoDup (cli_addr <$> l) -> find_client cli rest = None) /\
  (exists c, find_client cli l = Some c).
Proof.
  revert rest. induction l as [|c l IH]; intros rest; [done|].
  cbn [list_del find_client].
  destruct (Z.eqb_spec (cli_addr c) cli) as [Heq|Hne].
  - intros [= <-]. split; [|split].
    + intros a Ha. destruct (Z.eqb_spec (cli_addr c) a); [congruence|done].
    + rewrite fmap_cons. intros [Hnot _]%NoDup_cons.
      apply find_client_None. by rewrite <- Heq.
    + eauto.
  - destruct (list_del cli l) as [r|]; [|done]. intros [= <-].
    destruct (IH r eq_refl) as (H1 & H2 & H3). split; [|split].
    + intros a Ha. cbn [find_client]. rewrite H1 by done. done.
    + rewrite fmap_cons. intros [_ Hnd]%NoDup_cons. cbn [find_client].
      destruct (Z.eqb_spec (cli_addr c) cli); [done|]. auto.
    + done.
Qed.

Lemma list_del_head c l : list_del (cli_addr c) (c :: l) = Some l.
Proof. cbn [list_del]. by rewrite Z.eqb_refl. Qed.

(** The outcome of [kbase_vinstr_detach_client]. *)
Lemma detach_outcome cli m :
  let m' := snd (kbase_vinstr_detach_client cli m) in
  kbdev (m_ctx m') = kbdev (m_ctx m) /\
  bitmap (m_ctx m') = union_of_masks (clients (m_ctx m')) /\
  match list_del cli (clients (m_ctx m)) with
  | None =>
      m' = {| m_ctx := set_bitmap (union_of_masks (clients (m_ctx m))) (m_ctx m);
              m_trace := m_trace m |}
  | Some rest =>
      clients (m_ctx m') = rest /\
      nclients (m_ctx m') = wrap32 (nclients (m_ctx m) - 1) /\
      reprogram (m_ctx m') = true /\
      kctx (m_ctx m') = (if wrap32 (nclients (m_ctx m) - 1) =? 0 then 0
                         else kctx (m_ctx m))
  end.
Proof.
  pose proof (detach_rebuilds_mask cli m) as Hmask.
  destruct m as [ctx tr]. cbv zeta in *. split; [|split; [exact Hmask|]];
    clear Hmask; munfold; msimp.
  - destruct (list_del cli (clients ctx)); msimp; [|done].
    by destruct (wrap32 (nclients ctx - 1) =? 0).
  - destruct (list_del cli (clients ctx)) as [rest|]; msimp.
    + by destruct (wrap32 (nclients ctx - 1) =? 0).
    + rewrite bitmap_union_all_spec, hwcnt_bitmap_set_src,
        hwcnt_bitmap_union_zero_l. done.
Qed.

(** ** Masks *)

Lemma land_subset_lor_l a a' b :
  Z.land a a' = a -> Z.land a (Z.lor a' b) = a.
Proof.
  intros H. apply Z.bits_inj'. intros n Hn.
  apply (f_equal (fun z => Z.testbit z n)) in H.
  rewrite Z.land_spec in H. rewrite Z.land_spec, Z.lor_spec.
  destruct (Z.testbit a n), (Z.testbit a' n), (Z.testbit b n); done.
Qed.

Lemma land_subset_lor_r a b : Z.land a (Z.lor b a) = a.
Proof.
  apply Z.bits_inj'. intros n Hn. rewrite Z.land_spec, Z.lor_spec.
  destruct (Z.testbit a n), (Z.testbit b n); done.
Qed.

Lemma mask_subset_refl a : mask_subset a a.
Proof. intros i. apply Z.land_diag. Qed.

Lemma mask_subset_union_l a a' b :
  mask_subset a a' -> mask_subset a (hwcnt_bitmap_union a' b).
Proof.
  intros H i. specialize (H i).
  destruct i; cbn [bm_get hwcnt_bitmap_union bm_jm bm_tiler bm_shader bm_mmu_l2];
    by apply land_subset_lor_l.
Qed.

Lemma mask_subset_union_r a b : mask_subset a (hwcnt_bitmap_union b a).
Proof.
  intros i.
  destruct i; cbn [bm_get hwcnt_bitmap_union bm_jm bm_tiler bm_shader bm_mmu_l2];
    apply land_subset_lor_r.
Qed.

Lemma mask_subset_union_of_masks l :
  Forall (fun c => mask_subset (cli_bitmap c) (union_of_masks l)) l.
Proof.
  induction l as [|c l IH]; [constructor|]. cbn [union_of_masks fold_right].
  constructor.
  - apply mask_subset_union_r.
  - eapply Forall_impl; [exact IH|]. intros c' Hc'. cbn beta in *.
    by apply mask_subset_union_l.
Qed.

Lemma update_client_Forall (P : kbase_vinstr_client -> Prop) cli f l :
  (forall c, P c -> P (f c)) -> Forall P l -> Forall P (update_client cli f l).
Proof.
  intros Hf. induction 1 as [|c l Hc Hl IH]; [constructor|].
  cbn [update_client]. destruct (cli_addr c =? cli); constructor; auto.
Qed.

Lemma fmap_Forall (P : kbase_vinstr_client -> Prop)
    (f : kbase_vinstr_client -> kbase_vinstr_client)
    (l : list kbase_vinstr_client) :
  (forall c, P c -> P (f c)) -> Forall P l -> Forall P (f <$> l).
Proof.
  intros Hf. induction 1 as [|c l Hc Hl IH]; [constructor|].
  rewrite fmap_cons. constructor; auto.
Qed.

Lemma accum_client_keeps_bitmap ctx src c :
  cli_bitmap (accum_client ctx src c) = cli_bitmap c.
Proof. unfold accum_client. by destruct (pending c). Qed.

Lemma memset0_length buf n : length (memset0 buf n) = length buf.
Proof.
  unfold memset0.
  rewrite length_app, length_replicate, length_take, length_drop. lia.
Qed.

(** ** The invariant of the context *)

Lemma inv_ctx_boot dev : inv_ctx dev (boot dev).
Proof. constructor; simpl; done. Qed.

Lemma accum_client_ok ctx ctx' src c :
  client_ok ctx c -> client_ok ctx (accum_client ctx' src c).
Proof.
  intros (H1 & H2 & H3 & H4 & H5). unfold client_ok.
  rewrite accum_client_keeps_addr, accum_client_keeps_pending,
    accum_client_dump_size, accum_client_length, accum_client_keeps_bitmap.
  done.
Qed.

Lemma clear_accum_ok ctx c : client_ok ctx c -> client_ok ctx (clear_accum c).
Proof.
  intros (H1 & H2 & H3 & H4 & H5). unfold client_ok, clear_accum.
  cbn [cli_addr pending cli_dump_size accum_buffer cli_bitmap set_accum_buffer].
  by rewrite memset0_length.
Qed.

Lemma dumped_clients_ok ctx cli src :
  Forall (client_ok ctx) (clients ctx) ->
  Forall (client_ok ctx)
    (update_client cli clear_accum (accum_client ctx src <$> clients ctx)).
Proof.
  intros H. apply update_client_Forall; [apply clear_accum_ok|].
  apply fmap_Forall; [|done]. intros c. apply accum_client_ok.
Qed.

Lemma reprogram_tail_inv_ctx dev e m :
  inv_ctx dev m -> inv_ctx dev (snd (reprogram_tail e m)).
Proof.
  intros [H1 H2 H3].
  destruct (reprogram_tail_cases e m) as
    [(_ & _ & ->)|[(_ & _ & ->)|(_ & ->)]]; cbn [snd]; [|done..].
  constructor; fields; [done| |].
  - intros Hne. apply H2. intros Hnil. by rewrite Hnil in Hne.
  - apply Forall_fmap. eapply Forall_impl; [exact H3|].
    intros c (Ha & _ & Hs & Hlen & Hm). by repeat split.
Qed.

Lemma dump_inv_ctx dev e cli m :
  inv_ctx dev m -> inv_ctx dev (snd (kbase_vinstr_dump e cli m)).
Proof.
  intros Hi. pose proof Hi as [H1 H2 H3].
  rewrite kbase_vinstr_dump_paths. cbv zeta.
  destruct (cli =? 0); [done|].
  destruct (find_client cli (clients (m_ctx m))) as [c|]; [|done].
  destruct (negb (request_dump_ret e =? 0)); [by constructor|].
  destruct (negb (wait_for_dump_ret e =? 0)); [by constructor|].
  destruct (MALI_SEC_HWCNT _ && _ && _); [by constructor|].
  destruct (negb (kernel c) && negb (copy_to_user_ret e =? 0)); cbn [snd].
  - constructor; fields; [done| |].
    + intros Hne. apply H2. intros Hnil. by rewrite Hnil in Hne.
    + eapply Forall_impl;
        [apply fmap_Forall; [|exact H3]; intros c'; apply accum_client_ok|].
      intros c' Hc'. exact Hc'.
  - apply reprogram_tail_inv_ctx. constructor; fields; [done| |].
    + intros Hne. apply H2. intros Hnil. by rewrite Hnil in Hne.
    + eapply Forall_impl; [by apply dumped_clients_ok|].
      intros c' Hc'. exact Hc'.
Qed.

Lemma clear_inv_ctx dev e cli m :
  inv_ctx dev m -> inv_ctx dev (snd (kbase_vinstr_clear e cli m)).
Proof.
  intros Hi. pose proof Hi as [H1 H2 H3].
  rewrite kbase_vinstr_clear_paths. cbv zeta.
  destruct (cli =? 0); [done|].
  destruct (find_client cli (clients (m_ctx m))) as [c|]; [|done].
  destruct (negb (request_dump_ret e =? 0)); [by constructor|].
  destruct (negb (wait_for_dump_ret e =? 0)); [by constructor|].
  destruct (negb (hwcnt_clear_ret e =? 0)); [by constructor|].
  cbn [snd]. apply reprogram_tail_inv_ctx. constructor; fields; [done| |].
  - intros Hne. apply H2. intros Hnil. by rewrite Hnil in Hne.
  - eapply Forall_impl; [by apply dumped_clients_ok|].
    intros c' Hc'. exact Hc'.
Qed.

Lemma client_ok_mono ctx ctx' c :
  kbdev ctx' = kbdev ctx ->
  (reprogram ctx = true -> reprogram ctx' = true) ->
  (forall a, mask_subset a (bitmap ctx) -> mask_subset a (bitmap ctx')) ->
  client_ok ctx c -> client_ok ctx' c.
Proof.
  intros Hk Hr Hb (H1 & H2 & H3 & H4 & H5). unfold client_ok.
  rewrite (dump_size_kbdev _ _ Hk). repeat split; auto.
Qed.

Lemma nonempty_count m :
  inv m -> (clients (m_ctx m) <> [] <-> nclients (m_ctx m) <> 0).
Proof.
  intros [Hc _ _ _ _ _ _ _ _ _]. rewrite Hc.
  destruct (clients (m_ctx m)); simpl; split; try done; lia.
Qed.

Lemma attach_inv_ctx dev e k d b m :
  inv m -> inv_ctx dev m -> attach_env_ok e (m_ctx m) = true ->
  inv_ctx dev (snd (kbase_vinstr_attach_client e k d b m)).
Proof.
  intros Hi [H1 H2 H3] Hok.
  pose proof (nonempty_count m Hi) as Hne.
  unfold attach_env_ok in Hok.
  apply andb_prop in Hok as [Hok _]. apply andb_prop in Hok as [Hen _].
  apply Z.leb_le in Hen.
  destruct (attach_outcome e k d b m Hen) as
    [Hk [(Hr & Hcl & Hn & Hsame & Hrest)|(Hr & Hr' & Hn & c & Hcl & Hc)]].
  - destruct (Z.eq_dec (kmalloc_cli e) 0) as [Hz|Hz].
    { rewrite (Hsame Hz). by constructor. }
    constructor; [congruence| |].
    + rewrite Hcl. intros Hcne. pose proof (proj1 Hne Hcne) as Hn0.
      destruct (Hrest Hn0) as [-> _]. auto.
    + rewrite Hcl. destruct (clients (m_ctx m)) as [|c0 l] eqn:E;
        [constructor|].
      assert (Hn0 : nclients (m_ctx m) <> 0) by (by apply Hne).
      destruct (Hrest Hn0) as [_ Hrb]. destruct (Hrb Hz) as [Hrp Hbm].
      eapply Forall_impl; [exact H3|]. intros c' Hc'.
      eapply client_ok_mono; [exact Hk | by rewrite Hrp | | exact Hc'].
      intros a Ha. rewrite Hbm. by apply mask_subset_union_l.
  - destruct Hc as (Ha & Hke & Hb & Hs & Hz & Hd & Hcase).
    constructor; [congruence| |].
    + intros _.
      destruct (Z.eqb_spec (nclients (m_ctx m)) 0) as [Hn0|Hn0].
      * destruct Hcase as (_ & _ & _ & -> & ? & _). done.
      * destruct Hcase as (_ & _ & _ & -> & _). apply H2. by apply Hne.
    + rewrite Hcl.
      destruct (Z.eqb_spec (nclients (m_ctx m)) 0) as [Hn0|Hn0].
      * assert (Hnil : clients (m_ctx m) = []).
        { destruct (clients (m_ctx m)) eqn:E; [done|].
          exfalso. by apply (proj1 Hne). }
        rewrite Hnil. constructor; [|constructor].
        destruct Hcase as (Hp & Hrp & Hbm & _).
        unfold client_ok. rewrite Hp, Hbm, Hb, Hs, (dump_size_kbdev _ _ Hk).
        split; [congruence|]. split; [done|]. split; [done|].
        split; [|apply mask_subset_refl].
        rewrite Hz, length_replicate. by rewrite Hs.
      * destruct Hcase as (Hp & Hrp & Hbm & _).
        constructor.
        -- unfold client_ok.
           rewrite Hbm, Hb, Hs, (dump_size_kbdev _ _ Hk).
           split; [congruence|]. split; [done|]. split; [done|].
           split; [|apply mask_subset_union_r].
           rewrite Hz, length_replicate. by rewrite Hs.
        -- eapply Forall_impl; [exact H3|]. intros c' Hc'.
           eapply client_ok_mono; [exact Hk | by rewrite Hrp | | exact Hc'].
           intros a Ha'. rewrite Hbm. by apply mask_subset_union_l.
Qed.

Lemma detach_inv_ctx dev cli m :
  inv m -> inv_ctx dev m ->
  inv_ctx dev (snd (kbase_vinstr_detach_client cli m)).
Proof.
  intros Hi [H1 H2 H3].
  pose proof (detach_inv cli m Hi) as Hi'.
  pose proof (nonempty_count _ Hi') as Hne'.
  pose proof (nonempty_count _ Hi) as Hne.
  destruct (detach_outcome cli m) as (Hk & Hbm & Hcase).
  pose proof (mask_subset_union_of_masks
                (clients (m_ctx (snd (kbase_vinstr_detach_client cli m)))))
    as Hsub.
  rewrite <- Hbm in Hsub.
  destruct (list_del cli (clients (m_ctx m))) as [rest|] eqn:Hdel.
  - destruct Hcase as (Hcl & Hn & Hrp & Hkc).
    destruct (list_del_Some _ _ _ Hdel) as (Hlen & _ & Hin & Hall).
    constructor; [congruence| |].
    + intros Hcne. rewrite Hkc.
      pose proof (proj1 Hne' Hcne) as Hn0. rewrite Hn in Hn0.
      rewrite (proj2 (Z.eqb_neq _ _) Hn0). apply H2.
      intros Hnil. rewrite Hnil in Hlen. done.
    + rewrite Hcl in *. apply Hall in H3.
      rewrite Forall_forall in H3, Hsub. apply Forall_forall. intros c Hc.
      destruct (H3 c Hc) as (Ha & _ & Hs & Hl & _).
      unfold client_ok. rewrite (dump_size_kbdev _ _ Hk).
      repeat split; auto.
  - rewrite Hcase in *. fields. constructor; fields; [done..|].
    rewrite Forall_forall in H3, Hsub. apply Forall_forall. intros c Hc.
    destruct (H3 c Hc) as (Ha & Hp & Hs & Hl & _).
    repeat split; auto.
Qed.

Lemma exec_op_inv_ctx dev o m m' :
  inv m -> inv_ctx dev m -> exec_op o m = Some m' -> inv_ctx dev m'.
Proof.
  intros Hi Hc. destruct o as [e k d b|cli|e cli|e cli]; cbn [exec_op].
  - destruct (attach_env_ok e (m_ctx m)) eqn:Hok; [|done].
    intros [= <-]. by apply attach_inv_ctx.
  - intros [= <-]. by apply detach_inv_ctx.
  - pose proof (dump_inv_ctx dev e cli m Hc) as H.
    destruct (kbase_vinstr_dump e cli m) as [[r|] m1]; [|done].
    by intros [= <-].
  - pose proof (clear_inv_ctx dev e cli m Hc) as H.
    destruct (kbase_vinstr_clear e cli m) as [[r|] m1]; [|done].
    by intros [= <-].
Qed.

Lemma exec_invs dev ops m m' :
  inv m -> inv_ctx dev m -> exec ops m = Some m' -> inv m' /\ inv_ctx dev m'.
Proof.
  revert m. induction ops as [|o ops IH]; intros m Hi Hc; cbn [exec].
  - by intros [= <-].
  - destruct (exec_op o m) as [m1|] eqn:Ho; [|done].
    apply IH; [by eapply exec_op_inv | by eapply exec_op_inv_ctx].
Qed.

Lemma reachable_invs dev ops m :
  exec ops (boot dev) = Some m -> inv m /\ inv_ctx dev m.
Proof. apply exec_invs; [apply boot_inv | apply inv_ctx_boot]. Qed.

(** ** Lookups after a dump *)

Lemma find_client_update_ne a cli f l :
  keeps_addr f -> a <> cli ->
  find_client a (update_client cli f l) = find_client a l.
Proof.
  intros Hf Hne. induction l as [|c l IH]; [done|].
  cbn [update_client find_client].
  destruct (Z.eqb_spec (cli_addr c) cli) as [Heq|Hneq]; cbn [find_client].
  - rewrite Hf. destruct (Z.eqb_spec (cli_addr c) a); [congruence|done].
  - by rewrite IH.
Qed.

Lemma delivered_dumped e tr : delivered (dumped e tr) = delivered tr.
Proof. done. Qed.

Lemma delivered_delivery e c tr :
  delivered (delivery e c :: tr) =
  read_bytes (accum_buffer c) (cli_dump_size c) :: delivered tr.
Proof. unfold delivery. by destruct (kernel c). Qed.

Lemma delivered_reprogram g s r tr :
  delivered (EvHwcntEnable g s r :: EvHwcntDisable :: tr) = delivered tr.
Proof. done. Qed.

Lemma reprogram_tail_delivered e m :
  delivered (m_trace (snd (reprogram_tail e m))) = delivered (m_trace m).
Proof.
  destruct (reprogram_tail_cases e m) as
    [(_ & _ & H3)|[(_ & _ & H3)|(_ & H3)]]; by rewrite H3.
Qed.

(** The counters of a client that is not pending, after the accumulation
    pass. *)
Lemma accum_client_counter ctx src c k :
  pending c = false ->
  length (accum_buffer c) = length src ->
  (4 <= k mod 64)%nat ->
  4 * Z.of_nat k < cli_dump_size c ->
  accum_buffer (accum_client ctx src c) !! k =
  match accum_buffer c !! k, src !! k with
  | Some a, Some b => Some (accum_u32 a b)
  | _, _ => accum_buffer c !! k
  end.
Proof.
  intros Hp Hlen Hk Hsz. unfold accum_client. rewrite Hp.
  cbn [accum_buffer set_accum_buffer]. unfold accum_dump_buffer.
  rewrite accum_blocks_lookup by reflexivity.
  change (NR_CNT_PER_BLOCK * NR_BYTES_PER_CNT) with 256.
  rewrite decide_True by dlia.
  assert (Hpatch :
    (if hw_feature_v4 (kbdev ctx)
     then patch_dump_buffer_hdr_v4 (kbdev ctx) (cli_bitmap c) src
            (accum_buffer c)
     else patch_dump_buffer_hdr_v5 (kbdev ctx) (cli_bitmap c) src
            (accum_buffer c)) !! k = accum_buffer c !! k).
  { destruct (hw_feature_v4 (kbdev ctx)) eqn:Hv.
    - rewrite patch_dump_buffer_hdr_v4_lookup by done.
      by rewrite decide_False by lia.
    - rewrite patch_dump_buffer_hdr_v5_lookup by done.
      by rewrite decide_False by lia. }
  by rewrite Hpatch.
Qed.

(** ** Errors of a dump and of a clear *)

(** Property X1.  When the hardware refuses the dump request, or the wait
    for its completion fails, [kbase_vinstr_dump] returns that error code
    and stops there: the context, with every client and every
    accumulation buffer, is as it was, nothing is copied to any
    destination, and after a refused request the wait is not even
    attempted. *)
Theorem dump_hw_failure_changes_nothing (e : dump_env) (cli : Z) (m : machine)
    (c : kbase_vinstr_client) :
  cli <> 0 ->
  find_client cli (clients (m_ctx m)) = Some c ->
  request_dump_ret e <> 0 \/ wait_for_dump_ret e <> 0 ->
  let r := fst (kbase_vinstr_dump e cli m) in
  let m' := snd (kbase_vinstr_dump e cli m) in
  r = Some (if request_dump_ret e =? 0 then wait_for_dump_ret e
            else request_dump_ret e) /\
  m_ctx m' = m_ctx m /\
  delivered (m_trace m') = delivered (m_trace m) /\
  (request_dump_ret e <> 0 ->
   m_trace m' = EvRequestDump (request_dump_ret e) :: m_trace m).
Proof.
  intros Hcli Hfind Hfail. cbv zeta.
  rewrite kbase_vinstr_dump_paths. cbv zeta.
  rewrite (proj2 (Z.eqb_neq _ _) Hcli), Hfind.
  destruct (Z.eqb_spec (request_dump_ret e) 0) as [Hr|Hr]; cbn [negb].
  - destruct Hfail as [Hfail|Hfail]; [done|].
    rewrite (proj2 (Z.eqb_neq _ _) Hfail). cbn [negb fst snd m_ctx m_trace].
    by repeat split.
  - cbn [fst snd m_ctx m_trace]. by repeat split.
Qed.

Lemma dump_hw_failure_changes_nothing_witness :
  fst (kbase_vinstr_dump env_wait_fails 16 (one_ready dev_v5)) = Some (-5) /\
  m_ctx (snd (kbase_vinstr_dump env_wait_fails 16 (one_ready dev_v5))) =
  m_ctx (one_ready dev_v5).
Proof.
  pose proof (dump_hw_failure_changes_nothing env_wait_fails 16
                (one_ready dev_v5) (ready_client 16 (Bitmap 0 0 15 0) 320))
    as H.
  cbv zeta in H.
  destruct H as (H1 & H2 & _); [lia | reflexivity | right; cbn; lia |].
  split; [exact H1 | exact H2].
Defined.

(** Property X2.  [kbase_vinstr_clear] stops at the first of the three
    hardware steps that fails (the dump request, the wait, the clear of
    the counters) and returns its error code; no client is accumulated
    into, the buffer of the caller is not zeroed and the counters are not
    reprogrammed: the context is as it was and the hardware counters are
    never disabled. *)
Theorem clear_hw_failure_changes_nothing (e : dump_env) (cli : Z)
    (m : machine) (c : kbase_vinstr_client) :
  cli <> 0 ->
  find_client cli (clients (m_ctx m)) = Some c ->
  request_dump_ret e <> 0 \/ wait_for_dump_ret e <> 0 \/
    hwcnt_clear_ret e <> 0 ->
  let r := fst (kbase_vinstr_clear e cli m) in
  let m' := snd (kbase_vinstr_clear e cli m) in
  r = Some (if request_dump_ret e =? 0
            then if wait_for_dump_ret e =? 0 then hwcnt_clear_ret e
                 else wait_for_dump_ret e
            else request_dump_ret e) /\
  m_ctx m' = m_ctx m /\
  exists evs, m_trace m' = evs ++ m_trace m /\
              Forall (fun ev => ev <> EvHwcntDisable) evs.
Proof.
  intros Hcli Hfind Hfail. cbv zeta.
  rewrite kbase_vinstr_clear_paths. cbv zeta.
  rewrite (proj2 (Z.eqb_neq _ _) Hcli), Hfind. unfold dumped.
  destruct (Z.eqb_spec (request_dump_ret e) 0) as [Hr|Hr]; cbn [negb].
  - destruct (Z.eqb_spec (wait_for_dump_ret e) 0) as [Hw|Hw]; cbn [negb].
    + destruct Hfail as [Hfail|[Hfail|Hfail]]; [done..|].
      rewrite (proj2 (Z.eqb_neq _ _) Hfail). cbn [negb fst snd m_ctx m_trace].
      split; [done|]. split; [done|].
      eexists [_; _; _]. split; [reflexivity|]. repeat constructor; done.
    + cbn [fst snd m_ctx m_trace]. split; [done|]. split; [done|].
      eexists [_; _]. split; [reflexivity|]. repeat constructor; done.
  - cbn [fst snd m_ctx m_trace]. split; [done|]. split; [done|].
    eexists [_]. split; [reflexivity|]. repeat constructor; done.
Qed.

Lemma clear_hw_failure_changes_nothing_witness :
  fst (kbase_vinstr_clear env_clear_fails 16 (one_ready dev_v5)) = Some (-16) /\
  m_ctx (snd (kbase_vinstr_clear env_clear_fails 16 (one_ready dev_v5))) =
  m_ctx (one_ready dev_v5).
Proof.
  pose proof (clear_hw_failure_changes_nothing env_clear_fails 16
                (one_ready dev_v5) (ready_client 16 (Bitmap 0 0 15 0) 320))
    as H.
  cbv zeta in H.
  destruct H as (H1 & H2 & _);
    [lia | reflexivity | right; right; cbn; lia |].
  split; [exact H1 | exact H2].
Defined.

(** ** What a dump and a clear leave behind *)

Lemma reprogram_tail_find e m a c :
  find_client a (clients (m_ctx m)) = Some c ->
  exists c',
    find_client a (clients (m_ctx (snd (reprogram_tail e m)))) = Some c' /\
    accum_buffer c' = accum_buffer c /\
    cli_dump_size c' = cli_dump_size c.
Proof.
  intros Hfind.
  destruct (reprogram_tail_cases e m) as
    [(_ & _ & H3)|[(_ & _ & H3)|(_ & H3)]]; rewrite H3; fields; eauto.
  rewrite find_client_fmap, Hfind by apply set_pending_keeps_addr.
  by eexists.
Qed.

Lemma clear_accum_all_zero c :
  length (accum_buffer c) = Z.to_nat (cli_dump_size c / sizeof_u32) ->
  all_zero (accum_buffer (clear_accum c)).
Proof.
  intros Hlen. unfold clear_accum. cbn [accum_buffer set_accum_buffer].
  rewrite memset0_whole by done. apply all_zero_replicate.
Qed.

Lemma read_bytes_lookup buf n k :
  4 * Z.of_nat k + 4 <= n -> read_bytes buf n !! k = buf !! k.
Proof.
  intros Hk. unfold read_bytes. apply lookup_take_lt.
  change sizeof_u32 with 4.
  assert (Z.of_nat k + 1 <= n / 4) by (apply Z.div_le_lower_bound; lia).
  lia.
Qed.

(** Property X3.  When the copy of a dump has succeeded and the reprogram
    that was due then fails, [kbase_vinstr_dump] returns the error of the
    hardware although the data has already been copied out and the
    accumulation buffer of the caller already zeroed; the reprogram stays
    due and every client keeps its pending flag, so the next dump or clear
    tries again. *)
Theorem dump_reprogram_failure_after_delivery (e : dump_env) (cli : Z)
    (m : machine) (c : kbase_vinstr_client) :
  reaches_copy e cli m c ->
  kernel c = true \/ copy_to_user_ret e = 0 ->
  length (accum_buffer c) = Z.to_nat (cli_dump_size c / sizeof_u32) ->
  reprogram (m_ctx m) = true ->
  reprogram_enable_ret e <> 0 ->
  let r := fst (kbase_vinstr_dump e cli m) in
  let m' := snd (kbase_vinstr_dump e cli m) in
  r = Some (reprogram_enable_ret e) /\
  delivered (m_trace m') =
    read_bytes (accum_buffer (accum_client (m_ctx m) (hw_dump e) c))
      (cli_dump_size c) :: delivered (m_trace m) /\
  (exists c', find_client cli (clients (m_ctx m')) = Some c' /\
              all_zero (accum_buffer c')) /\
  reprogram (m_ctx m') = true /\
  same_flags (clients (m_ctx m)) (clients (m_ctx m')).
Proof.
  intros (Hcli & Hfind & Hreq & Hwait & Hsec) Hcopy Hlen Hrp Hen. cbv zeta.
  rewrite kbase_vinstr_dump_paths. cbv zeta.
  rewrite (proj2 (Z.eqb_neq _ _) Hcli), Hfind, Hreq, Hwait, Hsec.
  change (0 =? 0) with true. cbn [negb].
  assert (Hc : negb (kernel c) && negb (copy_to_user_ret e =? 0) = false).
  { destruct Hcopy as [->| ->]; [done|]. by rewrite andb_false_r. }
  rewrite Hc.
  set (m2 := {| m_ctx := _; m_trace := _ |}).
  destruct (reprogram_tail_cases e m2) as
    [(_ & H2 & _)|[(_ & _ & H3)|(H1 & _)]];
    [done | | by subst m2; fields; congruence].
  rewrite H3. subst m2. fields.
  split; [done|]. split; [|split; [|split]].
  - rewrite delivered_reprogram, delivered_delivery, delivered_dumped.
    by rewrite accum_client_dump_size.
  - rewrite find_client_update by apply clear_accum_keeps_addr.
    rewrite find_client_fmap, Hfind by apply accum_client_keeps_addr.
    eexists. split; [reflexivity|]. apply clear_accum_all_zero.
    by rewrite accum_client_length, accum_client_dump_size.
  - done.
  - eapply same_flags_trans.
    + apply same_flags_fmap;
        [apply accum_client_keeps_addr
        | intros c0; apply accum_client_keeps_pending].
    + apply same_flags_update;
        [apply clear_accum_keeps_addr | apply clear_accum_keeps_pending].
Qed.

Lemma dump_reprogram_failure_after_delivery_witness :
  fst (kbase_vinstr_dump (env_dump (replicate 320 1) 0 (-5)) 16
         (one_ready_due dev_v5)) = Some (-5) /\
  reprogram (m_ctx (snd (kbase_vinstr_dump (env_dump (replicate 320 1) 0 (-5))
                           16 (one_ready_due dev_v5)))) = true.
Proof.
  pose proof (dump_reprogram_failure_after_delivery
                (env_dump (replicate 320 1) 0 (-5)) 16 (one_ready_due dev_v5)
                (ready_client 16 (Bitmap 0 0 15 0) 320)) as H.
  cbv zeta in H.
  destruct H as (H1 & _ & _ & H2 & _).
  - repeat split; [lia | reflexivity..].
  - right. reflexivity.
  - vm_compute. reflexivity.
  - reflexivity.
  - cbn. lia.
  - split; [exact H1 | exact H2].
Defined.

Lemma not_pending_when_settled ctx l :
  reprogram ctx = false -> Forall (client_ok ctx) l ->
  Forall (fun c => pending c = false) l.
Proof.
  intros Hr H. eapply Forall_impl; [exact H|]. intros c (_ & Hp & _).
  destruct (pending c); [|done]. rewrite Hr in Hp. by discriminate Hp.
Qed.

Lemma reprogram_tail_settles e m :
  Forall (client_ok (m_ctx m)) (clients (m_ctx m)) ->
  fst (reprogram_tail e m) = 0 ->
  reprogram (m_ctx (snd (reprogram_tail e m))) = false /\
  Forall (fun c => pending c = false)
    (clients (m_ctx (snd (reprogram_tail e m)))).
Proof.
  intros Hok Hres.
  destruct (reprogram_tail_cases e m) as
    [(_ & _ & H3)|[(_ & Hne & H3)|(Hr & H3)]]; rewrite H3 in *; fields.
  - split; [done | apply all_not_pending].
  - done.
  - split; [done|]. by eapply not_pending_when_settled.
Qed.

(** Property X4.  In every state that a run of attaches, detaches, dumps
    and clears reaches, a dump or a clear that returns 0 leaves nothing
    outstanding: no reprogram is due and no client is pending, so the next
    dump accumulates into every client.  (A dump that takes the
    [MALI_SEC_HWCNT] shortcut returns 0 without reprogramming and is
    excluded.) *)
Theorem successful_dump_settles_pending (dev : kbase_device) (ops : list op)
    (m : machine) (e : dump_env) (cli : Z) :
  exec ops (boot dev) = Some m ->
  (MALI_SEC_HWCNT dev && list_is_singular (clients (m_ctx m)) &&
     hwcnt_is_attach e = false ->
   fst (kbase_vinstr_dump e cli m) = Some 0 ->
   reprogram (m_ctx (snd (kbase_vinstr_dump e cli m))) = false /\
   Forall (fun c => pending c = false)
     (clients (m_ctx (snd (kbase_vinstr_dump e cli m))))) /\
  (fst (kbase_vinstr_clear e cli m) = Some 0 ->
   reprogram (m_ctx (snd (kbase_vinstr_clear e cli m))) = false /\
   Forall (fun c => pending c = false)
     (clients (m_ctx (snd (kbase_vinstr_clear e cli m))))).
Proof.
  intros Hrun. destruct (reachable_invs _ _ _ Hrun) as [Hi Hc].
  pose proof Hc as [Hdev _ Hok]. split.
  - intros Hsec. rewrite kbase_vinstr_dump_paths. cbv zeta. rewrite Hdev, Hsec.
    change (- EINVAL) with (-22). change (- EFAULT) with (-14).
    destruct (cli =? 0); [done|].
    destruct (find_client cli (clients (m_ctx m))) as [c|]; [|done].
    destruct (Z.eqb_spec (request_dump_ret e) 0) as [Hr|Hr]; cbn [negb];
      [|cbn [fst]; congruence].
    destruct (Z.eqb_spec (wait_for_dump_ret e) 0) as [Hw|Hw]; cbn [negb];
      [|cbn [fst]; congruence].
    destruct (negb (kernel c) && negb (copy_to_user_ret e =? 0)); [done|].
    cbn [fst snd]. intros [= Hres].
    eapply reprogram_tail_settles; [|exact Hres].
    fields. eapply Forall_impl; [by apply dumped_clients_ok|].
    intros c' Hc'; exact Hc'.
  - rewrite kbase_vinstr_clear_paths. cbv zeta.
    change (- EINVAL) with (-22).
    destruct (cli =? 0); [done|].
    destruct (find_client cli (clients (m_ctx m))) as [c|] eqn:Hfind; [|done].
    destruct (Z.eqb_spec (request_dump_ret e) 0) as [Hr|Hr]; cbn [negb];
      [|cbn [fst]; congruence].
    destruct (Z.eqb_spec (wait_for_dump_ret e) 0) as [Hw|Hw]; cbn [negb];
      [|cbn [fst]; congruence].
    destruct (Z.eqb_spec (hwcnt_clear_ret e) 0) as [Hcl|Hcl]; cbn [negb];
      [|cbn [fst]; congruence].
    cbn [fst snd]. intros [= Hres].
    eapply reprogram_tail_settles; [|exact Hres].
    fields. eapply Forall_impl; [by apply dumped_clients_ok|].
    intros c' Hc'; exact Hc'.
Qed.

Lemma successful_dump_settles_pending_witness :
  let e := env_dump (replicate 320 7) 0 0 in
  let m := after two_clients dev_v5 in
  reprogram (m_ctx m) = true /\
  reprogram (m_ctx (snd (kbase_vinstr_dump e 32 m))) = false /\
  Forall (fun c => pending c = false)
    (clients (m_ctx (snd (kbase_vinstr_dump e 32 m)))).
Proof.
  intros e m.
  assert (Hex : exec two_clients (boot dev_v5) = Some m)
    by (vm_compute; reflexivity).
  split; [vm_compute; reflexivity|].
  apply (proj1 (successful_dump_settles_pending dev_v5 two_clients m e 32 Hex)).
  - vm_compute. reflexivity.
  - vm_compute. reflexivity.
Defined.

(** Property X5.  The data that a dump hands to the copy for a client that
    is not pending is, word for word of the [dump_size] bytes: in a
    header that the walk of the layout visits, the header word the
    hardware wrote, the enable mask and-ed with the mask of the client; in
    a header the walk does not visit, the word already in the
    accumulation buffer; and for a counter the sum, clamped at
    [U32_MAX], of what the buffer had accumulated and what the hardware
    dumped. *)
Theorem dump_delivers_accumulated_counters (e : dump_env) (cli : Z)
    (m : machine) (c : kbase_vinstr_client) (k : nat) (a b : Z) :
  reaches_copy e cli m c ->
  pending c = false ->
  length (accum_buffer c) = length (hw_dump e) ->
  4 * Z.of_nat k + 4 <= cli_dump_size c ->
  accum_buffer c !! k = Some a -> hw_dump e !! k = Some b ->
  is_u32 a -> is_u32 b ->
  exists data,
    delivered (m_trace (snd (kbase_vinstr_dump e cli m))) =
      data :: delivered (m_trace m) /\
    data !! k =
      Some (if decide (k mod 64 < 4)%nat then
              match block_category (kbdev (m_ctx m)) (k / 64) with
              | Some cat => hdr_word (bm_get (cli_bitmap c) cat) (k mod 64) b
              | None => a
              end
            else Z.min (a + b) U32_MAX).
Proof.
  intros (Hcli & Hfind & Hreq & Hwait & Hsec) Hp Hlen Hk Ha Hb Hua Hub.
  exists (read_bytes (accum_buffer (accum_client (m_ctx m) (hw_dump e) c))
            (cli_dump_size c)).
  split.
  - rewrite kbase_vinstr_dump_paths. cbv zeta.
    rewrite (proj2 (Z.eqb_neq _ _) Hcli), Hfind, Hreq, Hwait, Hsec.
    change (0 =? 0) with true. cbn [negb].
    destruct (negb (kernel c) && negb (copy_to_user_ret e =? 0)).
    + cbn [snd m_trace].
      by rewrite delivered_delivery, delivered_dumped, accum_client_dump_size.
    + cbn [snd]. rewrite reprogram_tail_delivered. cbn [m_trace].
      by rewrite delivered_delivery, delivered_dumped, accum_client_dump_size.
  - rewrite read_bytes_lookup by done.
    destruct (decide (k mod 64 < 4)%nat) as [Hh|Hh].
    + rewrite accum_client_header by done. unfold hdr_view.
      destruct (block_category _ _); [by rewrite Hb | done].
    + rewrite accum_client_counter by (done || lia).
      by rewrite Ha, Hb, accum_u32_min.
Qed.

Lemma dump_delivers_accumulated_counters_witness :
  let e := env_dump (replicate 320 255) 0 0 in
  exists data,
    delivered (m_trace (snd (kbase_vinstr_dump e 16 (one_ready dev_v5)))) =
      data :: delivered (m_trace (one_ready dev_v5)) /\
    data !! 66%nat = Some 0.
Proof.
  intros e.
  destruct (dump_delivers_accumulated_counters e 16 (one_ready dev_v5)
              (ready_client 16 (Bitmap 0 0 15 0) 320) 66 0 255)
    as (data & H1 & H2).
  - repeat split; [lia | reflexivity..].
  - reflexivity.
  - reflexivity.
  - cbn. lia.
  - reflexivity.
  - reflexivity.
  - unfold is_u32, U32_MAX. lia.
  - unfold is_u32, U32_MAX. lia.
  - exists data. split; [exact H1 | exact H2].
Defined.

(** Property X6.  A dump requested by one client loses nothing for the
    others: when [kbase_vinstr_dump] gets as far as the copy, then
    whatever happens afterwards (the copy faults, the reprogram fails, or
    all goes well) every counter of every other client that is not
    pending has grown by what the hardware dumped, clamped at [U32_MAX],
    and the buffer of every other client that is pending is as it was. *)
Theorem dump_accumulates_for_other_clients (e : dump_env) (cli : Z)
    (m : machine) (c : kbase_vinstr_client) (a : Z)
    (ca : kbase_vinstr_client) (k : nat) (x y : Z) :
  reaches_copy e cli m c ->
  a <> cli ->
  find_client a (clients (m_ctx m)) = Some ca ->
  length (accum_buffer ca) = length (hw_dump e) ->
  (4 <= k mod 64)%nat ->
  4 * Z.of_nat k < cli_dump_size ca ->
  accum_buffer ca !! k = Some x -> hw_dump e !! k = Some y ->
  is_u32 x -> is_u32 y ->
  exists ca',
    find_client a (clients (m_ctx (snd (kbase_vinstr_dump e cli m)))) =
      Some ca' /\
    (pending ca = true -> accum_buffer ca' = accum_buffer ca) /\
    (pending ca = false ->
     accum_buffer ca' !! k = Some (Z.min (x + y) U32_MAX)).
Proof.
  intros (Hcli & Hfind & Hreq & Hwait & Hsec) Hne Hfa Hlen Hk Hsz Hx Hy
    Hux Huy.
  assert (Hacc :
    (pending ca = true ->
     accum_buffer (accum_client (m_ctx m) (hw_dump e) ca) = accum_buffer ca) /\
    (pending ca = false ->
     accum_buffer (accum_client (m_ctx m) (hw_dump e) ca) !! k =
       Some (Z.min (x + y) U32_MAX))).
  { split; intros Hp.
    - unfold accum_client. by rewrite Hp.
    - rewrite accum_client_counter by done.
      by rewrite Hx, Hy, accum_u32_min. }
  rewrite kbase_vinstr_dump_paths. cbv zeta.
  rewrite (proj2 (Z.eqb_neq _ _) Hcli), Hfind, Hreq, Hwait, Hsec.
  change (0 =? 0) with true. cbn [negb].
  destruct (negb (kernel c) && negb (copy_to_user_ret e =? 0)).
  - cbn [snd m_ctx clients set_clients].
    rewrite find_client_fmap, Hfa by apply accum_client_keeps_addr.
    eexists. split; [reflexivity | exact Hacc].
  - cbn [snd].
    edestruct (reprogram_tail_find e) as (ca' & Hf' & Hbuf & _); [|
      exists ca'; split; [exact Hf'|]; rewrite Hbuf; exact Hacc].
    cbn [m_ctx clients set_clients].
    rewrite find_client_update_ne by (apply clear_accum_keeps_addr || done).
    by rewrite find_client_fmap, Hfa by apply accum_client_keeps_addr.
Qed.

Lemma dump_accumulates_for_other_clients_witness :
  let e := env_dump (replicate 320 7) 0 0 in
  exists ca',
    find_client 32 (clients (m_ctx (snd (kbase_vinstr_dump e 16
                                           (two_ready dev_v5))))) =
      Some ca' /\
    accum_buffer ca' !! 4%nat = Some 7.
Proof.
  intros e.
  destruct (dump_accumulates_for_other_clients e 16 (two_ready dev_v5)
              (ready_client 16 (Bitmap 0 0 15 0) 320) 32
              (ready_client 32 (Bitmap 0 1 0 0) 320) 4 0 7)
    as (ca' & H1 & _ & H2).
  - repeat split; [lia | reflexivity..].
  - lia.
  - reflexivity.
  - reflexivity.
  - cbn. lia.
  - cbn. lia.
  - reflexivity.
  - reflexivity.
  - unfold is_u32, U32_MAX. lia.
  - unfold is_u32, U32_MAX. lia.
  - exists ca'. split; [exact H1 | exact (H2 eq_refl)].
Defined.

(** Property X7.  A clear that the hardware completes copies nothing to
    any destination; it leaves the accumulation buffer of the caller all
    zero, and the other clients are accumulated into exactly as by a dump,
    so the counts discarded are those of the caller alone. *)
Theorem clear_discards_only_callers_counts (e : dump_env) (cli : Z)
    (m : machine) (c : kbase_vinstr_client) :
  cli <> 0 ->
  find_client cli (clients (m_ctx m)) = Some c ->
  request_dump_ret e = 0 -> wait_for_dump_ret e = 0 ->
  hwcnt_clear_ret e = 0 ->
  length (accum_buffer c) = Z.to_nat (cli_dump_size c / sizeof_u32) ->
  let m' := snd (kbase_vinstr_clear e cli m) in
  delivered (m_trace m') = delivered (m_trace m) /\
  (exists c', find_client cli (clients (m_ctx m')) = Some c' /\
              all_zero (accum_buffer c')) /\
  (forall a ca, a <> cli ->
     find_client a (clients (m_ctx m)) = Some ca ->
     exists ca', find_client a (clients (m_ctx m')) = Some ca' /\
       accum_buffer ca' =
       accum_buffer (accum_client (m_ctx m) (hw_dump e) ca)).
Proof.
  intros Hcli Hfind Hreq Hwait Hclr Hlen. cbv zeta.
  rewrite kbase_vinstr_clear_paths. cbv zeta.
  rewrite (proj2 (Z.eqb_neq _ _) Hcli), Hfind, Hreq, Hwait, Hclr.
  change (0 =? 0) with true. cbn [negb snd].
  split; [|split].
  - by rewrite reprogram_tail_delivered.
  - edestruct (reprogram_tail_find e) as (c' & Hf' & Hbuf & _); [|
      exists c'; split; [exact Hf'|]; rewrite Hbuf].
    + cbn [m_ctx clients set_clients].
      rewrite find_client_update by apply clear_accum_keeps_addr.
      by rewrite find_client_fmap, Hfind by apply accum_client_keeps_addr.
    + apply clear_accum_all_zero.
      by rewrite accum_client_length, accum_client_dump_size.
  - intros a ca Hne Hfa.
    edestruct (reprogram_tail_find e) as (ca' & Hf' & Hbuf & _); [|
      exists ca'; split; [exact Hf' | exact Hbuf]].
    cbn [m_ctx clients set_clients].
    rewrite find_client_update_ne by (apply clear_accum_keeps_addr || done).
    by rewrite find_client_fmap, Hfa by apply accum_client_keeps_addr.
Qed.

Lemma clear_discards_only_callers_counts_witness :
  let e := env_dump (replicate 320 7) 0 0 in
  let m' := snd (kbase_vinstr_clear e 16 (two_ready dev_v5)) in
  delivered (m_trace m') = [] /\
  exists c', find_client 16 (clients (m_ctx m')) = Some c' /\
             all_zero (accum_buffer c').
Proof.
  intros e m'.
  destruct (clear_discards_only_callers_counts e 16 (two_ready dev_v5)
              (ready_client 16 (Bitmap 0 0 15 0) 320))
    as (H1 & H2 & _).
  - lia.
  - reflexivity.
  - reflexivity.
  - reflexivity.
  - reflexivity.
  - vm_compute. reflexivity.
  - split; [exact H1 | exact H2].
Defined.

(** ** Attaching and detaching *)

Lemma create_vinstr_kctx_result e m :
  hwcnt_enable_ret e <= 0 ->
  (fst (create_vinstr_kctx e m) <? 0) = negb (create_ok e).
Proof.
  intros Hen. destruct m as [ctx tr]. unfold create_ok. munfold. msimp.
  destruct (create_context_ret e =? 0); msimp; simpl; [done|].
  destruct (mem_alloc_reg e =? 0); msimp; simpl; [done|].
  destruct (vmap_ret e =? 0); msimp; simpl; [done|].
  destruct (Z.eqb_spec (hwcnt_enable_ret e) 0) as [->|Hne]; msimp; simpl;
    [done|].
  apply Z.ltb_lt. lia.
Qed.

(** Property X8.  [kbase_vinstr_attach_client] returns [NULL] exactly when
    the allocation of the client record fails, or the allocation of its
    accumulation buffer fails, or, for the first client, the hardware
    context cannot be set up (its creation, the allocation or the mapping
    of the dump buffer, or the enabling of the counters fails); in every
    other case it returns the address of the new record. *)
Theorem attach_fails_iff_setup_fails (e : attach_env) (k : bool) (d : Z)
    (b : bitmap4) (m : machine) :
  hwcnt_enable_ret e <= 0 ->
  fst (kbase_vinstr_attach_client e k d b m) =
  if (kmalloc_cli e =? 0) || (kzalloc_accum e =? 0) ||
     ((nclients (m_ctx m) =? 0) && negb (create_ok e))
  then 0 else kmalloc_cli e.
Proof.
  intros Hen. destruct m as [ctx tr]. munfold_attach. msimp.
  destruct (Z.eqb_spec (kmalloc_cli e) 0) as [Hk|Hk]; msimp; [done|].
  cbn [orb].
  destruct (Z.eqb_spec (nclients ctx) 0) as [Hn|Hn]; msimp.
  - match goal with
    | |- context [create_vinstr_kctx e ?M] =>
        pose proof (create_vinstr_kctx_result e M Hen) as Hres;
        pose proof (create_vinstr_kctx_frame e M) as Hc;
        destruct (create_vinstr_kctx e M) as [err m1]
    end.
    msimp. cbn [fst snd] in Hc, Hres. rewrite Hres.
    destruct Hc as (_ & H2 & _).
    destruct (create_ok e); cbn [negb andb]; msimp;
      [|by rewrite orb_true_r].
    rewrite orb_false_r.
    destruct (MALI_SEC_HWCNT _ && (d =? 0));
      (destruct (kzalloc_accum e =? 0); msimp; simpl; [|done];
       rewrite H2, Hn; change (0 =? 0) with true; msimp;
       by destruct (destroy_vinstr_kctx _)).
  - cbn [andb]. rewrite orb_false_r.
    destruct (MALI_SEC_HWCNT _ && (d =? 0));
      (destruct (kzalloc_accum e =? 0); msimp; simpl; [|done];
       by rewrite (proj2 (Z.eqb_neq _ _) Hn)).
Qed.

Lemma attach_fails_iff_setup_fails_witness :
  fst (kbase_vinstr_attach_client (env_no_accum 16) false 4096
         (Bitmap 0 0 15 0) (boot dev_v5)) = 0 /\
  fst (kbase_vinstr_attach_client (env_ok 16) false 4096
         (Bitmap 0 0 15 0) (boot dev_v5)) = 16.
Proof.
  split.
  - rewrite (attach_fails_iff_setup_fails (env_no_accum 16) false 4096
               (Bitmap 0 0 15 0) (boot dev_v5)); [reflexivity | cbn; lia].
  - rewrite (attach_fails_iff_setup_fails (env_ok 16) false 4096
               (Bitmap 0 0 15 0) (boot dev_v5)); [reflexivity | cbn; lia].
Defined.

(** Property X9.  After a successful attach the handle returned designates
    a client with the kind, the mask and the destination that were
    requested (under [MALI_SEC_HWCNT] a null destination stands for the
    kernel mapping of the dump buffer), with an all-zero accumulation
    buffer of the size of a dump.  It is pending exactly when the context
    already had clients, and every other handle designates what it
    designated before. *)
Theorem attach_then_lookup (e : attach_env) (k : bool) (d : Z) (b : bitmap4)
    (m : machine) :
  hwcnt_enable_ret e <= 0 ->
  let r := fst (kbase_vinstr_attach_client e k d b m) in
  let m' := snd (kbase_vinstr_attach_client e k d b m) in
  r <> 0 ->
  (exists c,
     find_client r (clients (m_ctx m')) = Some c /\
     kernel c = k /\ cli_bitmap c = b /\
     dump_buffer c = (if MALI_SEC_HWCNT (kbdev (m_ctx m)) && (d =? 0)
                      then cpu_va (m_ctx m') else d) /\
     pending c = negb (nclients (m_ctx m) =? 0) /\
     cli_dump_size c = kbase_vinstr_dump_size (m_ctx m) /\
     accum_buffer c =
       replicate (Z.to_nat (kbase_vinstr_dump_size (m_ctx m) / sizeof_u32))
         0) /\
  (forall a, a <> r ->
     find_client a (clients (m_ctx m')) = find_client a (clients (m_ctx m))).
Proof.
  intros Hen. cbv zeta. intros Hr.
  destruct (attach_outcome e k d b m Hen) as
    [_ [(Hr0 & _)|(_ & _ & _ & c & Hcl & Ha & Hk & Hb & Hs & Hz & Hd & Hcase)]];
    [done|].
  rewrite Hcl. cbn [find_client]. rewrite Ha, Z.eqb_refl. split.
  - exists c. rewrite <- Hs. repeat split; try done.
    by destruct (nclients (m_ctx m) =? 0); destruct Hcase as [-> _].
  - intros a Hne.
    destruct (Z.eqb_spec (fst (kbase_vinstr_attach_client e k d b m)) a);
      [congruence | done].
Qed.

Lemma attach_then_lookup_witness :
  let m' := snd (kbase_vinstr_attach_client (env_ok 48) true 8192
                   (Bitmap 1 0 0 0) (after two_clients dev_v5)) in
  exists c, find_client 48 (clients (m_ctx m')) = Some c /\
            kernel c = true /\ pending c = true /\
            cli_bitmap c = Bitmap 1 0 0 0.
Proof.
  intros m'.
  destruct (attach_then_lookup (env_ok 48) true 8192 (Bitmap 1 0 0 0)
              (after two_clients dev_v5)) as [(c & H1 & H2 & H3 & _ & H4 & _) _].
  - cbn. lia.
  - vm_compute. discriminate.
  - exists c. repeat split; [exact H1 | exact H2 | exact H4 | exact H3].
Defined.

(** Property X10.  Detaching a handle that designates no attached client
    frees nothing and tears nothing down: the clients, their count, the
    hardware context, the pending reprogram and the trace of calls are as
    they were.  The one effect is that the mask of the context is rebuilt
    as the union of the masks of the attached clients. *)
Theorem detach_unknown_handle (cli : Z) (m : machine) :
  find_client cli (clients (m_ctx m)) = None ->
  snd (kbase_vinstr_detach_client cli m) =
  {| m_ctx := set_bitmap (union_of_masks (clients (m_ctx m))) (m_ctx m);
     m_trace := m_trace m |}.
Proof.
  intros Hfind. apply list_del_None in Hfind.
  pose proof (detach_outcome cli m) as (_ & _ & H). cbv zeta in H.
  by rewrite Hfind in H.
Qed.

Lemma detach_unknown_handle_witness :
  clients (m_ctx (snd (kbase_vinstr_detach_client 48 (two_ready dev_v5)))) =
  clients (m_ctx (two_ready dev_v5)).
Proof.
  rewrite (detach_unknown_handle 48 (two_ready dev_v5));
    [reflexivity | reflexivity].
Defined.

(** Property X11.  In every state that a run reaches, detaching an
    attached client removes that client and no other: its handle
    designates nothing afterwards, every other handle designates the
    client it designated before, the count of clients goes down by one
    without wrapping, and a reprogram becomes due. *)
Theorem detach_removes_exactly_one (dev : kbase_device) (ops : list op)
    (m : machine) (cli : Z) (c : kbase_vinstr_client) :
  exec ops (boot dev) = Some m ->
  find_client cli (clients (m_ctx m)) = Some c ->
  let m' := snd (kbase_vinstr_detach_client cli m) in
  find_client cli (clients (m_ctx m')) = None /\
  (forall a, a <> cli ->
     find_client a (clients (m_ctx m')) = find_client a (clients (m_ctx m))) /\
  nclients (m_ctx m') = nclients (m_ctx m) - 1 /\
  0 <= nclients (m_ctx m') /\
  reprogram (m_ctx m') = true.
Proof.
  intros Hrun Hfind. cbv zeta.
  destruct (reachable_invs _ _ _ Hrun) as [Hi _].
  pose proof (detach_outcome cli m) as (_ & _ & H). cbv zeta in H.
  destruct (list_del cli (clients (m_ctx m))) as [rest|] eqn:Hdel.
  - destruct H as (Hcl & Hn & Hrp & _).
    destruct (list_del_find _ _ _ Hdel) as (H1 & H2 & _).
    destruct (list_del_Some _ _ _ Hdel) as (Hlen & _).
    destruct Hi as [Hcnt Hbound Hnd _ _ _ _ _ _ _].
    rewrite Hcl, Hn. split; [by apply H2|]. split; [done|].
    assert (wrap32 (nclients (m_ctx m) - 1) = nclients (m_ctx m) - 1) as ->.
    { unfold wrap32. apply Z.mod_small. unfold U32_MAX in Hbound. lia. }
    repeat split; [lia | done].
  - apply list_del_None in Hdel. congruence.
Qed.

Lemma detach_removes_exactly_one_witness :
  let m' := snd (kbase_vinstr_detach_client 16 (after two_clients dev_v5)) in
  find_client 16 (clients (m_ctx m')) = None /\
  nclients (m_ctx m') = 1.
Proof.
  intros m'.
  assert (Hex : exec two_clients (boot dev_v5) = Some (after two_clients dev_v5))
    by (vm_compute; reflexivity).
  assert (Hfind : find_client 16 (clients (m_ctx (after two_clients dev_v5)))
                  = Some first_client) by (vm_compute; reflexivity).
  destruct (detach_removes_exactly_one dev_v5 two_clients _ 16 first_client
              Hex Hfind) as (H1 & _ & H2 & _).
  split; [exact H1 | exact H2].
Defined.

(** Property X12.  In every state that a run reaches, an attach that
    succeeds followed by the detach of the handle it returned gives back
    the list of clients and their count, and as many hardware contexts,
    buffer regions and mappings are alive as before.  What the pair does
    change: a reprogram is due afterwards, and the mask of the context is
    the union of the masks of the attached clients. *)
Theorem attach_detach_round_trip (dev : kbase_device) (ops : list op)
    (m : machine) (e : attach_env) (k : bool) (d : Z) (b : bitmap4) :
  exec ops (boot dev) = Some m ->
  attach_env_ok e (m_ctx m) = true ->
  let r := fst (kbase_vinstr_attach_client e k d b m) in
  let m1 := snd (kbase_vinstr_attach_client e k d b m) in
  let m2 := snd (kbase_vinstr_detach_client r m1) in
  r <> 0 ->
  clients (m_ctx m2) = clients (m_ctx m) /\
  nclients (m_ctx m2) = nclients (m_ctx m) /\
  live kctx_delta (m_trace m2) = live kctx_delta (m_trace m) /\
  live region_delta (m_trace m2) = live region_delta (m_trace m) /\
  live vmap_delta (m_trace m2) = live vmap_delta (m_trace m) /\
  reprogram (m_ctx m2) = true /\
  bitmap (m_ctx m2) = union_of_masks (clients (m_ctx m)).
Proof.
  intros Hrun Hok. cbv zeta. intros Hr.
  destruct (reachable_invs _ _ _ Hrun) as [Hi _].
  pose proof (attach_inv e k d b m Hi Hok) as Hi1.
  pose proof (detach_inv (fst (kbase_vinstr_attach_client e k d b m)) _ Hi1)
    as Hi2.
  unfold attach_env_ok in Hok.
  apply andb_prop in Hok as [Hok _]. apply andb_prop in Hok as [Hen Hlt].
  apply Z.leb_le in Hen. apply Z.ltb_lt in Hlt.
  destruct (attach_outcome e k d b m Hen) as
    [_ [(Hr0 & _)|(_ & _ & Hn & c & Hcl & Ha & _)]]; [done|].
  pose proof (detach_outcome (fst (kbase_vinstr_attach_client e k d b m))
                (snd (kbase_vinstr_attach_client e k d b m)))
    as (_ & Hbm & H).
  cbv zeta in H, Hbm. rewrite Hcl, <- Ha, list_del_head in H.
  destruct H as (Hcl2 & Hn2 & Hrp & _).
  rewrite Ha in *.
  assert (Hcount : nclients (m_ctx (snd (kbase_vinstr_detach_client
            (fst (kbase_vinstr_attach_client e k d b m))
            (snd (kbase_vinstr_attach_client e k d b m))))) =
          nclients (m_ctx m)).
  { rewrite Hn2, Hn. destruct Hi as [Hcnt _ _ _ _ _ _ _ _ _].
    unfold wrap32, U32_MAX in *.
    rewrite (Z.mod_small (nclients (m_ctx m) + 1)) by lia.
    replace (nclients (m_ctx m) + 1 - 1) with (nclients (m_ctx m)) by lia.
    apply Z.mod_small. lia. }
  destruct Hi as [_ _ _ _ _ _ _ Hk1 Hk2 Hk3].
  destruct Hi2 as [_ _ _ _ _ _ _ Hk1' Hk2' Hk3'].
  rewrite Hk1, Hk2, Hk3, Hk1', Hk2', Hk3', Hbm, Hcl2.
  by repeat split.
Qed.

Lemma attach_detach_round_trip_witness :
  let m := after two_clients dev_v5 in
  let m1 := snd (kbase_vinstr_attach_client (env_ok 48) true 8192
                   (Bitmap 1 0 0 0) m) in
  clients (m_ctx (snd (kbase_vinstr_detach_client 48 m1))) = clients (m_ctx m).
Proof.
  intros m m1.
  assert (Hex : exec two_clients (boot dev_v5) = Some m)
    by (vm_compute; reflexivity).
  destruct (attach_detach_round_trip dev_v5 two_clients m (env_ok 48) true
              8192 (Bitmap 1 0 0 0) Hex) as (H1 & _).
  - vm_compute. reflexivity.
  - vm_compute. discriminate.
  - exact H1.
Defined.

(** ** What every run keeps *)

(** Property X13.  In every state that a run of attaches, detaches, dumps
    and clears reaches, the count of clients is the length of the list,
    no two attached clients share a handle and no handle is [NULL], and
    every client has an accumulation buffer of exactly the size of a dump
    of the device, the size it recorded when it attached. *)
Theorem reachable_clients_well_formed (dev : kbase_device) (ops : list op)
    (m : machine) :
  exec ops (boot dev) = Some m ->
  nclients (m_ctx m) = Z.of_nat (length (clients (m_ctx m))) /\
  NoDup (cli_addr <$> clients (m_ctx m)) /\
  Forall (fun c =>
            cli_addr c <> 0 /\
            cli_dump_size c = kbase_vinstr_dump_size (m_ctx m) /\
            length (accum_buffer c) =
              Z.to_nat (kbase_vinstr_dump_size (m_ctx m) / sizeof_u32))
    (clients (m_ctx m)).
Proof.
  intros Hrun. destruct (reachable_invs _ _ _ Hrun) as [Hi [_ _ Hok]].
  destruct Hi as [Hcnt _ Hnd _ _ _ _ _ _ _].
  split; [done|]. split; [done|].
  eapply Forall_impl; [exact Hok|].
  intros c (H1 & _ & H3 & H4 & _). rewrite <- H3. by repeat split.
Qed.

Lemma reachable_clients_well_formed_witness :
  let m := after dump_then_attach dev_v5 in
  nclients (m_ctx m) = Z.of_nat (length (clients (m_ctx m))) /\
  NoDup (cli_addr <$> clients (m_ctx m)).
Proof.
  intros m.
  assert (Hex : exec dump_then_attach (boot dev_v5) = Some m)
    by (vm_compute; reflexivity).
  destruct (reachable_clients_well_formed dev_v5 dump_then_attach m Hex)
    as (H1 & H2 & _).
  split; [exact H1 | exact H2].
Defined.

(** Property X14.  In every state that a run reaches, the mask of the
    context covers the mask of every attached client: whatever attaches
    have failed and whichever clients have detached, no attached client
    has asked for a counter that the mask of the context leaves out. *)
Theorem context_mask_covers_clients (dev : kbase_device) (ops : list op)
    (m : machine) :
  exec ops (boot dev) = Some m ->
  Forall (fun c => mask_subset (cli_bitmap c) (bitmap (m_ctx m)))
    (clients (m_ctx m)).
Proof.
  intros Hrun. destruct (reachable_invs _ _ _ Hrun) as [_ [_ _ Hok]].
  eapply Forall_impl; [exact Hok|]. by intros c (_ & _ & _ & _ & H).
Qed.

Lemma context_mask_covers_clients_witness :
  Forall (fun c => mask_subset (cli_bitmap c)
                     (bitmap (m_ctx (after dump_then_attach dev_v5))))
    (clients (m_ctx (after dump_then_attach dev_v5))).
Proof.
  assert (Hex : exec dump_then_attach (boot dev_v5) =
                Some (after dump_then_attach dev_v5))
    by (vm_compute; reflexivity).
  exact (context_mask_covers_clients dev_v5 dump_then_attach _ Hex).
Defined.

(** Property X15.  In every state that a run reaches, a client is pending
    only while a reprogram is due, and the pointer to the hardware context
    (through which the source of [kbase_vinstr_dump_size] reads the
    device) is not [NULL] while a client is attached. *)
Theorem pending_only_while_reprogram_due (dev : kbase_device) (ops : list op)
    (m : machine) :
  exec ops (boot dev) = Some m ->
  Forall (fun c => pending c = true -> reprogram (m_ctx m) = true)
    (clients (m_ctx m)) /\
  (clients (m_ctx m) <> [] -> kctx (m_ctx m) <> 0).
Proof.
  intros Hrun. destruct (reachable_invs _ _ _ Hrun) as [_ [_ Hk Hok]].
  split; [|done].
  eapply Forall_impl; [exact Hok|]. by intros c (_ & H & _).
Qed.

Lemma pending_only_while_reprogram_due_witness :
  let m := after two_clients dev_v5 in
  Forall (fun c => pending c = true -> reprogram (m_ctx m) = true)
    (clients (m_ctx m)) /\
  (clients (m_ctx m) <> [] -> kctx (m_ctx m) <> 0).
Proof.
  intros m.
  assert (Hex : exec two_clients (boot dev_v5) = Some m)
    by (vm_compute; reflexivity).
  exact (pending_only_while_reprogram_due dev_v5 two_clients m Hex).
Defined.

(** ** Termination of the context *)

Lemma term_clients_frame l ctx :
  kctx (term_clients l ctx) = kctx ctx /\
  gpu_va (term_clients l ctx) = gpu_va ctx.
Proof.
  revert ctx. induction l as [|c l IH]; intros ctx; cbn [term_clients];
    [done|].
  destruct (IH (set_nclients (wrap32 (nclients ctx - 1)) (set_clients l ctx)))
    as [-> ->].
  done.
Qed.

Lemma term_clients_empties l ctx :
  clients ctx = l -> clients (term_clients l ctx) = [].
Proof.
  revert ctx. induction l as [|c l IH]; intros ctx Hl; cbn [term_clients];
    [done|].
  by apply IH.
Qed.

Lemma term_clients_count l ctx :
  Z.of_nat (length l) <= nclients ctx <= U32_MAX ->
  nclients (term_clients l ctx) = nclients ctx - Z.of_nat (length l).
Proof.
  revert ctx. induction l as [|c l IH]; intros ctx Hn;
    cbn [term_clients length] in *.
  - lia.
  - rewrite IH; fields.
    + unfold wrap32. rewrite Z.mod_small by (unfold U32_MAX in Hn; lia). lia.
    + unfold wrap32. rewrite Z.mod_small by (unfold U32_MAX in Hn; lia). lia.
Qed.

Lemma kbase_vinstr_term_paths m :
  kbase_vinstr_term m =
  let ctx := term_clients (clients (m_ctx m)) (m_ctx m) in
  if kctx (m_ctx m) =? 0 then (tt, {| m_ctx := ctx; m_trace := m_trace m |})
  else (tt, {| m_ctx := set_kctx 0 ctx;
               m_trace := EvDestroyContext (kctx (m_ctx m))
                          :: EvMemFree (gpu_va (m_ctx m)) :: EvVunmap
                          :: EvHwcntDisable :: m_trace m |}).
Proof.
  destruct m as [ctx tr]. unfold kbase_vinstr_term. munfold. msimp.
  destruct (term_clients_frame (clients ctx) ctx) as [Hk Hg].
  rewrite Hk.
  destruct (kctx ctx =? 0); cbn [negb]; msimp; [done|].
  by rewrite Hk, Hg.
Qed.

(** Property X16.  From every state that a run reaches in which a client
    is attached or the pointer to the hardware context is [NULL],
    [kbase_vinstr_term] releases everything: no client is left, the count
    is 0, the pointer is [NULL], and no hardware context, buffer region
    or mapping is alive afterwards. *)
Theorem term_releases_everything (dev : kbase_device) (ops : list op)
    (m : machine) :
  exec ops (boot dev) = Some m ->
  clients (m_ctx m) <> [] \/ kctx (m_ctx m) = 0 ->
  let m' := snd (kbase_vinstr_term m) in
  clients (m_ctx m') = [] /\ nclients (m_ctx m') = 0 /\
  kctx (m_ctx m') = 0 /\
  live kctx_delta (m_trace m') = 0 /\
  live region_delta (m_trace m') = 0 /\
  live vmap_delta (m_trace m') = 0.
Proof.
  intros Hrun Hcase. cbv zeta.
  destruct (reachable_invs _ _ _ Hrun) as [Hi [_ Hk _]].
  destruct Hi as [Hcnt Hbound _ _ _ _ _ Hl1 Hl2 Hl3].
  rewrite kbase_vinstr_term_paths. cbv zeta.
  pose proof (term_clients_empties _ (m_ctx m) eq_refl) as Hemp.
  assert (Hzero : nclients (term_clients (clients (m_ctx m)) (m_ctx m)) = 0)
    by (rewrite term_clients_count; lia).
  destruct (term_clients_frame (clients (m_ctx m)) (m_ctx m)) as [Hkc _].
  destruct (Z.eqb_spec (kctx (m_ctx m)) 0) as [Hz|Hnz]; cbn [snd]; fields;
    rewrite Hemp, Hzero, ?Hkc.
  - destruct Hcase as [Hne|_]; [by apply Hk in Hne|].
    assert (Hnil : clients (m_ctx m) = []).
    { destruct (clients (m_ctx m)) eqn:E; [done|].
      exfalso. by apply Hk. }
    rewrite Hl1, Hl2, Hl3, Hnil. by repeat split.
  - destruct Hcase as [Hne|Hz]; [|done].
    cbn [live kctx_delta region_delta vmap_delta].
    rewrite Hl1, Hl2, Hl3.
    destruct (clients (m_ctx m)); [done|]. cbn [occupancy].
    by repeat split.
Qed.

Lemma term_releases_everything_witness :
  let m' := snd (kbase_vinstr_term (after two_clients dev_v5)) in
  clients (m_ctx m') = [] /\ nclients (m_ctx m') = 0 /\
  live kctx_delta (m_trace m') = 0.
Proof.
  intros m'.
  assert (Hex : exec two_clients (boot dev_v5) =
                Some (after two_clients dev_v5)) by (vm_compute; reflexivity).
  destruct (term_releases_everything dev_v5 two_clients _ Hex)
    as (H1 & H2 & _ & H3 & _).
  - left. vm_compute. discriminate.
  - split; [exact H1 | split; [exact H2 | exact H3]].
Defined.

(** Property X17.  [create_vinstr_kctx] does not reset the pointer to the
    hardware context when it destroys the context on its error paths.  So
    from a state that a run reaches with no client attached and that
    pointer not [NULL], [kbase_vinstr_term] tears the hardware context
    down once more: it disables the counters, unmaps and frees the dump
    buffer and destroys a context that had been destroyed already, which
    leaves each of the three counts of live resources at -1. *)
Theorem term_after_failed_setup_destroys_twice (dev : kbase_device)
    (ops : list op) (m : machine) :
  exec ops (boot dev) = Some m ->
  clients (m_ctx m) = [] ->
  kctx (m_ctx m) <> 0 ->
  let m' := snd (kbase_vinstr_term m) in
  m_trace m' = EvDestroyContext (kctx (m_ctx m))
               :: EvMemFree (gpu_va (m_ctx m)) :: EvVunmap
               :: EvHwcntDisable :: m_trace m /\
  live kctx_delta (m_trace m') = -1 /\
  live region_delta (m_trace m') = -1 /\
  live vmap_delta (m_trace m') = -1.
Proof.
  intros Hrun Hnil Hnz. cbv zeta.
  destruct (reachable_invs _ _ _ Hrun) as [Hi _].
  destruct Hi as [_ _ _ _ _ _ _ Hl1 Hl2 Hl3].
  rewrite kbase_vinstr_term_paths. cbv zeta.
  rewrite (proj2 (Z.eqb_neq _ _) Hnz). cbn [snd m_trace].
  split; [done|].
  cbn [live kctx_delta region_delta vmap_delta].
  rewrite Hl1, Hl2, Hl3, Hnil. by repeat split.
Qed.

Lemma term_after_failed_setup_destroys_twice_witness :
  let m := after [OpAttach (env_no_map 16) false 4096 (Bitmap 0 0 15 0)]
             dev_v5 in
  clients (m_ctx m) = [] /\
  live kctx_delta (m_trace m) = 0 /\
  live kctx_delta (m_trace (snd (kbase_vinstr_term m))) = -1.
Proof.
  intros m.
  assert (Hex : exec [OpAttach (env_no_map 16) false 4096 (Bitmap 0 0 15 0)]
                  (boot dev_v5) = Some m) by (vm_compute; reflexivity).
  destruct (term_after_failed_setup_destroys_twice dev_v5 _ m Hex)
    as (_ & H & _).
  - reflexivity.
  - vm_compute. discriminate.
  - split; [reflexivity | split; [reflexivity | exact H]].
Defined.

(** ** The mask of the context *)

Lemma union_of_masks_fmap (f : kbase_vinstr_client -> kbase_vinstr_client)
    (l : list kbase_vinstr_client) :
  (forall c, cli_bitmap (f c) = cli_bitmap c) ->
  union_of_masks (f <$> l) = union_of_masks l.
Proof.
  intros Hf. unfold union_of_masks.
  induction l as [|c l IH]; [done|].
  rewrite fmap_cons. cbn [fold_right]. by rewrite IH, Hf.
Qed.

Lemma union_of_masks_update cli f l :
  (forall c, cli_bitmap (f c) = cli_bitmap c) ->
  union_of_masks (update_client cli f l) = union_of_masks l.
Proof.
  intros Hf. unfold union_of_masks.
  induction l as [|c l IH]; [done|]. cbn [update_client].
  destruct (cli_addr c =? cli); cbn [fold_right]; by rewrite ?IH, ?Hf.
Qed.

Lemma dumped_masks ctx cli src :
  union_of_masks
    (update_client cli clear_accum (accum_client ctx src <$> clients ctx)) =
  union_of_masks (clients ctx).
Proof.
  rewrite union_of_masks_update by done.
  apply union_of_masks_fmap. apply accum_client_keeps_bitmap.
Qed.

Lemma reprogram_tail_masks e m :
  bitmap (m_ctx (snd (reprogram_tail e m))) = bitmap (m_ctx m) /\
  union_of_masks (clients (m_ctx (snd (reprogram_tail e m)))) =
  union_of_masks (clients (m_ctx m)).
Proof.
  destruct (reprogram_tail_cases e m) as
    [(_ & _ & H3)|[(_ & _ & H3)|(_ & H3)]]; rewrite H3; fields; [|done..].
  split; [done|]. by apply union_of_masks_fmap.
Qed.

Lemma dump_keeps_masks e cli m :
  bitmap (m_ctx (snd (kbase_vinstr_dump e cli m))) = bitmap (m_ctx m) /\
  union_of_masks (clients (m_ctx (snd (kbase_vinstr_dump e cli m)))) =
  union_of_masks (clients (m_ctx m)).
Proof.
  rewrite kbase_vinstr_dump_paths. cbv zeta.
  destruct (cli =? 0); [done|].
  destruct (find_client cli (clients (m_ctx m))) as [c|]; [|done].
  destruct (negb (request_dump_ret e =? 0)); [done|].
  destruct (negb (wait_for_dump_ret e =? 0)); [done|].
  destruct (MALI_SEC_HWCNT _ && _ && _); [done|].
  destruct (negb (kernel c) && _); cbn [snd].
  - fields. split; [done|].
    apply union_of_masks_fmap, accum_client_keeps_bitmap.
  - destruct (reprogram_tail_masks e
      {| m_ctx := set_clients
                    (update_client cli clear_accum
                       (accum_client (m_ctx m) (hw_dump e) <$>
                        clients (m_ctx m))) (m_ctx m);
         m_trace := delivery e (accum_client (m_ctx m) (hw_dump e) c)
                    :: dumped e (m_trace m) |}) as [H1 H2].
    rewrite H1, H2. fields. split; [done|]. apply dumped_masks.
Qed.

Lemma clear_keeps_masks e cli m :
  bitmap (m_ctx (snd (kbase_vinstr_clear e cli m))) = bitmap (m_ctx m) /\
  union_of_masks (clients (m_ctx (snd (kbase_vinstr_clear e cli m)))) =
  union_of_masks (clients (m_ctx m)).
Proof.
  rewrite kbase_vinstr_clear_paths. cbv zeta.
  destruct (cli =? 0); [done|].
  destruct (find_client cli (clients (m_ctx m))) as [c|]; [|done].
  destruct (negb (request_dump_ret e =? 0)); [done|].
  destruct (negb (wait_for_dump_ret e =? 0)); [done|].
  destruct (negb (hwcnt_clear_ret e =? 0)); [done|].
  cbn [snd].
  destruct (reprogram_tail_masks e
    {| m_ctx := set_clients
                  (update_client cli clear_accum
                     (accum_client (m_ctx m) (hw_dump e) <$>
                      clients (m_ctx m))) (m_ctx m);
       m_trace := EvHwcntClear (hwcnt_clear_ret e)
                  :: dumped e (m_trace m) |}) as [H1 H2].
  rewrite H1, H2. fields. split; [done|]. apply dumped_masks.
Qed.

Lemma exec_mask_exact ops m m' :
  inv m ->
  bitmap (m_ctx m) = union_of_masks (clients (m_ctx m)) ->
  exec ops m = Some m' ->
  attaches_succeed ops m ->
  bitmap (m_ctx m') = union_of_masks (clients (m_ctx m')).
Proof.
  revert m. induction ops as [|o ops IH]; intros m Hi Hu; cbn [exec].
  - by intros [= <-].
  - cbn [attaches_succeed].
    destruct (exec_op o m) as [m1|] eqn:Ho; [|done].
    intros Hrun [Hatt Hrest].
    apply (IH m1); [by eapply exec_op_inv | | done..].
    destruct o as [e k d b|cli|e cli|e cli]; cbn [exec_op] in Ho.
    + destruct (attach_env_ok e (m_ctx m)); [|done].
      injection Ho as <-. by apply attach_success_extends_mask.
    + injection Ho as <-. apply detach_rebuilds_mask.
    + pose proof (dump_keeps_masks e cli m) as [H1 H2].
      destruct (kbase_vinstr_dump e cli m) as [[r|] m2]; [|done].
      injection Ho as <-. cbn [snd] in *. congruence.
    + pose proof (clear_keeps_masks e cli m) as [H1 H2].
      destruct (kbase_vinstr_clear e cli m) as [[r|] m2]; [|done].
      injection Ho as <-. cbn [snd] in *. congruence.
Qed.

(** Property X18.  As long as no attach of a run returns [NULL], the mask
    of the context is exactly the union of the masks of the attached
    clients in every state the run reaches: a dump or a clear changes no
    mask, a detach rebuilds the union, a successful attach adds the mask
    of the new client to it.  A failed attach is the only way for the
    context to keep a bit that no attached client asked for. *)
Theorem mask_is_union_without_failed_attach (dev : kbase_device)
    (ops : list op) (m : machine) :
  exec ops (boot dev) = Some m ->
  attaches_succeed ops (boot dev) ->
  bitmap (m_ctx m) = union_of_masks (clients (m_ctx m)).
Proof.
  intros Hrun Hatt.
  by apply (exec_mask_exact ops (boot dev) m (boot_inv dev)).
Qed.

Lemma mask_is_union_without_failed_attach_witness :
  bitmap (m_ctx (after two_clients dev_v5)) = Bitmap 0 1 15 0.
Proof.
  assert (Hex : exec two_clients (boot dev_v5) =
                Some (after two_clients dev_v5)) by (vm_compute; reflexivity).
  rewrite (mask_is_union_without_failed_attach dev_v5 two_clients _ Hex).
  - reflexivity.
  - vm_compute. repeat split; discriminate.
Defined.

(** ** Size of a dump and repeated accumulation *)

(** Property X19.  Whatever the device reports, and even when the number
    of blocks overflows 32 bits, the size of a dump fits in 32 bits and is
    a whole number of 256-byte blocks; so the walk of
    [accum_dump_buffer], which advances block by block while its offset
    is below the size, makes exactly [dump_size / 256] iterations and
    ends on the last word of the buffer. *)
Theorem dump_size_whole_blocks (ctx : kbase_vinstr_context) :
  let size := kbase_vinstr_dump_size ctx in
  let block_size := NR_CNT_PER_BLOCK * NR_BYTES_PER_CNT in
  0 <= size <= U32_MAX /\
  size mod block_size = 0 /\
  (size + block_size - 1) / block_size = size / block_size /\
  size / sizeof_u32 = NR_CNT_PER_BLOCK * (size / block_size).
Proof.
  cbv zeta. unfold kbase_vinstr_dump_size.
  change (NR_CNT_PER_BLOCK * NR_BYTES_PER_CNT) with 256.
  change NR_CNT_PER_BLOCK with 64. change NR_BYTES_PER_CNT with 4.
  change NR_CNT_BLOCKS_PER_GROUP with 8. change sizeof_u32 with 4.
  change U32_MAX with 4294967295. unfold wrap32.
  change (2 ^ 32) with 4294967296.
  destruct (hw_feature_v4 (kbdev ctx)).
  - set (x := (num_core_groups (kbdev ctx) mod 4294967296 * 8)
                mod 4294967296).
    dlia.
  - set (x := ((2 + num_l2_slices (kbdev ctx) mod 4294967296)
                 mod 4294967296 +
               num_cores (kbdev ctx) mod 4294967296) mod 4294967296).
    dlia.
Qed.

Lemma accum_dump_buffer_counter dst src size k :
  (4 <= k mod 64)%nat -> 4 * Z.of_nat k < size ->
  accum_dump_buffer dst src size !! k =
  match dst !! k, src !! k with
  | Some d, Some s => Some (accum_u32 d s)
  | _, _ => dst !! k
  end.
Proof.
  intros Hk Hsz. unfold accum_dump_buffer.
  rewrite accum_blocks_lookup by reflexivity.
  change (NR_CNT_PER_BLOCK * NR_BYTES_PER_CNT) with 256.
  by rewrite decide_True by dlia.
Qed.

(** Property X20.  Accumulating a sequence of hardware dumps one after the
    other leaves in each counter the exact sum of its old value and of all
    the dumped values, clamped at [U32_MAX]: once a counter has reached
    the maximum it stays there, and the result does not depend on how the
    counts were split between the dumps. *)
Theorem repeated_accumulation_saturates (srcs : list (list Z)) (bs : list Z)
    (dst : list Z) (size : Z) (k : nat) (a : Z) :
  (4 <= k mod 64)%nat -> 4 * Z.of_nat k < size ->
  is_u32 a -> dst !! k = Some a ->
  Forall2 (fun src b => src !! k = Some b /\ is_u32 b) srcs bs ->
  fold_left (fun d src => accum_dump_buffer d src size) srcs dst !! k =
  Some (Z.min (a + fold_right Z.add 0 bs) U32_MAX).
Proof.
  intros Hk Hsz Ha Hd Hall. revert dst a Ha Hd.
  induction Hall as [|src b srcs bs [Hs Hb] Hrest IH]; intros dst a Ha Hd.
  - cbn [fold_left fold_right]. rewrite Hd. f_equal.
    unfold is_u32 in Ha. lia.
  - cbn [fold_left fold_right].
    assert (Hsum : 0 <= fold_right Z.add 0 bs).
    { clear -Hrest. induction Hrest as [|? ? ? ? [_ Hb] _ IH];
        cbn [fold_right]; [lia|]. unfold is_u32 in Hb. lia. }
    rewrite (IH _ (Z.min (a + b) U32_MAX)).
    + f_equal. unfold is_u32, U32_MAX in *. lia.
    + unfold is_u32, U32_MAX in *. lia.
    + rewrite accum_dump_buffer_counter by done.
      by rewrite Hd, Hs, accum_u32_min.
Qed.

Lemma repeated_accumulation_saturates_witness :
  fold_left (fun d src => accum_dump_buffer d src 256)
    [replicate 64 4294967290; replicate 64 3; replicate 64 9]
    (replicate 64 5) !! 7%nat = Some U32_MAX.
Proof.
  rewrite (repeated_accumulation_saturates
             [replicate 64 4294967290; replicate 64 3; replicate 64 9]
             [4294967290; 3; 9] (replicate 64 5) 256 7 5).
  - reflexivity.
  - cbn. lia.
  - lia.
  - unfold is_u32, U32_MAX. lia.
  - reflexivity.
  - repeat constructor; unfold U32_MAX; lia.
Defined.

(** Property X21.  Under [MALI_SEC_HWCNT], when the context has exactly
    one client and the hardware counter block is marked as attached, a
    dump that the hardware completes returns 0 straight away: nothing is
    accumulated, nothing is copied to the destination of the client, and
    no reprogram is attempted, so the caller is told of a success and
    receives no data. *)
Theorem dump_sec_shortcut_delivers_nothing (e : dump_env) (cli : Z)
    (m : machine) (c : kbase_vinstr_client) :
  cli <> 0 ->
  find_client cli (clients (m_ctx m)) = Some c ->
  request_dump_ret e = 0 -> wait_for_dump_ret e = 0 ->
  MALI_SEC_HWCNT (kbdev (m_ctx m)) = true ->
  list_is_singular (clients (m_ctx m)) = true ->
  hwcnt_is_attach e = true ->
  let r := fst (kbase_vinstr_dump e cli m) in
  let m' := snd (kbase_vinstr_dump e cli m) in
  r = Some 0 /\ m_ctx m' = m_ctx m /\
  delivered (m_trace m') = delivered (m_trace m).
Proof.
  intros Hcli Hfind Hreq Hwait Hsec Hone Hatt. cbv zeta.
  rewrite kbase_vinstr_dump_paths. cbv zeta.
  rewrite (proj2 (Z.eqb_neq _ _) Hcli), Hfind, Hreq, Hwait, Hsec, Hone, Hatt.
  change (0 =? 0) with true. cbn [negb andb fst snd m_ctx m_trace].
  by repeat split.
Qed.

Lemma dump_sec_shortcut_delivers_nothing_witness :
  fst (kbase_vinstr_dump env_sec_attached 16 (one_ready dev_sec)) = Some 0 /\
  delivered (m_trace (snd (kbase_vinstr_dump env_sec_attached 16
                             (one_ready dev_sec)))) = [].
Proof.
  destruct (dump_sec_shortcut_delivers_nothing env_sec_attached 16
              (one_ready dev_sec) (ready_client 16 (Bitmap 0 0 15 0) 320))
    as (H1 & _ & H2); [lia | reflexivity..|].
  split; [exact H1 | exact H2].
Defined.

(** Property X22.  A dump whose copy succeeds restarts the accumulation
    of the caller: whether or not a reprogram follows, and whether or not
    it succeeds, the accumulation buffer of the caller is afterwards all
    zero, with its size unchanged, so the next dump delivers only what the
    hardware has counted since. *)
Theorem dump_restarts_accumulation (e : dump_env) (cli : Z) (m : machine)
    (c : kbase_vinstr_client) :
  reaches_copy e cli m c ->
  kernel c = true \/ copy_to_user_ret e = 0 ->
  length (accum_buffer c) = Z.to_nat (cli_dump_size c / sizeof_u32) ->
  exists c',
    find_client cli (clients (m_ctx (snd (kbase_vinstr_dump e cli m)))) =
      Some c' /\
    accum_buffer c' = replicate (length (accum_buffer c)) 0 /\
    cli_dump_size c' = cli_dump_size c.
Proof.
  intros (Hcli & Hfind & Hreq & Hwait & Hsec) Hcopy Hlen.
  rewrite kbase_vinstr_dump_paths. cbv zeta.
  rewrite (proj2 (Z.eqb_neq _ _) Hcli), Hfind, Hreq, Hwait, Hsec.
  change (0 =? 0) with true. cbn [negb].
  assert (Hc : negb (kernel c) && negb (copy_to_user_ret e =? 0) = false).
  { destruct Hcopy as [->| ->]; [done|]. by rewrite andb_false_r. }
  rewrite Hc. cbn [snd].
  edestruct (reprogram_tail_find e) as (c' & Hf' & Hbuf & Hsz); [|
    exists c'; split; [exact Hf'|]; rewrite Hbuf, Hsz].
  - cbn [m_ctx clients set_clients].
    rewrite find_client_update by apply clear_accum_keeps_addr.
    by rewrite find_client_fmap, Hfind by apply accum_client_keeps_addr.
  - unfold clear_accum. cbn [accum_buffer cli_dump_size set_accum_buffer].
    rewrite accum_client_dump_size.
    rewrite memset0_whole by (by rewrite accum_client_length).
    by rewrite accum_client_length.
Qed.

Lemma dump_restarts_accumulation_witness :
  exists c',
    find_client 16 (clients (m_ctx (snd (kbase_vinstr_dump
      (env_dump (replicate 320 7) 0 0) 16 (two_ready dev_v5))))) = Some c' /\
    accum_buffer c' = replicate 320 0.
Proof.
  destruct (dump_restarts_accumulation (env_dump (replicate 320 7) 0 0) 16
              (two_ready dev_v5) (ready_client 16 (Bitmap 0 0 15 0) 320))
    as (c' & H1 & H2 & _).
  - repeat split; [lia | reflexivity..].
  - right. reflexivity.
  - vm_compute. reflexivity.
  - exists c'. split; [exact H1 | exact H2].
Defined.

(** Property X23.  In every state that a run reaches, an attach that
    returns [NULL] leaks nothing and attaches nothing: the list of clients
    and their count are as they were, and as many hardware contexts,
    buffer regions and mappings are alive as before, whichever step of the
    attach failed. *)
Theorem failed_attach_leaks_nothing (dev : kbase_device) (ops : list op)
    (m : machine) (e : attach_env) (k : bool) (d : Z) (b : bitmap4) :
  exec ops (boot dev) = Some m ->
  attach_env_ok e (m_ctx m) = true ->
  fst (kbase_vinstr_attach_client e k d b m) = 0 ->
  let m' := snd (kbase_vinstr_attach_client e k d b m) in
  clients (m_ctx m') = clients (m_ctx m) /\
  nclients (m_ctx m') = nclients (m_ctx m) /\
  live kctx_delta (m_trace m') = live kctx_delta (m_trace m) /\
  live region_delta (m_trace m') = live region_delta (m_trace m) /\
  live vmap_delta (m_trace m') = live vmap_delta (m_trace m).
Proof.
  intros Hrun Hok Hr. cbv zeta.
  destruct (reachable_invs _ _ _ Hrun) as [Hi _].
  pose proof (attach_inv e k d b m Hi Hok) as Hi1.
  unfold attach_env_ok in Hok.
  apply andb_prop in Hok as [Hok _]. apply andb_prop in Hok as [Hen _].
  apply Z.leb_le in Hen.
  destruct (attach_outcome e k d b m Hen) as
    [_ [(_ & Hcl & Hn & _)|(Hr0 & _)]]; [|done].
  destruct Hi as [_ _ _ _ _ _ _ Hk1 Hk2 Hk3].
  destruct Hi1 as [_ _ _ _ _ _ _ Hk1' Hk2' Hk3'].
  rewrite Hk1, Hk2, Hk3, Hk1', Hk2', Hk3', Hcl. by repeat split.
Qed.

Lemma failed_attach_leaks_nothing_witness :
  let m := after two_clients dev_v5 in
  let m' := snd (kbase_vinstr_attach_client (env_no_accum 48) false 0
                   (Bitmap 1 0 0 0) m) in
  clients (m_ctx m') = clients (m_ctx m) /\
  live kctx_delta (m_trace m') = live kctx_delta (m_trace m).
Proof.
  intros m m'.
  assert (Hex : exec two_clients (boot dev_v5) = Some m)
    by (vm_compute; reflexivity).
  destruct (failed_attach_leaks_nothing dev_v5 two_clients m
              (env_no_accum 48) false 0 (Bitmap 1 0 0 0) Hex)
    as (H1 & _ & H2 & _).
  - vm_compute. reflexivity.
  - vm_compute. reflexivity.
  - split; [exact H1 | exact H2].
Defined.

(** Property X24.  Patching the headers never touches a counter: with the
    walk of either layout, chosen as [accum_clients] chooses it, every
    word of the accumulation buffer that is not one of the 4 header words
    of a block is afterwards what it was before. *)
Theorem patch_leaves_counters (dev : kbase_device) (bm : bitmap4)
    (src dst : list Z) (k : nat) :
  length dst = length src ->
  (4 <= k mod 64)%nat ->
  (if hw_feature_v4 dev
   then patch_dump_buffer_hdr_v4 dev bm src dst
   else patch_dump_buffer_hdr_v5 dev bm src dst) !! k = dst !! k.
Proof.
  intros Hlen Hk. destruct (hw_feature_v4 dev) eqn:Hv.
  - rewrite patch_dump_buffer_hdr_v4_lookup by done.
    by rewrite decide_False by lia.
  - rewrite patch_dump_buffer_hdr_v5_lookup by done.
    by rewrite decide_False by lia.
Qed.

Lemma patch_leaves_counters_witness :
  patch_dump_buffer_hdr_v4 dev_v4 all_ones (replicate 512 9)
    (replicate 512 5) !! 70%nat = Some 5.
Proof.
  apply (patch_leaves_counters dev_v4 all_ones (replicate 512 9)
           (replicate 512 5) 70).
  - reflexivity.
  - cbn. lia.
Defined.
